(** * Session_3 travel planner: the response normaliser, the three
    aggregation pipelines and the two orchestrator flows of [app.py]

    The development embeds [app.py] function by function.  Python text is
    a list of Unicode code points, decoded JSON is the inductive [json],
    an exception is a value of [outcome], and everything that reaches
    outside the process (HTTP, the text generator, the clock, the
    random generator) is read from an explicit environment [Env], one
    answer per interaction. *)

From Stdlib Require Import ZArith NArith Lia List Ascii String.
From stdpp Require Import base list gmap.

Set Warnings "-register-all".
#[local] Open Scope N_scope.

(* ================================================================= *)
(** ** Text *)

(** A Python [str] is its sequence of code points. *)
Abbreviation pystr := (list N).

(** A literal of the source.  Rocq strings are bytes, so [lit] is used
    for ASCII literals only; other code points are spliced by number. *)
Definition lit (s : string) : pystr :=
  map N_of_ascii (list_ascii_of_string s).

Definition DQUOTE : N := 34.

(** [qlit] is [lit] with every apostrophe read as a double quote, to
    write JSON samples. *)
Definition qlit (s : string) : pystr :=
  map (fun c => if c =? 39 then DQUOTE else c) (lit s).

(** [str.isspace] on one code point, which is also the class [\s] of a
    [str] pattern. *)
Definition is_space (c : N) : bool :=
  ((9 <=? c) && (c <=? 13)) || ((28 <=? c) && (c <=? 32))
  || (c =? 133) || (c =? 160) || (c =? 5760)
  || ((8192 <=? c) && (c <=? 8202))
  || (c =? 8232) || (c =? 8233) || (c =? 8239) || (c =? 8287) || (c =? 12288).

(** The greedy [\s*]: what is left after the leading whitespace. *)
Fixpoint drop_space (s : pystr) : pystr :=
  match s with
  | c :: r => if is_space c then drop_space r else s
  | [] => []
  end.

(** [s.startswith(p)], returning what follows the prefix. *)
Fixpoint strip_prefix (p s : pystr) : option pystr :=
  match p, s with
  | [], _ => Some s
  | a :: p', b :: s' => if a =? b then strip_prefix p' s' else None
  | _ :: _, [] => None
  end.

Definition str_eqb (a b : pystr) : bool := bool_decide (a = b).

(** [str.strip()] *)
Definition strip (s : pystr) : pystr :=
  rev (drop_space (rev (drop_space s))).

(** [s.split(sep)[0]] for a one-character separator: the text before its
    first occurrence, all of [s] when there is none. *)
Fixpoint split_head (sep : N) (s : pystr) : pystr :=
  match s with
  | [] => []
  | c :: r => if c =? sep then [] else c :: split_head sep r
  end.

Definition is_digit (c : N) : bool := (48 <=? c) && (c <=? 57).

(** Leading ASCII digits and the rest. *)
Fixpoint span_digits (s : pystr) : pystr * pystr :=
  match s with
  | c :: r =>
      if is_digit c then let '(ds, t) := span_digits r in (c :: ds, t)
      else ([], s)
  | [] => ([], [])
  end.

(** The value of a run of ASCII digits. *)
Definition digits_value (ds : pystr) : Z :=
  fold_left (fun acc c => (acc * 10 + Z.of_N (c - 48))%Z) ds 0%Z.

(** [str(n)] of an integer. *)
Fixpoint nat_digits (fuel : nat) (n : N) (acc : pystr) : pystr :=
  match fuel with
  | O => acc
  | S fuel' =>
      let acc' := (48 + n mod 10) :: acc in
      if n / 10 =? 0 then acc' else nat_digits fuel' (n / 10) acc'
  end.

Definition str_of_int (z : Z) : pystr :=
  let n := Z.abs_N z in
  let ds := nat_digits (S (N.to_nat (N.log2 n))) n [] in
  if (z <? 0)%Z then 45 :: ds else ds.

(* ================================================================= *)
(** ** Exceptions *)

(** The exception classes the program can meet; all derive from
    [Exception].  [JSONDecodeError] is the only one a handler of the
    source names. *)
Inductive exn_class :=
| JSONDecodeError | ValueError | TypeError | KeyError | AttributeError
| IndexError | OverflowError | RecursionError | BadRequestKeyError
| CollaboratorError.

#[global] Instance exn_class_eq_dec : EqDecision exn_class.
Proof. solve_decision. Defined.

(** An exception: its class and [str(e)]. *)
Record exn := Exn { exn_cls : exn_class; exn_str : pystr }.

Inductive outcome (A : Type) : Type :=
| Return (a : A)
| Raise (e : exn).
Arguments Return {A} a.
Arguments Raise {A} e.

#[global] Instance outcome_ret : MRet outcome := fun A a => Return a.
#[global] Instance outcome_bind : MBind outcome := fun A B k m =>
  match m with Return a => k a | Raise e => Raise e end.

Definition raise {A} (c : exn_class) (msg : string) : outcome A :=
  Raise (Exn c (lit msg)).

(** [try: body  except cls: h1  except Exception: h2] *)
Definition try_except2 {A} (body : outcome A) (cls : exn_class)
    (h1 h2 : exn -> outcome A) : outcome A :=
  match body with
  | Return a => Return a
  | Raise e => if decide (exn_cls e = cls) then h1 e else h2 e
  end.

(* ================================================================= *)
(** ** Decoded JSON values *)

(** What [json.loads] builds.  [JNull] is [None]; a [dict] is its items
    in insertion order, keys distinct; an integer literal is a Python
    [int]; a literal with a fraction or an exponent, [NaN], [Infinity]
    and [-Infinity] are Python floats, kept as their literal (binary
    floating point is not modelled). *)
Inductive json :=
| JNull
| JBool (b : bool)
| JInt (z : Z)
| JFloat (literal : pystr)
| JStr (s : pystr)
| JArr (l : list json)
| JObj (d : list (pystr * json)).

Abbreviation pydict := (list (pystr * json)).

Fixpoint dict_lookup (k : pystr) (d : pydict) : option json :=
  match d with
  | [] => None
  | (k', v) :: r => if str_eqb k k' then Some v else dict_lookup k r
  end.

(** [d[k] = v] *)
Fixpoint dict_set (k : pystr) (v : json) (d : pydict) : pydict :=
  match d with
  | [] => [(k, v)]
  | (k', v') :: r =>
      if str_eqb k k' then (k, v) :: r else (k', v') :: dict_set k v r
  end.

(** [dict(pairs)] *)
Definition dict_of_pairs (pairs : pydict) : pydict :=
  fold_left (fun d kv => dict_set kv.1 kv.2 d) pairs [].

(** The dictionary displays of the source, whose keys are ASCII. *)
Definition dict_display (items : list (string * json)) : json :=
  JObj (dict_of_pairs (map (fun kv => (lit kv.1, kv.2)) items)).

Definition jstr (s : string) : json := JStr (lit s).

(* ================================================================= *)
(** ** [json.loads]

    The decoder follows CPython's [json.decoder] and [json.scanner]
    (strict mode, no hooks).  A parser takes the text still to read and
    returns the value with the text after it.  A [JSONDecodeError]
    carries the decoder's message without the position. *)

Definition decode_error {A} (msg : string) : outcome A :=
  raise JSONDecodeError msg.

Definition is_json_ws (c : N) : bool :=
  (c =? 32) || (c =? 9) || (c =? 10) || (c =? 13).

Fixpoint skip_ws (s : pystr) : pystr :=
  match s with
  | c :: r => if is_json_ws c then skip_ws r else s
  | [] => []
  end.

Definition hex_digit (c : N) : option N :=
  if (48 <=? c) && (c <=? 57) then Some (c - 48)
  else if (97 <=? c) && (c <=? 102) then Some (c - 87)
  else if (65 <=? c) && (c <=? 70) then Some (c - 55)
  else None.

Definition hex4 (a b c d : N) : option N :=
  a ← hex_digit a; b ← hex_digit b; c ← hex_digit c; d ← hex_digit d;
  Some (((a * 16 + b) * 16 + c) * 16 + d).

Definition is_high_surrogate (c : N) : bool := (55296 <=? c) && (c <=? 56319).
Definition is_low_surrogate (c : N) : bool := (56320 <=? c) && (c <=? 57343).
Definition join_surrogates (hi lo : N) : N :=
  65536 + ((hi - 55296) * 1024 + (lo - 56320)).

(** The table BACKSLASH of the decoder. *)
Definition escape_char (e : N) : option N :=
  if e =? 34 then Some 34 else if e =? 92 then Some 92
  else if e =? 47 then Some 47 else if e =? 98 then Some 8
  else if e =? 102 then Some 12 else if e =? 110 then Some 10
  else if e =? 114 then Some 13 else if e =? 116 then Some 9
  else None.

Definition cons_char (c : N) (r : outcome (pystr * pystr))
  : outcome (pystr * pystr) :=
  match r with
  | Return (s, rest) => Return (c :: s, rest)
  | Raise e => Raise e
  end.

(** [scanstring]: [s] follows the opening quote. *)
Fixpoint scanstring (s : pystr) : outcome (pystr * pystr) :=
  match s with
  | [] => decode_error "Unterminated string starting at"
  | c :: r =>
      if c =? 34 then Return ([], r)
      else if c =? 92 then
        match r with
        | [] => decode_error "Unterminated string starting at"
        | e :: r1 =>
            if e =? 117 then
              match r1 with
              | a :: b :: c1 :: d :: r2 =>
                  match hex4 a b c1 d with
                  | None => decode_error "Invalid \uXXXX escape"
                  | Some hi =>
                      match r2 with
                      | b2 :: u2 :: e2 :: f2 :: g2 :: h2 :: r3 =>
                          if is_high_surrogate hi && (b2 =? 92) && (u2 =? 117)
                          then
                            match hex4 e2 f2 g2 h2 with
                            | None => decode_error "Invalid \uXXXX escape"
                            | Some lo =>
                                if is_low_surrogate lo
                                then cons_char (join_surrogates hi lo)
                                               (scanstring r3)
                                else cons_char hi (scanstring r2)
                            end
                          else cons_char hi (scanstring r2)
                      | _ => cons_char hi (scanstring r2)
                      end
                  end
              | _ => decode_error "Invalid \uXXXX escape"
              end
            else
              match escape_char e with
              | Some c' => cons_char c' (scanstring r1)
              | None => decode_error "Invalid \escape"
              end
        end
      else if c <=? 31 then decode_error "Invalid control character at"
      else cons_char c (scanstring r)
  end.

(** The default of [sys.set_int_max_str_digits]. *)
Definition max_str_digits : nat := 4300.

(** [int(integer)] for a literal matched by the first group of
    NUMBER_RE. *)
Definition int_of_literal (integer : pystr) : outcome json :=
  let '(neg, ds) :=
    match integer with 45 :: ds => (true, ds) | _ => (false, integer) end in
  if bool_decide (max_str_digits < length ds)%nat
  then raise ValueError
         "Exceeds the limit (4300 digits) for integer string conversion"
  else Return (JInt (if neg then - digits_value ds else digits_value ds)%Z).

(** NUMBER_RE group by group: an optional minus sign and either a single
    0 or a digit 1-9 followed by digits; an optional fraction, a dot and
    at least one digit; an optional exponent, e or E, an optional sign
    and at least one digit. *)
Definition match_integer (s : pystr) : option (pystr * pystr) :=
  let '(sign, t) :=
    match s with 45 :: t => ([45], t) | _ => ([], s) end in
  match t with
  | c :: r =>
      if c =? 48 then Some (sign ++ [c], r)
      else if is_digit c
           then let '(ds, r') := span_digits r in Some (sign ++ c :: ds, r')
           else None
  | [] => None
  end.

Definition match_frac (s : pystr) : pystr * pystr :=
  match s with
  | 46 :: t =>
      match span_digits t with
      | ([], _) => ([], s)
      | (ds, r) => (46 :: ds, r)
      end
  | _ => ([], s)
  end.

Definition match_exp (s : pystr) : pystr * pystr :=
  match s with
  | c :: t =>
      if (c =? 101) || (c =? 69) then
        let '(sign, t') :=
          match t with
          | x :: t' => if (x =? 43) || (x =? 45) then ([x], t') else ([], t)
          | [] => ([], t)
          end in
        match span_digits t' with
        | ([], _) => ([], s)
        | (ds, r) => (c :: sign ++ ds, r)
        end
      else ([], s)
  | [] => ([], s)
  end.

Definition match_number (s : pystr) : option (outcome json * pystr) :=
  '(integer, r1) ← match_integer s;
  let '(frac, r2) := match_frac r1 in
  let '(exp, r3) := match_exp r2 in
  match frac, exp with
  | [], [] => Some (int_of_literal integer, r3)
  | _, _ => Some (Return (JFloat (integer ++ frac ++ exp)), r3)
  end.

(** The named constants of the scanner. *)
Definition constants : list (string * json) :=
  [("null", JNull); ("true", JBool true); ("false", JBool false);
   ("NaN", JFloat (lit "NaN")); ("Infinity", JFloat (lit "Infinity"));
   ("-Infinity", JFloat (lit "-Infinity"))]%string.

Fixpoint match_constant (cs : list (string * json)) (s : pystr)
  : option (json * pystr) :=
  match cs with
  | [] => None
  | (name, v) :: cs' =>
      match strip_prefix (lit name) s with
      | Some rest => Some (v, rest)
      | None => match_constant cs' s
      end
  end.

Section Containers.

(** [scan_once] one level further down. *)
Variable scan_once : pystr -> outcome (json * pystr).

(** The loop of [JSONObject]; [s] follows the opening quote of a key and
    [n] bounds the number of members by the length of the text. *)
Fixpoint object_members (n : nat) (s : pystr) (pairs : pydict)
  : outcome (json * pystr) :=
  match n with
  | O => decode_error "Unterminated string starting at"
  | S n' =>
      '(key, s1) ← scanstring s;
      match skip_ws s1 with
      | 58 :: s2 =>
          '(value, s3) ← scan_once (skip_ws s2);
          let pairs := pairs ++ [(key, value)] in
          match skip_ws s3 with
          | 125 :: s4 => Return (JObj (dict_of_pairs pairs), s4)
          | 44 :: s4 =>
              match skip_ws s4 with
              | 34 :: s5 => object_members n' s5 pairs
              | _ => decode_error
                       "Expecting property name enclosed in double quotes"
              end
          | _ => decode_error "Expecting ',' delimiter"
          end
      | _ => decode_error "Expecting ':' delimiter"
      end
  end.

(** [JSONObject]: [s] follows the opening brace. *)
Definition JSONObject (s : pystr) : outcome (json * pystr) :=
  match skip_ws s with
  | 125 :: r => Return (JObj [], r)
  | 34 :: r => object_members (length r) r []
  | _ => decode_error "Expecting property name enclosed in double quotes"
  end.

(** The loop of [JSONArray]; [s] is at the next value. *)
Fixpoint array_items (n : nat) (s : pystr) (values : list json)
  : outcome (json * pystr) :=
  match n with
  | O => decode_error "Expecting value"
  | S n' =>
      '(value, s1) ← scan_once s;
      let values := values ++ [value] in
      match skip_ws s1 with
      | 93 :: s2 => Return (JArr values, s2)
      | 44 :: s2 => array_items n' (skip_ws s2) values
      | _ => decode_error "Expecting ',' delimiter"
      end
  end.

(** [JSONArray]: [s] follows the opening bracket. *)
Definition JSONArray (s : pystr) : outcome (json * pystr) :=
  match skip_ws s with
  | 93 :: r => Return (JArr [], r)
  | s' => array_items (length s') s' []
  end.

End Containers.

(** [scan_once]; [depth] is the number of nested calls the interpreter
    still allows. *)
Fixpoint scan_once (depth : nat) (s : pystr) : outcome (json * pystr) :=
  match depth with
  | O => raise RecursionError
           "maximum recursion depth exceeded while decoding a JSON document"
  | S depth' =>
      match s with
      | [] => decode_error "Expecting value"
      | c :: r =>
          if c =? 34 then '(str, rest) ← scanstring r; mret (JStr str, rest)
          else if c =? 123 then JSONObject (scan_once depth') r
          else if c =? 91 then JSONArray (scan_once depth') r
          else
            match match_constant constants s with
            | Some (v, rest) => Return (v, rest)
            | None =>
                match match_number s with
                | Some (v, rest) => v ← v; mret (v, rest)
                | None => decode_error "Expecting value"
                end
            end
      end
  end.

(** CPython's default recursion limit. *)
Definition recursion_limit : nat := 1000.

(** [json.loads(s)] for a [str]. *)
Definition json_loads (s : pystr) : outcome json :=
  match s with
  | 65279 :: _ =>
      decode_error "Unexpected UTF-8 BOM (decode using utf-8-sig)"
  | _ =>
      '(obj, rest) ← scan_once recursion_limit (skip_ws s);
      match skip_ws rest with
      | [] => Return obj
      | _ => decode_error "Extra data"
      end
  end.

(* ================================================================= *)
(** ** The regular expressions of [clean_and_parse_response] *)

(** A pattern that cannot match the empty text, compiled by hand: tried
    at the head of the text, it gives the replacement of the match and
    the text after the match. *)
Definition matcher := pystr -> option (pystr * pystr).

(** [re.sub]: the text is scanned from the left; a match is replaced and
    the scan resumes after it, a character where nothing matches is
    copied.  [n] bounds the number of steps by the length of the text. *)
Fixpoint re_sub_steps (m : matcher) (n : nat) (s : pystr) : pystr :=
  match n, s with
  | S n', c :: r =>
      match m s with
      | Some (repl, rest) => repl ++ re_sub_steps m n' rest
      | None => c :: re_sub_steps m n' r
      end
  | _, _ => []
  end.

Definition re_sub (m : matcher) (s : pystr) : pystr :=
  re_sub_steps m (length s) s.

(** A literal followed by whitespace, replaced by the empty text. *)
Definition fence_of (p : pystr) : matcher := fun s =>
  rest ← strip_prefix p s; Some ([], drop_space rest).

Definition BACKTICKS : pystr := [96; 96; 96].

(** The pattern of line 43: the fence with its language tag and the
    whitespace after it. *)
Definition fence_json : matcher := fence_of (BACKTICKS ++ lit "json").

(** The pattern of line 44: a bare fence and the whitespace after it. *)
Definition fence : matcher := fence_of BACKTICKS.

Definition is_closer (c : N) : bool := (c =? 93) || (c =? 125).

(** The pattern of line 51, a comma, whitespace and a closing bracket or
    brace; replaced by its group 1, the closer. *)
Definition trailing_comma : matcher := fun s =>
  match s with
  | 44 :: r =>
      match drop_space r with
      | c :: rest => if is_closer c then Some ([c], rest) else None
      | [] => None
      end
  | _ => None
  end.

(** [s[i:]] for the first [i] with [s[i] = c]. *)
Fixpoint from_first (c : N) (s : pystr) : option pystr :=
  match s with
  | [] => None
  | x :: r => if x =? c then Some s else from_first c r
  end.

(** [s[:j+1]] for the last [j] with [s[j] = c]. *)
Fixpoint upto_last (c : N) (s : pystr) : option pystr :=
  match s with
  | [] => None
  | x :: r =>
      match upto_last c r with
      | Some t => Some (x :: t)
      | None => if x =? c then Some [x] else None
      end
  end.

(** [re.search] with the pattern of line 47, an opening brace, any
    characters (greedy) and a closing brace: the leftmost match starts
    at the first opening brace and ends at the last closing brace after
    it.  The result is [group(0)]. *)
Definition search_object (s : pystr) : option pystr :=
  match from_first 123 s with
  | Some (b :: r) => t ← upto_last 125 r; Some (b :: t)
  | _ => None
  end.

(* ================================================================= *)
(** ** [clean_and_parse_response] *)

Definition NL : pystr := [10].

(** The dictionary the three fallback branches return (lines 56-70,
    75-89 and 93-107 are the same display). *)
Definition fallback_itinerary : json :=
  dict_display
    [("destination", jstr "Paris, France");
     ("itinerary",
        JStr (lit "1. Arrive and explore the city center." ++ NL
              ++ lit "2. Visit famous landmarks." ++ NL
              ++ lit "3. Enjoy local cuisine and culture."));
     ("cuisine", jstr "1. Try local specialties and traditional dishes.");
     ("fun_fact", jstr "This destination has amazing culture!");
     ("estimated_cost",
        dict_display
          [("Accommodation", jstr "$100-200/night");
           ("Food", jstr "$50-100/day");
           ("Activities", jstr "$30-80/day");
           ("Transportation", jstr "$20-50/day");
           ("Total", jstr "$500-1000 for 5 days")]);
     ("best_time_to_visit", jstr "Spring and fall offer the best weather");
     ("packing_tips",
        JStr (lit "1. Comfortable walking shoes." ++ NL
              ++ lit "2. Weather-appropriate clothing." ++ NL
              ++ lit "3. Essential travel items."))]%string.

(** The body of the [try] statement, lines 42-70. *)
Definition clean_and_parse_body (text : pystr) : outcome json :=
  let text := re_sub fence_json text in
  let text := re_sub fence text in
  match search_object text with
  | Some json_str =>
      let json_str := re_sub trailing_comma json_str in
      json_loads json_str
  | None => Return fallback_itinerary
  end.

(** Lines 39-107.  The handlers only print before they return. *)
Definition clean_and_parse_response (text : pystr) : outcome json :=
  try_except2 (clean_and_parse_body text) JSONDecodeError
    (fun _ => Return fallback_itinerary)
    (fun _ => Return fallback_itinerary).

(* ================================================================= *)
(** ** Calendar dates

    The functions of CPython's [datetime] that the program reaches
    through [strptime], [+ timedelta(days=n)] and [strftime].  A
    [datetime] is kept as its date: the program reads nothing else of
    it. *)

#[local] Open Scope Z_scope.

Record date := Date { year : Z; month : Z; day : Z }.

Definition MINYEAR : Z := 1.
Definition MAXYEAR : Z := 9999.
Definition MAXORDINAL : Z := 3652059.

Definition is_leap (y : Z) : bool :=
  (y mod 4 =? 0) && (negb (y mod 100 =? 0) || (y mod 400 =? 0)).

Definition DAYS_IN_MONTH : list Z :=
  [-1; 31; 28; 31; 30; 31; 30; 31; 31; 30; 31; 30; 31].

Definition DAYS_BEFORE_MONTH : list Z :=
  [-1; 0; 31; 59; 90; 120; 151; 181; 212; 243; 273; 304; 334].

Definition days_before_year (y : Z) : Z :=
  let y := y - 1 in y * 365 + y / 4 - y / 100 + y / 400.

Definition days_in_month (y m : Z) : Z :=
  if (m =? 2) && is_leap y then 29 else nth (Z.to_nat m) DAYS_IN_MONTH 0.

Definition days_before_month (y m : Z) : Z :=
  nth (Z.to_nat m) DAYS_BEFORE_MONTH 0
  + (if (2 <? m) && is_leap y then 1 else 0).

Definition ymd2ord (y m d : Z) : Z :=
  days_before_year y + days_before_month y m + d.

Definition toordinal (d : date) : Z := ymd2ord (year d) (month d) (day d).

Definition DI400Y : Z := 146097.
Definition DI100Y : Z := 36524.
Definition DI4Y : Z := 1461.

(** The end of [_ord2ymd]: month and day of the day number [n], counted
    from 0, of a year. *)
Definition month_and_day (leapyear : bool) (n : Z) : Z * Z :=
  let m := Z.shiftr (n + 50) 5 in
  let preceding :=
    nth (Z.to_nat m) DAYS_BEFORE_MONTH 0
    + (if (2 <? m) && leapyear then 1 else 0) in
  if n <? preceding then
    let m := m - 1 in
    let preceding :=
      preceding
      - (nth (Z.to_nat m) DAYS_IN_MONTH 0
         + (if (m =? 2) && leapyear then 1 else 0)) in
    (m, n - preceding + 1)
  else (m, n - preceding + 1).

Definition ord2ymd (n : Z) : date :=
  let n := n - 1 in
  let n400 := n / DI400Y in
  let n := n mod DI400Y in
  let y := n400 * 400 + 1 in
  let n100 := n / DI100Y in
  let n := n mod DI100Y in
  let n4 := n / DI4Y in
  let n := n mod DI4Y in
  let n1 := n / 365 in
  let n := n mod 365 in
  let y := y + n100 * 100 + n4 * 4 + n1 in
  if (n1 =? 4) || (n100 =? 4) then Date (y - 1) 12 31
  else
    let leapyear := (n1 =? 3) && (negb (n4 =? 24) || (n100 =? 3)) in
    let '(m, d) := month_and_day leapyear n in
    Date y m d.

(** The check of the [date] constructor. *)
Definition valid_date (d : date) : bool :=
  (MINYEAR <=? year d) && (year d <=? MAXYEAR)
  && (1 <=? month d) && (month d <=? 12)
  && (1 <=? day d) && (day d <=? days_in_month (year d) (month d)).

(** [timedelta(days=n)]: the days are kept as a C [int] and their
    magnitude is checked. *)
Definition timedelta (n : Z) : outcome Z :=
  if Z.abs n <=? 999999999 then Return n
  else if (-2147483648 <=? n) && (n <=? 2147483647) then
    Raise (Exn OverflowError
             (lit "days=" ++ str_of_int n
              ++ lit "; must have magnitude <= 999999999"))
  else raise OverflowError "Python int too large to convert to C int".

(** [d + delta] *)
Definition date_add (d : date) (delta : Z) : outcome date :=
  let n := toordinal d + delta in
  if (0 <? n) && (n <=? MAXORDINAL) then Return (ord2ymd n)
  else raise OverflowError "date value out of range".

(** Decimal digits of [z], left-padded with zeros to [width]. *)
Definition zero_pad (width : nat) (z : Z) : pystr :=
  let ds := str_of_int z in
  repeat 48%N (width - length ds) ++ ds.

(** [d.strftime('%Y-%m-%d')] as the C library of Linux formats it: the
    year without padding, so that a year before 1000 has fewer than
    four digits; the month and the day on two digits. *)
Definition strftime (d : date) : pystr :=
  str_of_int (year d) ++ [45%N] ++ zero_pad 2 (month d) ++ [45%N]
  ++ zero_pad 2 (day d).

Definition in_range (lo hi c : N) : bool := ((lo <=? c) && (c <=? hi))%N.

(** [%m], the alternatives 1[0-2], 0[1-9] and [1-9] in this order, the
    first one that the hyphen of the format follows. *)
Definition strptime_month (s : pystr) : option (pystr * pystr) :=
  let two :=
    match s with
    | a :: b :: 45%N :: r =>
        if ((a =? 49)%N && in_range 48 50 b) || ((a =? 48)%N && in_range 49 57 b)
        then Some ([a; b], r) else None
    | _ => None
    end in
  match two with
  | Some x => Some x
  | None =>
      match s with
      | a :: 45%N :: r => if in_range 49 57 a then Some ([a], r) else None
      | _ => None
      end
  end.

(** The whitespace [int] skips at both ends of a text: the ASCII
    whitespace of C, and the Unicode whitespace outside ASCII. *)
Definition is_int_space (c : N) : bool :=
  (in_range 9 13 c || (c =? 32) || ((127 <? c) && is_space c))%N.

Fixpoint drop_int_space (s : pystr) : pystr :=
  match s with
  | c :: r => if is_int_space c then drop_int_space r else s
  | [] => []
  end.

Section Strptime.

(** [repr] of a [str], which the messages of [ValueError] quote. *)
Variable str_repr : pystr -> pystr.

(** The decimal value the Unicode tables give a character outside
    ASCII, when it is a decimal digit. *)
Variable unicode_decimal : N -> option Z.

(** The ASCII digit that stands for a decimal digit, as [int] reads it:
    an ASCII digit is itself, a character outside ASCII the digit of
    its decimal value. *)
Definition ascii_digit (c : N) : option N :=
  if is_digit c then Some c
  else if (c <? 128)%N then None
  else
    match unicode_decimal c with
    | Some v => if (0 <=? v) && (v <=? 9) then Some (48 + Z.to_N v)%N else None
    | None => None
    end.

(** [\d] of a pattern on [str]. *)
Definition is_decimal (c : N) : bool :=
  match ascii_digit c with Some _ => true | None => false end.

Definition to_ascii (c : N) : N := default c (ascii_digit c).

(** The value [int] gives a run of decimal digits. *)
Definition decimal_value (ds : pystr) : Z := digits_value (map to_ascii ds).

(** [%d], the alternatives 3[0-1], [1-2]\d, 0[1-9], [1-9] and a space
    with [1-9] in this order; the pattern ends here, so the first
    alternative that matches is taken. *)
Definition strptime_day (s : pystr) : option (pystr * pystr) :=
  let two :=
    match s with
    | a :: b :: r =>
        if ((a =? 51)%N && in_range 48 49 b)
           || (in_range 49 50 a && is_decimal b)
           || ((a =? 48)%N && in_range 49 57 b)
        then Some ([a; b], r) else None
    | _ => None
    end in
  match two with
  | Some x => Some x
  | None =>
      match s with
      | a :: r =>
          if in_range 49 57 a then Some ([a], r)
          else
            match r with
            | b :: r' =>
                if (a =? 32)%N && in_range 49 57 b then Some ([b], r')
                else None
            | [] => None
            end
      | [] => None
      end
  end.

(** [datetime.strptime(s, '%Y-%m-%d')]: the year is four decimal
    digits. *)
Definition strptime (s : pystr) : outcome date :=
  let no_match :=
    Raise (Exn ValueError
             (lit "time data " ++ str_repr s
              ++ lit " does not match format '%Y-%m-%d'")) in
  match s with
  | y1 :: y2 :: y3 :: y4 :: 45%N :: r =>
      if is_decimal y1 && is_decimal y2 && is_decimal y3 && is_decimal y4
      then
        match strptime_month r with
        | Some (m, r1) =>
            match strptime_day r1 with
            | Some (d, []) =>
                let dt := Date (decimal_value [y1; y2; y3; y4])
                               (decimal_value m) (decimal_value d) in
                if valid_date dt then Return dt
                else if year dt =? 0
                     then raise ValueError "year 0 is out of range"
                     else raise ValueError "day is out of range for month"
            | Some (_, rest) =>
                Raise (Exn ValueError
                         (lit "unconverted data remains: " ++ rest))
            | None => no_match
            end
        | None => no_match
        end
      else no_match
  | _ => no_match
  end.

(** The digits of an [int] literal: single underscores may stand between
    digits. *)
Fixpoint int_digits (s : pystr) : option pystr :=
  match s with
  | [] => None
  | c :: r =>
      if is_decimal c then
        match r with
        | [] => Some [c]
        | 95%N :: r' => ds ← int_digits r'; Some (c :: ds)
        | _ :: _ => ds ← int_digits r; Some (c :: ds)
        end
      else None
  end.

(** [int(s)] for a [str], base 10: whitespace at both ends, a sign,
    decimal digits. *)
Definition py_int (s : pystr) : outcome Z :=
  let invalid :=
    Raise (Exn ValueError
             (lit "invalid literal for int() with base 10: "
              ++ take 200 (str_repr s))) in
  let t := rev (drop_int_space (rev (drop_int_space s))) in
  let '(neg, body) :=
    match t with
    | 45%N :: b => (true, b)
    | 43%N :: b => (false, b)
    | _ => (false, t)
    end in
  match int_digits body with
  | Some ds =>
      if bool_decide (max_str_digits < length ds)%nat
      then Raise (Exn ValueError
                    (lit "Exceeds the limit (4300 digits) for integer string conversion: value has "
                     ++ str_of_int (Z.of_nat (length ds))
                     ++ lit " digits; use sys.set_int_max_str_digits() to increase the limit"))
      else Return (if neg then - decimal_value ds else decimal_value ds)
  | None => invalid
  end.

End Strptime.

(* ================================================================= *)
(** ** Python operations on decoded values *)

(** What the interpreter computes on floats and with the Unicode tables,
    and the zone of the process: the operations the program applies and
    this development does not define. *)
Record Platform := {
  (** [float(literal) == 0.0] *)
  float_is_zero : pystr -> bool;
  (** [round(float(literal))] *)
  float_round : pystr -> outcome Z;
  (** [str(v)] of a float, a list or a dict *)
  str_other : json -> pystr;
  (** [repr(s)] of a [str] *)
  str_repr : pystr -> pystr;
  (** [s.title()] *)
  str_title : pystr -> pystr;
  (** [unicodedata.decimal] of a character outside ASCII that is a
      decimal digit *)
  unicode_decimal : N -> option Z;
  (** the local date of [datetime.fromtimestamp(v)] *)
  fromtimestamp : json -> outcome date
}.

Definition type_name (v : json) : string :=
  match v with
  | JNull => "NoneType" | JBool _ => "bool" | JInt _ => "int"
  | JFloat _ => "float" | JStr _ => "str" | JArr _ => "list"
  | JObj _ => "dict"
  end.

Definition quoted (s : pystr) : pystr := [39%N] ++ s ++ [39%N].

Definition no_attribute {A} (v : json) (attr : string) : outcome A :=
  Raise (Exn AttributeError
           (quoted (lit (type_name v)) ++ lit " object has no attribute "
            ++ quoted (lit attr))).

Definition type_error {A} (v : json) (what : string) : outcome A :=
  Raise (Exn TypeError (quoted (lit (type_name v)) ++ lit what)).

Section Values.

Variable P : Platform.

(** [bool(v)] *)
Definition truthy (v : json) : bool :=
  match v with
  | JNull => false
  | JBool b => b
  | JInt z => negb (z =? 0)
  | JFloat l => negb (float_is_zero P l)
  | JStr s => negb (bool_decide (s = []))
  | JArr l => negb (bool_decide (length l = 0%nat))
  | JObj d => negb (bool_decide (length d = 0%nat))
  end.

(** [str(v)], as an f-string formats a value. *)
Definition format_value (v : json) : pystr :=
  match v with
  | JNull => lit "None"
  | JBool true => lit "True"
  | JBool false => lit "False"
  | JInt z => str_of_int z
  | JStr s => s
  | _ => str_other P v
  end.

(** [v.get(key, default)] with a [str] key *)
Definition py_get (v : json) (key : string) (dflt : json) : outcome json :=
  match v with
  | JObj d => Return (default dflt (dict_lookup (lit key) d))
  | _ => no_attribute v "get"
  end.

(** [v.get(key, default)] with a decoded value as the key: the keys of a
    decoded dict are strings, lists and dicts are not hashable. *)
Definition py_get_value (v key dflt : json) : outcome json :=
  match v with
  | JObj d =>
      match key with
      | JStr k => Return (default dflt (dict_lookup k d))
      | JArr _ | JObj _ => type_error key " is not hashable"
      | _ => Return dflt
      end
  | _ => no_attribute v "get"
  end.

(** [v[key]] with a [str] key *)
Definition py_item (v : json) (key : string) : outcome json :=
  match v with
  | JObj d =>
      match dict_lookup (lit key) d with
      | Some x => Return x
      | None => Raise (Exn KeyError (quoted (lit key)))
      end
  | JStr _ => raise TypeError "string indices must be integers, not 'str'"
  | JArr _ => raise TypeError "list indices must be integers or slices, not str"
  | _ => type_error v " object is not subscriptable"
  end.

(** [v[0]] *)
Definition py_first (v : json) : outcome json :=
  match v with
  | JArr (x :: _) => Return x
  | JArr [] => raise IndexError "list index out of range"
  | JStr (c :: _) => Return (JStr [c])
  | JStr [] => raise IndexError "string index out of range"
  | JObj _ => raise KeyError "0"
  | _ => type_error v " object is not subscriptable"
  end.

(** [v[-1]] *)
Definition py_last (v : json) : outcome json :=
  match v with
  | JArr l =>
      match last l with
      | Some x => Return x
      | None => raise IndexError "list index out of range"
      end
  | JStr s =>
      match last s with
      | Some c => Return (JStr [c])
      | None => raise IndexError "string index out of range"
      end
  | JObj _ => raise KeyError "-1"
  | _ => type_error v " object is not subscriptable"
  end.

(** [v[:n]] *)
Definition py_slice_to (n : nat) (v : json) : outcome json :=
  match v with
  | JArr l => Return (JArr (take n l))
  | JStr s => Return (JStr (take n s))
  | JObj _ => raise KeyError "slice(None, n, None)"
  | _ => type_error v " object is not subscriptable"
  end.

(** [len(v)] *)
Definition py_len (v : json) : outcome Z :=
  match v with
  | JArr l => Return (Z.of_nat (length l))
  | JStr s => Return (Z.of_nat (length s))
  | JObj d => Return (Z.of_nat (length d))
  | _ => type_error v " has no len()"
  end.

(** The items a [for] statement draws from [v]. *)
Definition py_iter (v : json) : outcome (list json) :=
  match v with
  | JArr l => Return l
  | JStr s => Return (map (fun c => JStr [c]) s)
  | JObj d => Return (map (fun kv => JStr kv.1) d)
  | _ => type_error v " object is not iterable"
  end.

(** [round(v)] *)
Definition py_round (v : json) : outcome json :=
  match v with
  | JInt z => Return (JInt z)
  | JBool b => Return (JInt (if b then 1 else 0))
  | JFloat l => z ← float_round P l; mret (JInt z)
  | _ => type_error v " doesn't define __round__ method"
  end.

(** [v.title()] *)
Definition py_title (v : json) : outcome json :=
  match v with
  | JStr s => Return (JStr (str_title P s))
  | _ => no_attribute v "title"
  end.

(** [v.split(',')[0].strip()] *)
Definition py_city_name (v : json) : outcome pystr :=
  match v with
  | JStr s => Return (strip (split_head 44%N s))
  | _ => no_attribute v "split"
  end.

End Values.

(* ================================================================= *)
(** ** The world outside the process *)

Inductive http_method := GET | POST.

(** A call of [requests.get] or [requests.post]; [req_fields] is
    [params] of the first and [data] of the second. *)
Record request := {
  req_method : http_method;
  req_url : pystr;
  req_headers : list (pystr * pystr);
  req_fields : list (pystr * json)
}.

Record response := { status_code : Z; text : pystr }.

(** [response.json()] *)
Definition response_json (r : response) : outcome json := json_loads (text r).

(** The configuration read when the module is loaded, and the answers of
    the collaborators.  The index is the number of interactions the
    process has had so far, so that two calls need not agree. *)
Record Env := {
  AMADEUS_API_KEY : option pystr;
  AMADEUS_API_SECRET : option pystr;
  OPENWEATHER_API_KEY : option pystr;
  (** [requests.get], [requests.post] *)
  requests_send : nat -> request -> outcome response;
  (** [model.generate_content(prompt).text] *)
  generate_content : nat -> pystr -> outcome pystr;
  (** [datetime.now()] *)
  datetime_now : nat -> date;
  (** the index [random.choice] draws, before it is reduced to the
      length of the sequence *)
  random_index : nat -> nat;
  platform : Platform
}.

(** A computation that may raise and that interacts with the world: from
    the number of interactions so far to its outcome and the new
    number. *)
Definition M (A : Type) : Type := nat -> outcome A * nat.

#[global] Instance M_ret : MRet M := fun A a t => (Return a, t).
#[global] Instance M_bind : MBind M := fun A B k m t =>
  match m t with
  | (Return a, t') => k a t'
  | (Raise e, t') => (Raise e, t')
  end.

Definition lift {A} (o : outcome A) : M A := fun t => (o, t).

(** [try: body  except Exception as e: handler] *)
Definition try_except {A} (body : M A) (handler : exn -> M A) : M A :=
  fun t =>
    match body t with
    | (Return a, t') => (Return a, t')
    | (Raise e, t') => handler e t'
    end.

(** A [for] loop over [items] that updates [acc]. *)
Fixpoint for_each {A B} (body : B -> A -> M B) (items : list A) (acc : B)
  : M B :=
  match items with
  | [] => mret acc
  | x :: r => acc' ← body acc x; for_each body r acc'
  end.

(** [not s] for a configuration value. *)
Definition unset (s : option pystr) : bool :=
  match s with
  | None | Some [] => true
  | Some _ => false
  end.

Definition config (s : option pystr) : json :=
  match s with Some v => JStr v | None => JNull end.

(* ================================================================= *)
(** ** The fallback data providers *)

Definition ARROW : pystr := lit " " ++ [8594%N] ++ lit " ".

(** Lines 256-283. *)
Definition get_fallback_flights
    (origin destination departure_date return_date : pystr) : json :=
  let flight (airline price note : string) :=
    dict_display
      [("airline", jstr airline);
       ("route", JStr (origin ++ ARROW ++ destination));
       ("price", jstr price);
       ("departure", JStr departure_date);
       ("return", JStr return_date);
       ("note", jstr note)]%string in
  JArr
    [flight "Generic Airlines" "$400-800"
       "Prices vary by airline and booking time. (Fallback Data)";
     flight "Budget Carrier" "$300-600"
       "Check for additional fees. (Fallback Data)";
     flight "Premium Flights" "$600-1200"
       "Includes meals and baggage. (Fallback Data)"]%string.

(** Lines 351-375. *)
Definition get_fallback_hotels (city_name : pystr) : json :=
  let hotel (name rating price location amenities : string) :=
    dict_display
      [("name", JStr (lit name ++ city_name));
       ("rating", jstr rating);
       ("price", jstr price);
       ("location", jstr location);
       ("amenities", jstr amenities)]%string in
  JArr
    [hotel "Budget Stay in " "4.2/5" "$80-150/night" "City Center"
       "WiFi, Breakfast. (Fallback Data)";
     hotel "Mid-Range Comfort in " "4.5/5" "$150-250/night"
       "Near Attractions" "WiFi, Pool, Restaurant. (Fallback Data)";
     hotel "Luxury Retreat in " "4.8/5" "$250-500/night" "Prime Location"
       "WiFi, Spa, Fine Dining. (Fallback Data)"]%string.

Section Pipelines.

Variable E : Env.
Let P := platform E.

Definition requests_get (url : string) (headers : list (pystr * pystr))
    (params : list (string * json)) : M response :=
  fun t =>
    (requests_send E t
       {| req_method := GET; req_url := lit url; req_headers := headers;
          req_fields := map (fun kv => (lit kv.1, kv.2)) params |},
     S t).

Definition requests_post (url : string) (headers : list (pystr * pystr))
    (data : list (string * json)) : M response :=
  fun t =>
    (requests_send E t
       {| req_method := POST; req_url := lit url; req_headers := headers;
          req_fields := map (fun kv => (lit kv.1, kv.2)) data |},
     S t).

Definition now : M date := fun t => (Return (datetime_now E t), S t).

(** The header built from a token. *)
Definition bearer (token : json) : list (pystr * pystr) :=
  [(lit "Authorization", lit "Bearer " ++ format_value P token)].

(** The body of one round of the loop of lines 447-454. *)
Definition fallback_weather_day (base_date : date) (forecast : list json)
    (i : Z) : outcome (list json) :=
  delta ← timedelta i;
  d ← date_add base_date delta;
  mret (forecast ++
        [dict_display
           [("date", JStr (strftime d));
            ("temperature", JInt (20 + i mod 5));
            ("description", jstr "Partly Cloudy (Fallback)");
            ("icon", jstr "02d")]%string]).

(** Lines 443-455. *)
Definition get_fallback_weather (city_name : pystr) : M json :=
  base_date ← now;
  forecast ← for_each (fun acc i => lift (fallback_weather_day base_date acc i))
                      [0; 1; 2; 3; 4] [];
  mret (JArr forecast).

(** Lines 109-134. *)
Definition get_amadeus_token : M json :=
  try_except
    (if unset (AMADEUS_API_KEY E) || unset (AMADEUS_API_SECRET E)
     then mret JNull
     else
       response ←
         requests_post "https://test.api.amadeus.com/v1/security/oauth2/token"
           [(lit "Content-Type", lit "application/x-www-form-urlencoded")]
           [("grant_type", jstr "client_credentials");
            ("client_id", config (AMADEUS_API_KEY E));
            ("client_secret", config (AMADEUS_API_SECRET E))]%string;
       if status_code response =? 200
       then body ← lift (response_json response);
            lift (py_get body "access_token" JNull)
       else mret JNull)
    (fun _ => mret JNull).

(** Lines 136-169. *)
Definition search_city_code (city_name : pystr) : M json :=
  try_except
    (token ← get_amadeus_token;
     if negb (truthy P token) then mret JNull
     else
       response ←
         requests_get "https://test.api.amadeus.com/v1/reference-data/locations"
           (bearer token)
           [("subType", jstr "CITY"); ("keyword", JStr city_name)]%string;
       if status_code response =? 200 then
         data ← lift (response_json response);
         found ← lift (
           d ← py_get data "data" JNull;
           if truthy P d
           then d ← py_item data "data"; n ← py_len d; mret (0 <? n)
           else mret false);
         if found : bool then
           lift (d ← py_item data "data"; x ← py_first d; py_item x "iataCode")
         else mret JNull
       else mret JNull)
    (fun _ => mret JNull).

(** The record of an offer without itinerary or segment detail, lines
    231-238 and 240-247. *)
Definition flight_without_details
    (origin_code dest_code currency price : json)
    (departure_date return_date : pystr) : json :=
  dict_display
    [("airline", jstr "Multiple Airlines");
     ("route", JStr (format_value P origin_code ++ ARROW
                     ++ format_value P dest_code));
     ("price", JStr (format_value P currency ++ lit " "
                     ++ format_value P price));
     ("departure", JStr departure_date);
     ("return", JStr return_date);
     ("note", jstr "Itinerary details not fully available")]%string.

(** The body of the loop of lines 209-247. *)
Definition flight_of_offer (data origin_code dest_code : json)
    (departure_date return_date : pystr) (flights : list json) (offer : json)
  : outcome (list json) :=
  p ← py_item offer "price"; price ← py_item p "total";
  p ← py_item offer "price"; currency ← py_item p "currency";
  itineraries ← py_get offer "itineraries" (JArr []);
  if truthy P itineraries then
    first ← py_first itineraries;
    segments ← py_get first "segments" (JArr []);
    if truthy P segments then
      s0 ← py_first segments;
      airline_code ← py_get s0 "carrierCode" (jstr "N/A");
      dictionaries ← py_get data "dictionaries" (JObj []);
      carriers ← py_get dictionaries "carriers" (JObj []);
      airline_name ←
        py_get_value carriers airline_code (jstr "Multiple Airlines");
      s0 ← py_first segments;
      departure ← py_get s0 "departure" (JObj []);
      departure_airport ← py_get departure "iataCode" origin_code;
      s1 ← py_last segments;
      arrival ← py_get s1 "arrival" (JObj []);
      arrival_airport ← py_get arrival "iataCode" dest_code;
      n ← py_len segments;
      mret (flights ++
            [dict_display
               [("airline", airline_name);
                ("route", JStr (format_value P departure_airport ++ ARROW
                                ++ format_value P arrival_airport));
                ("price", JStr (format_value P currency ++ lit " "
                                ++ format_value P price));
                ("departure", JStr departure_date);
                ("return", JStr return_date);
                ("note", if (n =? 1)%Z then jstr "Direct flight"
                         else jstr "Connecting flight")]%string])
    else
      mret (flights ++
            [flight_without_details origin_code dest_code currency price
               departure_date return_date])
  else
    mret (flights ++
          [flight_without_details origin_code dest_code currency price
             departure_date return_date]).

(** The body of the [try] statement of [search_flights], lines 174-251. *)
Definition search_flights_body
    (origin destination departure_date return_date : pystr) : M json :=
  let fallback :=
    get_fallback_flights origin destination departure_date return_date in
  token ← get_amadeus_token;
  if negb (truthy P token) then mret fallback
  else
    origin_code ← search_city_code origin;
    dest_code ← search_city_code destination;
    if negb (truthy P origin_code) || negb (truthy P dest_code)
    then mret fallback
    else
      response ←
        requests_get "https://test.api.amadeus.com/v2/shopping/flight-offers"
          (bearer token)
          [("originLocationCode", origin_code);
           ("destinationLocationCode", dest_code);
           ("departureDate", JStr departure_date);
           ("returnDate", JStr return_date);
           ("adults", JInt 1);
           ("max", JInt 5)]%string;
      if status_code response =? 200 then
        data ← lift (response_json response);
        offers ← lift (py_get data "data" JNull);
        flights ← lift (
          if truthy P offers then
            d ← py_item data "data";
            d ← py_slice_to 3 d;
            items ← py_iter d;
            foldl (fun acc offer =>
                     flights ← acc;
                     flight_of_offer data origin_code dest_code
                       departure_date return_date flights offer)
                  (Return []) items
          else mret []);
        mret (if truthy P (JArr flights) then JArr flights else fallback)
      else mret fallback.

(** Lines 171-254. *)
Definition search_flights
    (origin destination departure_date return_date : pystr) : M json :=
  try_except
    (search_flights_body origin destination departure_date return_date)
    (fun _ =>
       mret (get_fallback_flights origin destination departure_date
               return_date)).

(** The body of the loop of lines 332-342: one offer of one hotel. *)
Definition hotel_of_offer (city_name : pystr) (body : json)
    (hotels : list json) (offer : json) : outcome (list json) :=
  d ← py_item body "data"; h ← py_first d;
  h ← py_get h "hotel" (JObj []);
  hotel_name ← py_get h "name" (jstr "Hotel Name Unknown");
  p ← py_get offer "price" (JObj []);
  price_total ← py_get p "total" (jstr "N/A");
  p ← py_get offer "price" (JObj []);
  currency ← py_get p "currency" (jstr "");
  mret (hotels ++
        [dict_display
           [("name", hotel_name);
            ("rating", jstr "N/A");
            ("price", JStr (format_value P currency ++ lit " "
                            ++ format_value P price_total ++ lit "/night"));
            ("location", JStr city_name);
            ("amenities", jstr "WiFi, Breakfast")]%string]).

(** The body of the loop of lines 319-344: one hotel id. *)
Definition hotel_offers (token : json) (city_name check_in check_out : pystr)
    (hotels : list json) (hotel_id : json) : M (list json) :=
  hotel_offer_response ←
    requests_get "https://test.api.amadeus.com/v3/shopping/hotel-offers"
      (bearer token)
      [("hotelIds", hotel_id);
       ("checkInDate", JStr check_in);
       ("checkOutDate", JStr check_out);
       ("adults", JInt 1);
       ("currency", jstr "USD")]%string;
  has_data ← lift (
    if status_code hotel_offer_response =? 200
    then body ← response_json hotel_offer_response;
         d ← py_get body "data" JNull; mret (truthy P d)
    else mret false);
  if has_data : bool then
    lift (
      body ← response_json hotel_offer_response;
      d ← py_item body "data"; h ← py_first d;
      offers ← py_get h "offers" (JArr []);
      offers ← py_slice_to 1 offers;
      items ← py_iter offers;
      foldl (fun acc offer =>
               hotels ← acc; hotel_of_offer city_name body hotels offer)
            (Return hotels) items)
  else mret hotels.

(** The body of the [try] statement of [search_hotels], lines 288-346. *)
Definition search_hotels_body (city_name check_in check_out : pystr)
  : M json :=
  token ← get_amadeus_token;
  if negb (truthy P token) then mret (get_fallback_hotels city_name)
  else
    city_code ← search_city_code city_name;
    if negb (truthy P city_code) then mret (get_fallback_hotels city_name)
    else
      hotel_list_response ←
        requests_get
          "https://test.api.amadeus.com/v1/reference-data/locations/hotels/by-city"
          (bearer token)
          [("cityCode", city_code);
           ("radius", JInt 20);
           ("radiusUnit", jstr "KM")]%string;
      has_data ← lift (
        if status_code hotel_list_response =? 200
        then body ← response_json hotel_list_response;
             d ← py_get body "data" JNull; mret (truthy P d)
        else mret false);
      hotel_ids ← lift (
        if has_data : bool then
          body ← response_json hotel_list_response;
          d ← py_item body "data";
          d ← py_slice_to 5 d;
          items ← py_iter d;
          foldl (fun acc hotel_info =>
                   hotel_ids ← acc;
                   hotel_id ← py_item hotel_info "hotelId";
                   mret (hotel_ids ++ [hotel_id]))
                (Return []) items
        else mret []);
      hotels ←
        (if truthy P (JArr hotel_ids)
         then for_each (hotel_offers token city_name check_in check_out)
                       hotel_ids []
         else mret []);
      mret (if truthy P (JArr hotels) then JArr hotels
            else get_fallback_hotels city_name).

(** Lines 285-349. *)
Definition search_hotels (city_name check_in check_out : pystr) : M json :=
  try_except
    (search_hotels_body city_name check_in check_out)
    (fun _ => mret (get_fallback_hotels city_name)).

(** The entry appended for an item, lines 427-436. *)
Definition forecast_entry (date_str : pystr) (item : json) : outcome json :=
  m ← py_item item "main"; temp ← py_item m "temp";
  temp ← py_round P temp;
  w ← py_item item "weather"; w ← py_first w;
  description ← py_item w "description";
  w ← py_item item "weather"; w ← py_first w;
  icon ← py_item w "icon";
  description ← py_title P description;
  mret (dict_display
          [("date", JStr date_str);
           ("temperature", temp);
           ("description", description);
           ("icon", icon)]%string).

(** [datetime.fromtimestamp(item['dt']).strftime('%Y-%m-%d')], lines
    422-423. *)
Definition item_date (item : json) : outcome pystr :=
  dt ← py_item item "dt";
  date_obj ← fromtimestamp P dt;
  mret (strftime date_obj).

(** The body of the loop of lines 421-436; the state is [forecast] and
    [seen_dates]. *)
Definition forecast_of_item (st : list json * gset pystr) (item : json)
  : outcome (list json * gset pystr) :=
  let '(forecast, seen_dates) := st in
  date_str ← item_date item;
  if bool_decide (date_str ∉ seen_dates)
     && bool_decide (length forecast < 5)%nat
  then
    let seen_dates := {[date_str]} ∪ seen_dates in
    entry ← forecast_entry date_str item;
    mret (forecast ++ [entry], seen_dates)
  else mret (forecast, seen_dates).

(** The loop of lines 421-436 from a given state. *)
Definition forecast_loop (items : list json) (st : list json * gset pystr)
  : outcome (list json * gset pystr) :=
  foldl (fun acc item => st ← acc; forecast_of_item st item) (Return st) items.

(** Lines 416-436: the forecast built from the decoded answer. *)
Definition collect_forecast (weather_data : json) : outcome (list json) :=
  l ← py_get weather_data "list" JNull;
  if truthy P l then
    l ← py_item weather_data "list";
    items ← py_iter l;
    st ← forecast_loop items ([], ∅);
    mret st.1
  else mret [].

(** The body of the [try] statement of [get_weather_forecast], lines
    380-438. *)
Definition get_weather_forecast_body (city_name start_date end_date : pystr)
  : M json :=
  if unset (OPENWEATHER_API_KEY E) then get_fallback_weather city_name
  else
    geocode_response ←
      requests_get "http://api.openweathermap.org/geo/1.0/direct" []
        [("q", JStr city_name);
         ("limit", JInt 1);
         ("appid", config (OPENWEATHER_API_KEY E))]%string;
    failed ← lift (
      if negb (status_code geocode_response =? 200) then mret true
      else body ← response_json geocode_response; mret (negb (truthy P body)));
    if failed : bool then get_fallback_weather city_name
    else
      geocode_data ← lift (response_json geocode_response);
      lat ← lift (g ← py_first geocode_data; py_item g "lat");
      lon ← lift (g ← py_first geocode_data; py_item g "lon");
      weather_response ←
        requests_get "https://api.openweathermap.org/data/2.5/forecast" []
          [("lat", lat);
           ("lon", lon);
           ("appid", config (OPENWEATHER_API_KEY E));
           ("units", jstr "metric")]%string;
      if negb (status_code weather_response =? 200)
      then get_fallback_weather city_name
      else
        weather_data ← lift (response_json weather_response);
        forecast ← lift (collect_forecast weather_data);
        if truthy P (JArr forecast) then mret (JArr forecast)
        else get_fallback_weather city_name.

(** Lines 377-441. *)
Definition get_weather_forecast (city_name start_date end_date : pystr)
  : M json :=
  try_except
    (get_weather_forecast_body city_name start_date end_date)
    (fun _ => get_fallback_weather city_name).

End Pipelines.

(* ================================================================= *)
(** ** The orchestrator *)

(** [request.form]: the fields of the posted form, a field's first value
    being the one read. *)
Abbreviation form := (list (pystr * pystr)).

(** [request.form[key]] *)
Definition form_item (f : form) (key : string) : outcome pystr :=
  match list_find (fun kv => kv.1 = lit key) f with
  | Some (_, (_, v)) => Return v
  | None =>
      raise BadRequestKeyError
        "400 Bad Request: The browser (or proxy) sent a request that this server could not understand."
  end.

(** The end of both prompts, from the line of the cuisine on: lines
    487-501 and 571-585 are the same text. *)
Definition prompt_tail : pystr :=
  qlit "            'cuisine': 'Specific local dishes and restaurants to try with names and specialties. Format as a numbered list with restaurant names and dish descriptions. Each cuisine item should be a separate line item.'," ++ NL
  ++ qlit "            'fun_fact': 'Interesting and specific fact about the destination that most people don" ++ [39%N] ++ qlit "t know'," ++ NL
  ++ qlit "            'estimated_cost': {" ++ NL
  ++ qlit "                'Accommodation': 'Detailed cost breakdown with specific price ranges'," ++ NL
  ++ qlit "                'Food': 'Cost for meals and dining with specific amounts'," ++ NL
  ++ qlit "                'Activities': 'Cost for attractions and experiences with specific prices'," ++ NL
  ++ qlit "                'Transportation': 'Local transport costs with specific amounts'," ++ NL
  ++ qlit "                'Total': 'Total estimated cost with clear breakdown'" ++ NL
  ++ lit "            }," ++ NL
  ++ qlit "            'best_time_to_visit': 'Specific months and reasons why, tailored to the destination'," ++ NL
  ++ qlit "            'packing_tips': 'Specific items to pack based on the destination and season, formatted as a numbered list. Each packing tip should be a separate line item.'" ++ NL
  ++ lit "        }" ++ NL
  ++ lit "        " ++ NL
  ++ lit "        Make the response detailed, specific, and practical. Include actual place names, restaurant names, and specific activities. Ensure all lists are properly formatted with clear numbering, and do NOT include any trailing commas in the JSON." ++ NL
  ++ lit "        ".

(** The f-string of lines 471-501. *)
Definition directed_prompt
    (user_mood user_budget user_duration user_travel_style user_origin
     user_travel_means user_hotel_preference user_departure_date : pystr)
  : pystr :=
  NL
  ++ lit "        You are an expert travel planner. Create a personalized travel itinerary based on these preferences:" ++ NL
  ++ lit "        " ++ NL
  ++ lit "        Travel Mood: "
  ++ user_mood ++ NL
  ++ lit "        Budget: $"
  ++ user_budget ++ NL
  ++ lit "        Duration: "
  ++ user_duration
  ++ lit " days" ++ NL
  ++ lit "        Travel Style: "
  ++ user_travel_style ++ NL
  ++ lit "        Origin: "
  ++ user_origin ++ NL
  ++ lit "        Travel Means: "
  ++ user_travel_means ++ NL
  ++ lit "        Hotel Preference: "
  ++ user_hotel_preference ++ NL
  ++ lit "        Departure Date: "
  ++ user_departure_date ++ NL
  ++ lit "        " ++ NL
  ++ lit "        Create a detailed travel plan in JSON format with the following structure:" ++ NL
  ++ lit "        {" ++ NL
  ++ qlit "            'destination': 'Specific city and country name'," ++ NL
  ++ qlit "            'itinerary': 'Detailed day-by-day itinerary with specific activities, times, and locations. Format as a numbered list with clear day separations. Each day should be a separate line item.'," ++ NL
  ++ prompt_tail.

(** The f-string of lines 564-585. *)
Definition surprise_prompt (random_destination : pystr) : pystr :=
  NL
  ++ lit "        You are an expert travel planner. Create a surprise travel itinerary for: "
  ++ random_destination ++ NL
  ++ lit "        " ++ NL
  ++ lit "        This is a surprise destination, so make it exciting and unexpected! Create a detailed travel plan in JSON format with the following structure:" ++ NL
  ++ lit "        {" ++ NL
  ++ qlit "            'destination': '"
  ++ random_destination
  ++ qlit "'," ++ NL
  ++ qlit "            'itinerary': 'Detailed day-by-day itinerary with specific activities, times, and locations for 5 days. Format as a numbered list with clear day separations. Each day should be a separate line item.'," ++ NL
  ++ prompt_tail.

(** Lines 547-558. *)
Definition surprise_destinations : list pystr :=
  map lit
    ["Kyoto, Japan"; "Santorini, Greece"; "Reykjavik, Iceland";
     "Marrakech, Morocco"; "Bali, Indonesia"; "Cape Town, South Africa";
     "Prague, Czech Republic"; "Queenstown, New Zealand";
     "Dubrovnik, Croatia"; "Banff, Canada"]%string.

(** The dictionary of lines 541 and 625. *)
Definition error_response (message : pystr) : json :=
  dict_display [("success", JBool false); ("error", JStr message)]%string.

(** Lines 512-513: the return date of the directed flow. *)
Definition compute_return_date (P : Platform)
    (user_departure_date user_duration : pystr) : outcome pystr :=
  departure_date ←
    strptime (str_repr P) (unicode_decimal P) user_departure_date;
  days ← py_int (str_repr P) (unicode_decimal P) user_duration;
  delta ← timedelta days;
  d ← date_add departure_date delta;
  mret (strftime d).

Section Orchestrator.

Variable E : Env.
Let P := platform E.

(** [model.generate_content(prompt)] and the [text] of its answer. *)
Definition generate (prompt : pystr) : M pystr :=
  fun t => (generate_content E t prompt, S t).

(** [random.choice(seq)] *)
Definition random_choice (seq : list pystr) : M pystr :=
  fun t =>
    (match seq !! (random_index E t mod length seq)%nat with
     | Some x => Return x
     | None => raise IndexError "Cannot choose from an empty sequence"
     end, S t).

(** The dictionary of lines 523-535 and of lines 607-619. *)
Definition response_data (destination : json) (description : pystr)
    (itinerary_data flights_data hotels_data weather_data : json)
  : outcome json :=
  itinerary ← py_get itinerary_data "itinerary" (jstr "Itinerary not available");
  cuisine ← py_get itinerary_data "cuisine"
              (jstr "Local cuisine information not available");
  estimated_cost ← py_get itinerary_data "estimated_cost" (JObj []);
  best_time_to_visit ← py_get itinerary_data "best_time_to_visit"
                         (jstr "Year-round destination");
  packing_tips ← py_get itinerary_data "packing_tips"
                   (jstr "Pack according to season");
  mret (dict_display
          [("success", JBool true);
           ("destination", destination);
           ("description", JStr description);
           ("itinerary", itinerary);
           ("cuisine", cuisine);
           ("estimated_cost", estimated_cost);
           ("best_time_to_visit", best_time_to_visit);
           ("packing_tips", packing_tips);
           ("flight_options", flights_data);
           ("hotel_options", hotels_data);
           ("weather_forecast", weather_data)]%string).

(** The body of the [try] statement of [generate_itinerary], lines
    460-537; the result is the dictionary given to [jsonify]. *)
Definition generate_itinerary_body (f : form) : M json :=
  user_mood ← lift (form_item f "mood");
  user_budget ← lift (form_item f "budget");
  user_duration ← lift (form_item f "duration");
  user_travel_style ← lift (form_item f "travel_style");
  user_origin ← lift (form_item f "origin_city");
  user_travel_means ← lift (form_item f "travel_means");
  user_hotel_preference ← lift (form_item f "hotel_preference");
  user_departure_date ← lift (form_item f "departure_date");
  let prompt :=
    directed_prompt user_mood user_budget user_duration user_travel_style
      user_origin user_travel_means user_hotel_preference
      user_departure_date in
  text ← generate prompt;
  itinerary_data ← lift (clean_and_parse_response text);
  destination ←
    lift (py_get itinerary_data "destination" (jstr "Unknown Destination"));
  city_name ← lift (py_city_name destination);
  return_date ← lift (compute_return_date P user_departure_date user_duration);
  flights_data ←
    search_flights E user_origin city_name user_departure_date return_date;
  hotels_data ← search_hotels E city_name user_departure_date return_date;
  weather_data ←
    get_weather_forecast E city_name user_departure_date return_date;
  lift (response_data destination
          (lit "Your perfect " ++ user_mood ++ lit " getaway awaits!")
          itinerary_data flights_data hotels_data weather_data).

(** Lines 457-541: the JSON body of the answer and its status. *)
Definition generate_itinerary (f : form) : M (json * Z) :=
  try_except
    (data ← generate_itinerary_body f; mret (data, 200))
    (fun e =>
       mret (error_response (lit "Error generating itinerary: " ++ exn_str e),
             500)).

(** The body of the [try] statement of [surprise_destination], lines
    546-621. *)
Definition surprise_destination_body : M json :=
  random_destination ← random_choice surprise_destinations;
  let prompt := surprise_prompt random_destination in
  text ← generate prompt;
  itinerary_data ← lift (clean_and_parse_response text);
  destination ←
    lift (py_get itinerary_data "destination" (JStr random_destination));
  city_name ← lift (py_city_name destination);
  today ← now E;
  tomorrow ← lift (delta ← timedelta 1; d ← date_add today delta;
                   mret (strftime d));
  today ← now E;
  return_date ← lift (delta ← timedelta 6; d ← date_add today delta;
                      mret (strftime d));
  flights_data ← search_flights E (lit "New York") city_name tomorrow return_date;
  hotels_data ← search_hotels E city_name tomorrow return_date;
  weather_data ← get_weather_forecast E city_name tomorrow return_date;
  lift (response_data destination
          (lit "Surprise! Your next adventure awaits in "
           ++ format_value P destination ++ lit "!")
          itinerary_data flights_data hotels_data weather_data).

(** Lines 543-625. *)
Definition surprise_destination : M (json * Z) :=
  try_except
    (data ← surprise_destination_body; mret (data, 200))
    (fun _ =>
       mret (error_response
               (lit "An internal error occurred while generating the surprise destination."),
             500)).

End Orchestrator.

(* ================================================================= *)
(** ** Predicates of the statements *)

(** A matcher consumes at least one character and leaves a suffix of the
    text. *)
Definition shrinks (m : matcher) : Prop :=
  forall s repl rest,
    m s = Some (repl, rest) -> (length rest < length s)%nat.

(** Some suffix of the text starts with a match. *)
Fixpoint matches_somewhere (m : matcher) (s : pystr) : bool :=
  match s with
  | [] => false
  | _ :: r => bool_decide (is_Some (m s)) || matches_somewhere m r
  end.

(** The six top-level fields of an ItineraryDraft. *)
Definition draft_fields : list string :=
  ["destination"; "itinerary"; "cuisine"; "estimated_cost";
   "best_time_to_visit"; "packing_tips"]%string.

Definition has_key (v : json) (key : string) : bool :=
  match v with
  | JObj d => bool_decide (is_Some (dict_lookup (lit key) d))
  | _ => false
  end.

Definition has_all_draft_fields (v : json) : bool :=
  forallb (has_key v) draft_fields.

(** [needle in hay] *)
Fixpoint contains (needle hay : pystr) : bool :=
  match hay with
  | [] => bool_decide (needle = [])
  | _ :: r => bool_decide (is_Some (strip_prefix needle hay)) || contains needle r
  end.

(** The checks that the proofs about the calendar run over an interval:
    month and day of a day number, the text of a year, the text of a
    day. *)
Definition month_and_day_ok (leap : bool) (n : Z) : bool :=
  let '(m, d) := month_and_day leap n in
  (1 <=? m) && (m <=? 12) && (1 <=? d)
  && (d <=? (if (m =? 2) && leap then 29 else nth (Z.to_nat m) DAYS_IN_MONTH 0))
  && (nth (Z.to_nat m) DAYS_BEFORE_MONTH 0
      + (if (2 <? m) && leap then 1 else 0) + d =? n + 1).

Definition year_text_ok (y : Z) : bool :=
  digits_value (str_of_int y) =? y.

Definition day_text_ok (d : Z) : bool :=
  bool_decide (length (zero_pad 2 d) = 2%nat)
  && (digits_value (zero_pad 2 d) =? d).

(* ================================================================= *)
(** ** A world for the examples *)

(** [str.title()] of a text whose letters are ASCII: a letter after a
    letter is made lower case, another letter upper case; a character
    outside ASCII is kept and counts as no letter. *)
Fixpoint ascii_title (previous_is_cased : bool) (s : pystr) : pystr :=
  match s with
  | [] => []
  | c :: r =>
      let upper := in_range 65 90 c in
      let lower := in_range 97 122 c in
      (if previous_is_cased
       then (if upper then c + 32 else c)
       else (if lower then c - 32 else c))%N
      :: ascii_title (upper || lower) r
  end.

(** The quotient [num / den] rounded to the nearest integer, to the
    even one of two that are as near. *)
Definition half_even (num den : Z) : Z :=
  let q := num / den in
  let r := num mod den in
  if 2 * r <? den then q
  else if den <? 2 * r then q + 1
  else if Z.even q then q else q + 1.

(** The double nearest to [p / q], for positive [p] and [q], as its
    significand and its exponent of two: the binary64 format, with its
    subnormal numbers; [None] when the number is rounded to infinity. *)
Definition nearest_double (p q : Z) : option (Z * Z) :=
  let e0 := Z.log2 p - Z.log2 q in
  let reaches (e : Z) :=
    if 0 <=? e then q * 2 ^ e <=? p else q <=? p * 2 ^ (- e) in
  let k := if reaches e0 then e0 else e0 - 1 in
  let s := Z.max (k - 52) (-1074) in
  let m :=
    if 0 <=? s then half_even p (q * 2 ^ s) else half_even (p * 2 ^ (- s)) q in
  if (971 <? s) || ((s =? 971) && (m =? 2 ^ 53)) then None else Some (m, s).

(** What [float] makes of the literal of a number. *)
Inductive float_value :=
| Finite (negative : bool) (m s : Z)
| Infinity (negative : bool)
| NaN.

(** [float(literal)] for a literal of the decoder: a JSON number, or
    one of the constants [NaN], [Infinity] and [-Infinity]. *)
Definition float_of_literal (l : pystr) : float_value :=
  if str_eqb l (lit "NaN") then NaN
  else if str_eqb l (lit "Infinity") then Infinity false
  else if str_eqb l (lit "-Infinity") then Infinity true
  else
    let '(negative, l1) :=
      match l with
      | 45%N :: r => (true, r)
      | _ => (false, l)
      end in
    let '(int_part, l2) := span_digits l1 in
    let '(frac_part, l3) :=
      match l2 with
      | 46%N :: r => span_digits r
      | _ => ([], l2)
      end in
    let exponent :=
      match l3 with
      | _ :: 45%N :: r => - digits_value (fst (span_digits r))
      | _ :: 43%N :: r => digits_value (fst (span_digits r))
      | _ :: r => digits_value (fst (span_digits r))
      | [] => 0
      end in
    let digits := digits_value (int_part ++ frac_part) in
    let e10 := exponent - Z.of_nat (length frac_part) in
    let magnitude := Z.of_nat (length (str_of_int digits)) + e10 in
    if digits =? 0 then Finite negative 0 0
    else if 310 <? magnitude then Infinity negative
    else if magnitude <? -330 then Finite negative 0 0
    else
      match
        (if 0 <=? e10 then nearest_double (digits * 10 ^ e10) 1
         else nearest_double digits (10 ^ (- e10)))
      with
      | Some (m, s) => Finite negative m s
      | None => Infinity negative
      end.

(** [round(x)] of a float. *)
Definition round_float (x : float_value) : outcome Z :=
  match x with
  | Finite negative m s =>
      let r := if 0 <=? s then m * 2 ^ s else half_even m (2 ^ (- s)) in
      Return (if negative then - r else r)
  | Infinity _ =>
      raise OverflowError "cannot convert float infinity to integer"
  | NaN => raise ValueError "cannot convert float NaN to integer"
  end.

(** The decimal digits of some scripts: the code points of their
    zeros. *)
Definition sample_zeros : list N :=
  [1632; 1776; 1984; 2406; 2534; 2662; 2790; 2918; 3046; 3174; 3302; 3430;
   3664; 3792; 3872; 4160; 6112; 6160; 65296]%N.

Definition sample_decimal (c : N) : option Z :=
  match list_find (fun z => z <= c <= z + 9)%N sample_zeros with
  | Some (_, z) => Some (Z.of_N (c - z))
  | None => None
  end.

(** The digits of [n] in base 16, in lower case, on [width] places. *)
Fixpoint hex_places (width : nat) (n : N) (acc : pystr) : pystr :=
  match width with
  | O => acc
  | S w =>
      let h := (n mod 16)%N in
      hex_places w (n / 16)%N ((if h <? 10 then 48 + h else 87 + h)%N :: acc)
  end.

(** [repr(s)] of a text: the quote is the apostrophe, the double quote
    when the text has an apostrophe and no double quote; the quote and
    the backslash are escaped, and so are the characters that are not
    printable.  Outside ASCII the control characters and the whitespace
    are taken as not printable, every other character as printable. *)
Definition sample_repr (s : pystr) : pystr :=
  let quote : N :=
    if bool_decide (39%N ∈ s) && negb (bool_decide (34%N ∈ s))
    then 34%N else 39%N in
  let escape (c : N) : pystr :=
    if (c =? quote)%N || (c =? 92)%N then [92%N; c]
    else if (c =? 9)%N then lit "\t"
    else if (c =? 10)%N then lit "\n"
    else if (c =? 13)%N then lit "\r"
    else if (c <? 32)%N || (c =? 127)%N
            || ((127 <? c)%N && ((c <=? 160)%N || is_space c))
    then (if (c <? 256)%N then lit "\x" ++ hex_places 2 c []
          else if (c <? 65536)%N then lit "\u" ++ hex_places 4 c []
          else lit "\U" ++ hex_places 8 c [])
    else [c] in
  [quote] ++ concat (map escape s) ++ [quote].

(** [datetime.fromtimestamp(v)] in the zone UTC: the seconds are
    rounded to microseconds, to the even one of two that are as near,
    and the day has to be a day of the calendar. *)
Definition sample_fromtimestamp (v : json) : outcome date :=
  let of_microseconds (us : Z) : outcome date :=
    let n := 719163 + us / 86400000000 in
    if (0 <? n) && (n <=? MAXORDINAL) then Return (ord2ymd n)
    else Raise (Exn ValueError
                  (lit "year " ++ str_of_int (year (ord2ymd n))
                   ++ lit " is out of range")) in
  match v with
  | JInt z => of_microseconds (z * 1000000)
  | JBool b => of_microseconds (if b then 1000000 else 0)
  | JFloat l =>
      match float_of_literal l with
      | Finite negative m s =>
          let us :=
            if 0 <=? s then m * 2 ^ s * 1000000
            else half_even (m * 1000000) (2 ^ (- s)) in
          of_microseconds (if negative then - us else us)
      | Infinity _ =>
          raise OverflowError "cannot convert float infinity to integer"
      | NaN => raise ValueError "Invalid value NaN (not a number)"
      end
  | _ => type_error v " object cannot be interpreted as an integer"
  end.

(** A platform for the examples: floats are doubles, the letters that
    have a case are those of ASCII, the zone is UTC, and the text of a
    float, a list or a dictionary is not written out. *)
Definition sample_platform : Platform := {|
  float_is_zero := fun l =>
    match float_of_literal l with
    | Finite _ m _ => m =? 0
    | _ => false
    end;
  float_round := fun l => round_float (float_of_literal l);
  str_other := fun _ => lit "...";
  str_repr := sample_repr;
  str_title := ascii_title false;
  unicode_decimal := sample_decimal;
  fromtimestamp := sample_fromtimestamp
|}.

(** A process without credentials and without network, whose text
    generator answers [reply] and whose clock shows [today]. *)
Definition offline (reply : outcome pystr) (today : date) : Env := {|
  AMADEUS_API_KEY := None;
  AMADEUS_API_SECRET := None;
  OPENWEATHER_API_KEY := None;
  requests_send := fun _ _ => raise CollaboratorError "Connection refused";
  generate_content := fun _ _ => reply;
  datetime_now := fun _ => today;
  random_index := fun _ => 0%nat;
  platform := sample_platform
|}.

(** An item of the provider's forecast list: a time stamp, a
    temperature and a description. *)
Definition sample_item (dt temp : Z) (description : string) : json :=
  dict_display
    [("dt", JInt dt);
     ("main", dict_display [("temp", JInt temp)]);
     ("weather",
      JArr [dict_display [("description", jstr description);
                          ("icon", jstr "01d")]])]%string.

(** An answer of the provider with two items on 1970-01-01 and one on
    1970-01-02. *)
Definition sample_weather_data : json :=
  dict_display
    [("list",
      JArr [sample_item 0 10 "clear sky";
            sample_item 10800 12 "few clouds";
            sample_item 86400 9 "light rain"])]%string.

(** The form of Scenario F. *)
Definition sample_form (duration departure_date : string) : form :=
  [(lit "mood", lit "relaxed"); (lit "budget", lit "1500");
   (lit "duration", lit duration); (lit "travel_style", lit "solo");
   (lit "origin_city", lit "Oslo"); (lit "travel_means", lit "plane");
   (lit "hotel_preference", lit "boutique");
   (lit "departure_date", lit departure_date)].

(* ================================================================= *)
(** ** The deduplication the weather claim describes *)

(** The date of an entry of a forecast. *)
Definition entry_date (entry : json) : pystr :=
  match entry with
  | JObj d =>
      match dict_lookup (lit "date") d with
      | Some (JStr s) => s
      | _ => []
      end
  | _ => []
  end.

(** Of a list of dated items, the first item of every date not in
    [seen], in the order of the list. *)
Fixpoint distinct_days (seen : gset pystr) (dated : list (pystr * json))
  : list (pystr * json) :=
  match dated with
  | [] => []
  | (d, item) :: r =>
      if bool_decide (d ∈ seen) then distinct_days seen r
      else (d, item) :: distinct_days ({[d]} ∪ seen) r
  end.

(** At most one item per date, first occurrence first, capped at 5. *)
Definition first_five_days (dated : list (pystr * json))
  : list (pystr * json) :=
  take 5 (distinct_days ∅ dated).

(** The calendar day of an item of the provider's list, line 422. *)
Definition item_day (E : Env) (item : json) : outcome date :=
  dt ← py_item item "dt"; fromtimestamp (platform E) dt.

(** The days never go back along the list. *)
Fixpoint chronological (days : list date) : Prop :=
  match days with
  | [] => True
  | d :: r =>
      Forall (fun d' => toordinal d <= toordinal d') r /\ chronological r
  end.

(** An answer of the provider whose items are not in the order of
    time: 1970-01-03, then 1970-01-01, then 1970-01-02. *)
Definition unsorted_weather_data : json :=
  dict_display
    [("list",
      JArr [sample_item 172800 14 "clear sky";
            sample_item 0 10 "few clouds";
            sample_item 86400 9 "light rain"])]%string.

(* ================================================================= *)
(** ** The clock and the fallback forecast *)

(** The clock shows a day of the calendar at least four days before its
    end, so that the five days of the fallback forecast exist. *)
Definition clock_in_range (E : Env) : Prop :=
  forall t, 0 < toordinal (datetime_now E t) <= MAXORDINAL - 4.

(** The entry of the fallback forecast for the day [i] days after
    [base_date]. *)
Definition fallback_weather_entry (base_date : date) (i : Z) : json :=
  dict_display
    [("date", JStr (strftime (ord2ymd (toordinal base_date + i))));
     ("temperature", JInt (20 + i));
     ("description", jstr "Partly Cloudy (Fallback)");
     ("icon", jstr "02d")]%string.

(** The value of a key of an item is a text that contains [marker]. *)
Definition marked (key marker : string) (item : json) : bool :=
  match item with
  | JObj d =>
      match dict_lookup (lit key) d with
      | Some (JStr s) => contains (lit marker) s
      | _ => false
      end
  | _ => false
  end.

(** The value is the fallback forecast, made at some moment, or a
    forecast with at least one entry collected from a decoded answer. *)
Definition weather_result (E : Env) (city_name : pystr) (v : json) (t' : nat)
  : Prop :=
  (exists t0, get_fallback_weather E city_name t0 = (Return v, t'))
  \/ exists weather_data forecast,
       collect_forecast E weather_data = Return forecast
       /\ forecast <> [] /\ v = JArr forecast.

(* ================================================================= *)
(** ** What the fallback claim asks of each pipeline *)



(** The request for the coordinates of a city, lines 385-392. *)
Definition geocode_request (E : Env) (city_name : pystr) : request :=
  {| req_method := GET;
     req_url := lit "http://api.openweathermap.org/geo/1.0/direct";
     req_headers := [];
     req_fields :=
       [(lit "q", JStr city_name);
        (lit "limit", JInt 1);
        (lit "appid", config (OPENWEATHER_API_KEY E))] |}.

(** The request for the forecast, lines 402-410. *)
Definition forecast_request (E : Env) (lat lon : json) : request :=
  {| req_method := GET;
     req_url := lit "https://api.openweathermap.org/data/2.5/forecast";
     req_headers := [];
     req_fields :=
       [(lit "lat", lat);
        (lit "lon", lon);
        (lit "appid", config (OPENWEATHER_API_KEY E));
        (lit "units", jstr "metric")] |}.




(* ================================================================= *)
(** ** The shape of the answers *)

(** The dictionary of a successful answer, key by key. *)
Definition success_response
    (destination description itinerary cuisine estimated_cost
     best_time_to_visit packing_tips flight_options hotel_options
     weather_forecast : json) : json :=
  JObj
    [(lit "success", JBool true);
     (lit "destination", destination);
     (lit "description", description);
     (lit "itinerary", itinerary);
     (lit "cuisine", cuisine);
     (lit "estimated_cost", estimated_cost);
     (lit "best_time_to_visit", best_time_to_visit);
     (lit "packing_tips", packing_tips);
     (lit "flight_options", flight_options);
     (lit "hotel_options", hotel_options);
     (lit "weather_forecast", weather_forecast)].

(** The keys of a successful answer other than the flag. *)
Definition payload_fields : list string :=
  ["destination"; "description"; "itinerary"; "cuisine"; "estimated_cost";
   "best_time_to_visit"; "packing_tips"; "flight_options"; "hotel_options";
   "weather_forecast"]%string.

(** What the surprise flow did when it answers [data]: the destination
    it drew, the text it was given, the draft, the two dates and the
    three aggregated lists. *)
Definition surprise_flow (E : Env) (t : nat) (data : json) (t' : nat) : Prop :=
  exists random_destination text draft city_name tomorrow return_day
         flights t1 hotels t2 weather,
    random_destination ∈ surprise_destinations
    /\ generate_content E (S t) (surprise_prompt random_destination)
       = Return text
    /\ clean_and_parse_response text = Return (JObj draft)
    /\ py_city_name
         (default (JStr random_destination)
            (dict_lookup (lit "destination") draft)) = Return city_name
    /\ valid_date tomorrow = true
    /\ toordinal tomorrow = toordinal (datetime_now E (S (S t))) + 1
    /\ valid_date return_day = true
    /\ toordinal return_day = toordinal (datetime_now E (S (S (S t)))) + 6
    /\ search_flights E (lit "New York") city_name (strftime tomorrow)
         (strftime return_day) (S (S (S (S t)))) = (Return flights, t1)
    /\ search_hotels E city_name (strftime tomorrow) (strftime return_day) t1
       = (Return hotels, t2)
    /\ get_weather_forecast E city_name (strftime tomorrow)
         (strftime return_day) t2 = (Return weather, t')
    /\ data
       = success_response
           (default (JStr random_destination)
              (dict_lookup (lit "destination") draft))
           (JStr (lit "Surprise! Your next adventure awaits in "
                  ++ format_value (platform E)
                       (default (JStr random_destination)
                          (dict_lookup (lit "destination") draft))
                  ++ lit "!"))
           (default (jstr "Itinerary not available")
              (dict_lookup (lit "itinerary") draft))
           (default (jstr "Local cuisine information not available")
              (dict_lookup (lit "cuisine") draft))
           (default (JObj []) (dict_lookup (lit "estimated_cost") draft))
           (default (jstr "Year-round destination")
              (dict_lookup (lit "best_time_to_visit") draft))
           (default (jstr "Pack according to season")
              (dict_lookup (lit "packing_tips") draft))
           flights hotels weather.

(** The same for the directed flow. *)
Definition directed_flow (E : Env) (f : form) (t : nat) (data : json)
    (t' : nat) : Prop :=
  exists user_mood user_budget user_duration user_travel_style user_origin
         user_travel_means user_hotel_preference user_departure_date
         text draft city_name return_date flights t1 hotels t2 weather,
    form_item f "mood" = Return user_mood
    /\ form_item f "budget" = Return user_budget
    /\ form_item f "duration" = Return user_duration
    /\ form_item f "travel_style" = Return user_travel_style
    /\ form_item f "origin_city" = Return user_origin
    /\ form_item f "travel_means" = Return user_travel_means
    /\ form_item f "hotel_preference" = Return user_hotel_preference
    /\ form_item f "departure_date" = Return user_departure_date
    /\ generate_content E t
         (directed_prompt user_mood user_budget user_duration
            user_travel_style user_origin user_travel_means
            user_hotel_preference user_departure_date) = Return text
    /\ clean_and_parse_response text = Return (JObj draft)
    /\ py_city_name
         (default (jstr "Unknown Destination")
            (dict_lookup (lit "destination") draft)) = Return city_name
    /\ compute_return_date (platform E) user_departure_date user_duration
       = Return return_date
    /\ search_flights E user_origin city_name user_departure_date return_date
         (S t) = (Return flights, t1)
    /\ search_hotels E city_name user_departure_date return_date t1
       = (Return hotels, t2)
    /\ get_weather_forecast E city_name user_departure_date return_date t2
       = (Return weather, t')
    /\ data
       = success_response
           (default (jstr "Unknown Destination")
              (dict_lookup (lit "destination") draft))
           (JStr (lit "Your perfect " ++ user_mood ++ lit " getaway awaits!"))
           (default (jstr "Itinerary not available")
              (dict_lookup (lit "itinerary") draft))
           (default (jstr "Local cuisine information not available")
              (dict_lookup (lit "cuisine") draft))
           (default (JObj []) (dict_lookup (lit "estimated_cost") draft))
           (default (jstr "Year-round destination")
              (dict_lookup (lit "best_time_to_visit") draft))
           (default (jstr "Pack according to season")
              (dict_lookup (lit "packing_tips") draft))
           flights hotels weather.

(* ================================================================= *)
(** ** Tactics *)

Ltac split_andb :=
  repeat match goal with
         | H : _ && _ = true |- _ => apply andb_prop in H as [? ?]
         | H : (_ <=? _) = true |- _ => apply Z.leb_le in H
         | H : (_ =? _) = true |- _ => apply Z.eqb_eq in H
         end.



(* ================================================================= *)
(** ** Counting the interactions *)

(** From the count [t] the computation has at most [n] interactions
    with the world (requests, readings of the clock, draws), whether it
    returns or raises, and the count never goes back. *)
Definition bounded {A} (n : nat) (m : M A) (t : nat) : Prop :=
  (t <= (m t).2 <= t + n)%nat.

(* ================================================================= *)
(** ** The requests of the token and of the city code *)

(** The request for a token, lines 116-125. *)
Definition token_request (E : Env) : request :=
  {| req_method := POST;
     req_url := lit "https://test.api.amadeus.com/v1/security/oauth2/token";
     req_headers :=
       [(lit "Content-Type", lit "application/x-www-form-urlencoded")];
     req_fields :=
       [(lit "grant_type", jstr "client_credentials");
        (lit "client_id", config (AMADEUS_API_KEY E));
        (lit "client_secret", config (AMADEUS_API_SECRET E))] |}.

(** The request for the locations of a city, lines 144-154. *)
Definition locations_request (E : Env) (token : json) (city_name : pystr)
  : request :=
  {| req_method := GET;
     req_url := lit "https://test.api.amadeus.com/v1/reference-data/locations";
     req_headers := bearer E token;
     req_fields :=
       [(lit "subType", jstr "CITY"); (lit "keyword", JStr city_name)] |}.

(** The request for the offers of a hotel, lines 320-328. *)
Definition hotel_offers_request (E : Env) (token hotel_id : json)
    (check_in check_out : pystr) : request :=
  {| req_method := GET;
     req_url := lit "https://test.api.amadeus.com/v3/shopping/hotel-offers";
     req_headers := bearer E token;
     req_fields :=
       [(lit "hotelIds", hotel_id);
        (lit "checkInDate", JStr check_in);
        (lit "checkOutDate", JStr check_out);
        (lit "adults", JInt 1);
        (lit "currency", jstr "USD")] |}.

(* ================================================================= *)
(** ** The items of the aggregated lists *)

(** A flight made from an offer: the six keys in the order of the
    source, the dates of the search, and one of the three notes of
    lines 228, 237 and 246. *)
Definition live_flight (departure_date return_date : pystr) (v : json)
  : Prop :=
  exists airline route price note,
    v = JObj [(lit "airline", airline);
              (lit "route", JStr route);
              (lit "price", JStr price);
              (lit "departure", JStr departure_date);
              (lit "return", JStr return_date);
              (lit "note", JStr (lit note))]
    /\ note ∈ ["Direct flight"; "Connecting flight";
               "Itinerary details not fully available"]%string.

(** A hotel made from an offer, lines 336-342. *)
Definition live_hotel (city_name : pystr) (v : json) : Prop :=
  exists name price,
    v = JObj [(lit "name", name);
              (lit "rating", jstr "N/A");
              (lit "price", JStr (price ++ lit "/night"));
              (lit "location", JStr city_name);
              (lit "amenities", jstr "WiFi, Breakfast")].

(** An entry of a forecast, lines 431-436 and 449-454: a date text, a
    whole temperature, a description text and an icon. *)
Definition forecast_day (v : json) : Prop :=
  exists date_str temperature description icon,
    v = JObj [(lit "date", JStr date_str);
              (lit "temperature", JInt temperature);
              (lit "description", JStr description);
              (lit "icon", icon)].

(* ================================================================= *)
(** ** A world whose providers answer *)

Definition ok (body : string) : outcome response :=
  Return {| status_code := 200; text := qlit body |}.

(** The body of the answer of the geocoding provider. *)
Definition sample_geocode : string :=
  "[{'name': 'Paris', 'lat': 48, 'lon': 2}]".

(** The body of the answer of the forecast provider: the text of
    [sample_weather_data]. *)
Definition sample_forecast : string :=
  "{'list': [{'dt': 0, 'main': {'temp': 10}, 'weather': [{'description': 'clear sky', 'icon': '01d'}]}, {'dt': 10800, 'main': {'temp': 12}, 'weather': [{'description': 'few clouds', 'icon': '01d'}]}, {'dt': 86400, 'main': {'temp': 9}, 'weather': [{'description': 'light rain', 'icon': '01d'}]}]}".

Definition at_url (r : request) (u : string) : bool :=
  str_eqb (req_url r) (lit u).

(** The answers of the providers, by the address of the request. *)
Definition sample_answer (r : request) : outcome response :=
  if at_url r "https://test.api.amadeus.com/v1/security/oauth2/token" then
    ok "{'access_token': 'abc', 'expires_in': 1799}"
  else if at_url r "https://test.api.amadeus.com/v1/reference-data/locations"
  then ok "{'data': [{'iataCode': 'PAR'}, {'iataCode': 'ORY'}]}"
  else if at_url r "https://test.api.amadeus.com/v2/shopping/flight-offers" then
    ok "{'data': [{'price': {'total': '250.00', 'currency': 'EUR'}, 'itineraries': [{'segments': [{'carrierCode': 'AF', 'departure': {'iataCode': 'OSL'}, 'arrival': {'iataCode': 'CDG'}}]}]}, {'price': {'total': '180.00', 'currency': 'EUR'}, 'itineraries': [{'segments': [{'carrierCode': 'SK', 'departure': {'iataCode': 'OSL'}}, {'carrierCode': 'SK', 'arrival': {'iataCode': 'ORY'}}]}]}, {'price': {'total': '99.00', 'currency': 'EUR'}}, {'price': {'total': '90.00', 'currency': 'EUR'}}], 'dictionaries': {'carriers': {'AF': 'AIR FRANCE'}}}"
  else if at_url r
            "https://test.api.amadeus.com/v1/reference-data/locations/hotels/by-city"
  then
    ok "{'data': [{'hotelId': 'H1'}, {'hotelId': 'H2'}, {'hotelId': 'H3'}, {'hotelId': 'H4'}, {'hotelId': 'H5'}, {'hotelId': 'H6'}]}"
  else if at_url r "https://test.api.amadeus.com/v3/shopping/hotel-offers" then
    ok "{'data': [{'hotel': {'name': 'Le Grand'}, 'offers': [{'price': {'total': '120.00', 'currency': 'USD'}}, {'price': {'total': '140.00', 'currency': 'USD'}}]}]}"
  else if at_url r "http://api.openweathermap.org/geo/1.0/direct" then
    ok sample_geocode
  else if at_url r "https://api.openweathermap.org/data/2.5/forecast" then
    ok sample_forecast
  else raise CollaboratorError "Connection refused".

(** A process with its three keys, whose providers answer as above,
    whose text generator answers [reply] and whose clock shows
    [today]. *)
Definition online (reply : outcome pystr) (today : date) : Env := {|
  AMADEUS_API_KEY := Some (lit "key");
  AMADEUS_API_SECRET := Some (lit "secret");
  OPENWEATHER_API_KEY := Some (lit "weather-key");
  requests_send := fun _ r => sample_answer r;
  generate_content := fun _ _ => reply;
  datetime_now := fun _ => today;
  random_index := fun _ => 0%nat;
  platform := sample_platform
|}.

(* ================================================================= *)
(** ** Worlds whose providers fail *)




(* ================================================================= *)
(** ** Tactics for the steps of a computation *)

(** Name the value of every step of a computation that returns. *)
Ltac bind_steps H :=
  repeat match type of H with
         | (mbind _ ?m) = _ =>
             let Hstep := fresh "Hstep" in
             destruct m eqn:Hstep; [|discriminate];
             cbn [mbind outcome_bind] in H
         end.

(* ================================================================= *)
(** ** The form and the early steps of a directed request *)

(** The fields read from the form, lines 461-468. *)
Definition form_fields : list string :=
  ["mood"; "budget"; "duration"; "travel_style"; "origin_city";
   "travel_means"; "hotel_preference"; "departure_date"]%string.

(** The text has no whitespace at its ends. *)
Definition trimmed (s : pystr) : Prop :=
  (forall x, head s = Some x -> is_space x = false)
  /\ (forall x, last s = Some x -> is_space x = false).

(** The value of a key of the dictionary of an answer. *)
Definition response_field (data : json) (key : string) : option json :=
  match data with
  | JObj items => dict_lookup (lit key) items
  | _ => None
  end.

(* ================================================================= *)
(** * Properties *)

(** ** Text and the regular expressions *)

Lemma drop_space_length s : (length (drop_space s) <= length s)%nat.
Proof.
  induction s as [|c r IH]; simpl; [lia|].
  destruct (is_space c); simpl; lia.
Qed.

Lemma drop_space_app_stop a c b :
  is_space c = false -> drop_space (a ++ c :: b) = drop_space a ++ c :: b.
Proof.
  intros Hc. induction a as [|x a IH]; simpl.
  - now rewrite Hc.
  - destruct (is_space x); [exact IH | reflexivity].
Qed.

Lemma drop_space_suffix s : exists ws, s = ws ++ drop_space s.
Proof.
  induction s as [|c r [ws IH]]; simpl.
  - now exists [].
  - destruct (is_space c).
    + exists (c :: ws). simpl. now f_equal.
    + now exists [].
Qed.

Lemma strip_prefix_length p s r :
  strip_prefix p s = Some r -> (length s = length p + length r)%nat.
Proof.
  revert s. induction p as [|a p IH]; intros [|b s] H; simpl in *;
    try discriminate; try (injection H as <-; reflexivity).
  destruct (N.eqb a b); [|discriminate].
  apply IH in H. lia.
Qed.

Lemma strip_prefix_app p s r : strip_prefix p s = Some r -> s = p ++ r.
Proof.
  revert s. induction p as [|a p IH]; intros [|b s] H; simpl in *;
    try discriminate; try (injection H as <-; reflexivity).
  destruct (N.eqb_spec a b); [|discriminate].
  subst. f_equal. now apply IH.
Qed.

Lemma fence_of_shrinks p : p <> [] -> shrinks (fence_of p).
Proof.
  intros Hp s repl rest. unfold fence_of.
  destruct (strip_prefix p s) as [r|] eqn:Hs; simpl; [|discriminate].
  intros [= <- <-]. apply strip_prefix_length in Hs.
  pose proof (drop_space_length r). destruct p; [congruence|simpl in *; lia].
Qed.

Lemma trailing_comma_shrinks : shrinks trailing_comma.
Proof.
  intros s repl rest. unfold trailing_comma.
  destruct s as [|c r]; [discriminate|].
  destruct (N.eqb_spec c 44) as [->|Hc].
  2:{ destruct c as [|p]; [discriminate|].
      repeat (destruct p as [p|p|]; try discriminate); congruence. }
  pose proof (drop_space_length r) as Hl.
  destruct (drop_space r) as [|c' r']; [discriminate|].
  destruct (is_closer c'); [|discriminate].
  intros [= <- <-]. simpl in *. lia.
Qed.

(** The bound on the steps is slack: any larger one gives the same
    text. *)
Lemma re_sub_steps_enough m n s :
  shrinks m -> (length s <= n)%nat ->
  re_sub_steps m n s = re_sub_steps m (length s) s.
Proof.
  intros Hm. revert s.
  induction n as [n IH] using lt_wf_ind. intros s Hn.
  destruct s as [|c r]; [destruct n; reflexivity|].
  destruct n as [|n]; [simpl in Hn; lia|].
  cbn [re_sub_steps length].
  destruct (m (c :: r)) as [[repl rest]|] eqn:Hmatch.
  - apply Hm in Hmatch as Hlt. simpl in Hlt.
    rewrite (IH n) by (simpl in *; lia).
    rewrite (IH (length r)) by (simpl in *; lia). reflexivity.
  - rewrite (IH n) by (simpl in *; lia). reflexivity.
Qed.

(** The equations of [re.sub]. *)
Lemma re_sub_nil m : re_sub m [] = [].
Proof. reflexivity. Qed.

Lemma re_sub_match m s repl rest :
  shrinks m -> m s = Some (repl, rest) -> re_sub m s = repl ++ re_sub m rest.
Proof.
  intros Hm Hs. unfold re_sub. destruct s as [|c r].
  - apply Hm in Hs. simpl in Hs. lia.
  - cbn [length re_sub_steps]. rewrite Hs.
    apply Hm in Hs. simpl in Hs.
    now rewrite re_sub_steps_enough by (auto; lia).
Qed.

Lemma re_sub_skip m c r :
  m (c :: r) = None -> re_sub m (c :: r) = c :: re_sub m r.
Proof. intros Hs. unfold re_sub. cbn [length re_sub_steps]. now rewrite Hs. Qed.

Lemma re_sub_no_match m s : matches_somewhere m s = false -> re_sub m s = s.
Proof.
  induction s as [|c r IH]; [reflexivity|]. cbn [matches_somewhere].
  intros [Hc Hr]%orb_false_iff. apply bool_decide_eq_false in Hc.
  destruct (m (c :: r)) eqn:Hm; [exfalso; apply Hc; eauto|].
  rewrite re_sub_skip by assumption. f_equal. auto.
Qed.

Lemma from_first_head c s t : from_first c s = Some t -> exists r, t = c :: r.
Proof.
  induction s as [|x s IH]; simpl; [discriminate|].
  destruct (N.eqb_spec x c) as [->|_]; [|exact IH].
  intros [= <-]. eauto.
Qed.

Lemma upto_last_last c s t : upto_last c s = Some t -> last t = Some c.
Proof.
  revert t. induction s as [|x s IH]; intros t; simpl; [discriminate|].
  destruct (upto_last c s) as [u|] eqn:Hu.
  - intros [= <-]. specialize (IH u eq_refl).
    destruct u; [discriminate|exact IH].
  - destruct (N.eqb_spec x c) as [->|_]; [|discriminate].
    now intros [= <-].
Qed.

(** The candidate substring starts with an opening brace and ends with
    a closing brace. *)
Lemma search_object_shape s cand :
  search_object s = Some cand ->
  exists body, cand = 123%N :: body /\ last cand = Some 125%N.
Proof.
  unfold search_object.
  destruct (from_first 123 s) as [[|b r]|] eqn:Hf; try discriminate.
  apply from_first_head in Hf as [r' [= -> ->]].
  destruct (upto_last 125 r') as [t|] eqn:Hu; simpl; [|discriminate].
  intros [= <-]. exists t. split; [reflexivity|].
  apply upto_last_last in Hu. destruct t; [discriminate|exact Hu].
Qed.

(** The repair keeps a closing brace at the end of the text. *)
Lemma repair_keeps_last s :
  last s = Some 125%N -> last (re_sub trailing_comma s) = Some 125%N.
Proof.
  induction s as [s IH] using (induction_ltof1 _ (@length N)).
  unfold ltof in IH. intros Hl.
  destruct s as [|c r]; [discriminate|].
  destruct (trailing_comma (c :: r)) as [[repl rest]|] eqn:Hm.
  - rewrite (re_sub_match _ _ _ _ trailing_comma_shrinks Hm).
    pose proof (trailing_comma_shrinks _ _ _ Hm) as Hlt.
    unfold trailing_comma in Hm.
    destruct (N.eqb_spec c 44) as [->|Hc].
    2:{ destruct c as [|p]; [discriminate|].
        repeat (destruct p as [p|p|]; try discriminate); congruence. }
    destruct (drop_space_suffix r) as [ws Hws].
    destruct (drop_space r) as [|c' r'] eqn:Hd; [discriminate|].
    destruct (is_closer c') eqn:Hcl; [|discriminate].
    injection Hm as <- <-.
    assert (Hlast : last (c' :: r') = Some 125%N).
    { rewrite <- Hl, Hws. change (44%N :: ws ++ c' :: r') with ((44%N :: ws) ++ c' :: r').
      now rewrite last_app_cons. }
    destruct r' as [|x r'].
    + rewrite re_sub_nil. exact Hlast.
    + change ([c'] ++ re_sub trailing_comma (x :: r'))
        with (c' :: re_sub trailing_comma (x :: r')).
      specialize (IH (x :: r') Hlt Hlast).
      destruct (re_sub trailing_comma (x :: r')); [discriminate|exact IH].
  - rewrite re_sub_skip by exact Hm.
    destruct r as [|x r].
    + rewrite re_sub_nil. exact Hl.
    + assert (Hlast : last (x :: r) = Some 125%N) by exact Hl.
      specialize (IH (x :: r) ltac:(simpl; lia) Hlast).
      destruct (re_sub trailing_comma (x :: r)); [discriminate|exact IH].
Qed.

(** The repair keeps an opening brace at the head of the text. *)
Lemma repair_keeps_head body :
  exists body', re_sub trailing_comma (123%N :: body) = 123%N :: body'.
Proof. rewrite re_sub_skip by reflexivity. eauto. Qed.

(** ** The decoder *)

Lemma object_members_dict scan n s pairs v rest :
  object_members scan n s pairs = Return (v, rest) -> exists d, v = JObj d.
Proof.
  revert s pairs. induction n as [|n IH]; intros s pairs; simpl; [discriminate|].
  destruct (scanstring s) as [[key s1]|]; simpl; [|discriminate].
  destruct (skip_ws s1) as [|c s2]; [discriminate|].
  destruct (N.eqb_spec c 58) as [->|Hc].
  2:{ destruct c as [|p]; [discriminate|].
      repeat (destruct p as [p|p|]; try discriminate); congruence. }
  destruct (scan (skip_ws s2)) as [[value s3]|]; simpl; [|discriminate].
  destruct (skip_ws s3) as [|c s4]; [discriminate|].
  destruct (N.eqb_spec c 125) as [->|Hc1].
  { intros [= <- <-]. eauto. }
  destruct (N.eqb_spec c 44) as [->|Hc2].
  2:{ destruct c as [|p]; [discriminate|].
      repeat (destruct p as [p|p|]; try discriminate); congruence. }
  destruct (skip_ws s4) as [|c s5]; [discriminate|].
  destruct (N.eqb_spec c 34) as [->|Hc3].
  2:{ destruct c as [|p]; [discriminate|].
      repeat (destruct p as [p|p|]; try discriminate); congruence. }
  apply IH.
Qed.

Lemma JSONObject_dict scan s v rest :
  JSONObject scan s = Return (v, rest) -> exists d, v = JObj d.
Proof.
  unfold JSONObject. destruct (skip_ws s) as [|c r]; [discriminate|].
  destruct (N.eqb_spec c 125) as [->|Hc1].
  { intros [= <- <-]. eauto. }
  destruct (N.eqb_spec c 34) as [->|Hc2].
  2:{ destruct c as [|p]; [discriminate|].
      repeat (destruct p as [p|p|]; try discriminate); congruence. }
  apply object_members_dict.
Qed.

Lemma scan_once_object depth body :
  scan_once (S depth) (123%N :: body) = JSONObject (scan_once depth) body.
Proof. reflexivity. Qed.

(** A text that starts with an opening brace decodes to a dictionary or
    not at all. *)
Lemma json_loads_object body v :
  json_loads (123%N :: body) = Return v -> exists d, v = JObj d.
Proof.
  unfold json_loads.
  change (skip_ws (123%N :: body)) with (123%N :: body).
  replace recursion_limit with (S (pred recursion_limit)) by reflexivity.
  rewrite scan_once_object. cbv iota.
  destruct (JSONObject _ body) as [[obj rest]|] eqn:Hobj;
    cbn [mbind outcome_bind]; [|discriminate].
  apply JSONObject_dict in Hobj as [d ->].
  destruct (skip_ws rest); [|discriminate]. intros [= <-]. eauto.
Qed.

(** ** The normaliser *)

(** The result of the body is the fallback dictionary or what the
    decoder made of the repaired candidate. *)
Lemma clean_and_parse_body_cases text :
  (search_object (re_sub fence (re_sub fence_json text)) = None
   /\ clean_and_parse_body text = Return fallback_itinerary)
  \/ exists cand,
       search_object (re_sub fence (re_sub fence_json text)) = Some cand
       /\ clean_and_parse_body text
          = json_loads (re_sub trailing_comma cand).
Proof.
  unfold clean_and_parse_body.
  destruct (search_object _) as [cand|]; [right; eauto | left; auto].
Qed.

Lemma fallback_itinerary_dict : exists d, fallback_itinerary = JObj d.
Proof. unfold fallback_itinerary, dict_display. eauto. Qed.

Lemma clean_and_parse_body_dict text v :
  clean_and_parse_body text = Return v -> exists d, v = JObj d.
Proof.
  destruct (clean_and_parse_body_cases text) as [[_ ->]|(cand & Hs & ->)].
  - intros [= <-]. apply fallback_itinerary_dict.
  - apply search_object_shape in Hs as (body & -> & _).
    destruct (repair_keeps_head body) as [body' ->].
    apply json_loads_object.
Qed.

(** The normaliser returns a dictionary whatever the text. *)
Lemma clean_and_parse_response_dict text :
  exists d, clean_and_parse_response text = Return (JObj d).
Proof.
  unfold clean_and_parse_response, try_except2.
  destruct (clean_and_parse_body text) as [v|e] eqn:Hb.
  - apply clean_and_parse_body_dict in Hb as [d ->]. eauto.
  - destruct fallback_itinerary_dict as [d Hd]. rewrite Hd.
    exists d. now destruct (decide _).
Qed.

(** C10.  For every raw text the normaliser returns a dictionary: the
    candidate substring, also after the repair, starts with an opening
    brace and ends with a closing brace, the decoder turns such a text
    into a dictionary or raises, and every handler returns the fallback
    dictionary.  Hence every [.get] of the orchestrator on the result is
    defined. *)
Theorem clean_and_parse_response_is_dict (text : pystr) :
  (forall cand,
      search_object (re_sub fence (re_sub fence_json text)) = Some cand ->
      head (re_sub trailing_comma cand) = Some 123%N
      /\ last (re_sub trailing_comma cand) = Some 125%N)
  /\ exists d,
       clean_and_parse_response text = Return (JObj d)
       /\ forall key dflt,
            py_get (JObj d) key dflt
            = Return (default dflt (dict_lookup (lit key) d)).
Proof.
  split.
  - intros cand Hs. apply search_object_shape in Hs as (body & -> & Hl).
    split.
    + destruct (repair_keeps_head body) as [body' ->]. reflexivity.
    + now apply repair_keeps_last.
  - destruct (clean_and_parse_response_dict text) as [d Hd].
    exists d. split; [exact Hd | reflexivity].
Qed.

(** C1, as stated, fails on the text of an empty object: the normaliser
    returns the empty dictionary, in which no field is present. *)
Lemma clean_and_parse_response_empty_object :
  clean_and_parse_response (lit "{}") = Return (JObj [])
  /\ has_all_draft_fields (JObj []) = false.
Proof. split; vm_compute; reflexivity. Qed.

(** C1, amended.  For every raw text the normaliser returns, and never
    raises: its result is the dictionary decoded from the repaired
    candidate, with the keys the text gave it and no others, or the
    fallback dictionary, in which all six fields are present. *)
Theorem clean_and_parse_response_total (text : pystr) :
  exists d,
    clean_and_parse_response text = Return (JObj d)
    /\ (JObj d = fallback_itinerary
        \/ exists cand,
             search_object (re_sub fence (re_sub fence_json text)) = Some cand
             /\ json_loads (re_sub trailing_comma cand) = Return (JObj d))
    /\ has_all_draft_fields fallback_itinerary = true.
Proof.
  destruct (clean_and_parse_response_dict text) as [d Hd].
  exists d. split; [exact Hd|]. split; [|vm_compute; reflexivity].
  revert Hd. unfold clean_and_parse_response, try_except2.
  destruct (clean_and_parse_body_cases text) as [[_ ->]|(cand & Hs & ->)].
  - intros H. left. congruence.
  - destruct (json_loads _) as [v|e] eqn:Hj.
    + intros H. right. exists cand. split; [exact Hs|congruence].
    + destruct (decide _); intros H; left; congruence.
Qed.

(** C3 at its failing input: the text is valid JSON, and the repair
    deletes the comma inside its string. *)
Lemma repair_changes_valid_json :
  json_loads (qlit "{'a': ',}'}") = Return (JObj [(lit "a", JStr (lit ",}"))])
  /\ re_sub trailing_comma (qlit "{'a': ',}'}") = qlit "{'a': '}'}"
  /\ clean_and_parse_response (qlit "{'a': ',}'}")
     = Return (JObj [(lit "a", JStr (lit "}"))]).
Proof. repeat split; vm_compute; reflexivity. Qed.

(** *** Fences around a JSON text *)

Lemma strip_prefix_before_brace p a b :
  (123%N ∉ p) ->
  strip_prefix p (a ++ 123%N :: b) = (fun r => r ++ 123%N :: b) <$> strip_prefix p a.
Proof.
  revert a. induction p as [|x p IH]; intros a Hp; [reflexivity|].
  apply not_elem_of_cons in Hp as [Hx Hp].
  destruct a as [|y a]; simpl.
  - destruct (N.eqb_spec x 123); [congruence|reflexivity].
  - destruct (N.eqb x y); [now apply IH|reflexivity].
Qed.

Lemma fence_of_before_brace p a b :
  (123%N ∉ p) ->
  fence_of p (a ++ 123%N :: b)
  = (fun x => (x.1, x.2 ++ 123%N :: b)) <$> fence_of p a.
Proof.
  intros Hp. unfold fence_of. rewrite strip_prefix_before_brace by assumption.
  destruct (strip_prefix p a) as [r|]; simpl; [|reflexivity].
  now rewrite drop_space_app_stop.
Qed.

(** The substitution of a fence works on the text before an opening
    brace and on the text from the brace on separately. *)
Lemma re_sub_fence_before_brace p a b :
  p <> [] -> (123%N ∉ p) ->
  re_sub (fence_of p) (a ++ 123%N :: b)
  = re_sub (fence_of p) a ++ re_sub (fence_of p) (123%N :: b).
Proof.
  intros Hne Hp. pose proof (fence_of_shrinks p Hne) as Hsh.
  induction a as [a IH] using (induction_ltof1 _ (@length N)).
  unfold ltof in IH. destruct a as [|c a]; [reflexivity|].
  destruct (fence_of p (c :: a)) as [[repl rest]|] eqn:Hm.
  - assert (Hm' : fence_of p ((c :: a) ++ 123%N :: b)
                  = Some (repl, rest ++ 123%N :: b)).
    { rewrite fence_of_before_brace, Hm by assumption. reflexivity. }
    rewrite (re_sub_match _ _ _ _ Hsh Hm), (re_sub_match _ _ _ _ Hsh Hm').
    rewrite IH by (apply (Hsh _ _ _ Hm)). now rewrite app_assoc.
  - assert (Hm' : fence_of p ((c :: a) ++ 123%N :: b) = None).
    { rewrite fence_of_before_brace, Hm by assumption. reflexivity. }
    rewrite re_sub_skip by exact Hm.
    change ((c :: a) ++ 123%N :: b) with (c :: (a ++ 123%N :: b)) in *.
    rewrite re_sub_skip by exact Hm'.
    rewrite IH by (simpl; lia). reflexivity.
Qed.

(** A text without three backticks in a row that ends with a closing
    brace is copied, whatever follows it. *)
Lemma re_sub_fence_inside p' j suf :
  matches_somewhere fence j = false ->
  j = [] \/ last j = Some 125%N ->
  re_sub (fence_of (BACKTICKS ++ p')) (j ++ suf)
  = j ++ re_sub (fence_of (BACKTICKS ++ p')) suf.
Proof.
  induction j as [|c r IH]; [reflexivity|].
  cbn [matches_somewhere]. intros [Hc Hr]%orb_false_iff Hl.
  destruct Hl as [Hl|Hl]; [discriminate|].
  apply bool_decide_eq_false in Hc.
  assert (Hnone : fence_of (BACKTICKS ++ p') (c :: r ++ suf) = None).
  { unfold fence_of, BACKTICKS. cbn [app strip_prefix].
    destruct (N.eqb_spec 96 c) as [<-|]; [|reflexivity].
    destruct r as [|x r]; [discriminate|]. cbn [app].
    destruct (N.eqb_spec 96 x) as [<-|]; [|reflexivity].
    destruct r as [|y r]; [discriminate|]. cbn [app].
    destruct (N.eqb_spec 96 y) as [<-|]; [|reflexivity].
    exfalso. apply Hc. unfold fence, fence_of, BACKTICKS. simpl. eauto. }
  change ((c :: r) ++ suf) with (c :: (r ++ suf)).
  rewrite re_sub_skip by exact Hnone.
  rewrite IH; [reflexivity|exact Hr|].
  destruct r as [|x r]; [now left|right]. exact Hl.
Qed.

Lemma drop_space_subseteq s x : x ∈ drop_space s -> x ∈ s.
Proof.
  destruct (drop_space_suffix s) as [ws Hws]. intros Hx.
  rewrite Hws. apply elem_of_app. now right.
Qed.

(** The substitution of a fence only deletes. *)
Lemma re_sub_fence_subseteq p s x :
  p <> [] -> x ∈ re_sub (fence_of p) s -> x ∈ s.
Proof.
  intros Hne. pose proof (fence_of_shrinks p Hne) as Hsh.
  induction s as [s IH] using (induction_ltof1 _ (@length N)).
  unfold ltof in IH. destruct s as [|c r]; [now rewrite re_sub_nil|].
  destruct (fence_of p (c :: r)) as [[repl rest]|] eqn:Hm.
  - rewrite (re_sub_match _ _ _ _ Hsh Hm).
    pose proof (Hsh _ _ _ Hm) as Hlt.
    unfold fence_of in Hm.
    destruct (strip_prefix p (c :: r)) as [t|] eqn:Hs; [|discriminate].
    injection Hm as <- <-. simpl. intros Hx%IH; [|exact Hlt].
    apply drop_space_subseteq in Hx. apply strip_prefix_app in Hs.
    rewrite Hs. apply elem_of_app. now right.
  - rewrite re_sub_skip by exact Hm.
    intros [->|Hx]%elem_of_cons; [left|right].
    apply IH; [simpl; lia|exact Hx].
Qed.

(** One fence substitution on a JSON text between a prefix without
    opening brace and a suffix without closing brace. *)
Lemma re_sub_fence_around p' pre j' suf :
  (123%N ∉ BACKTICKS ++ p') ->
  matches_somewhere fence (123%N :: j') = false ->
  last (123%N :: j') = Some 125%N ->
  (123%N ∉ pre) -> (125%N ∉ suf) ->
  exists pre' suf',
    re_sub (fence_of (BACKTICKS ++ p')) (pre ++ (123%N :: j') ++ suf)
    = pre' ++ (123%N :: j') ++ suf'
    /\ (123%N ∉ pre') /\ (125%N ∉ suf').
Proof.
  intros Hp Hj Hl Hpre Hsuf.
  assert (Hne : BACKTICKS ++ p' <> []) by discriminate.
  exists (re_sub (fence_of (BACKTICKS ++ p')) pre),
         (re_sub (fence_of (BACKTICKS ++ p')) suf).
  split; [|split].
  - change ((123%N :: j') ++ suf) with (123%N :: (j' ++ suf)).
    rewrite re_sub_fence_before_brace by assumption. f_equal.
    change (123%N :: j' ++ suf) with ((123%N :: j') ++ suf).
    apply re_sub_fence_inside; [exact Hj|now right].
  - intros Hx. apply Hpre. eapply re_sub_fence_subseteq; eauto.
  - intros Hx. apply Hsuf. eapply re_sub_fence_subseteq; eauto.
Qed.

Lemma from_first_app c pre r :
  (c ∉ pre) -> from_first c (pre ++ c :: r) = Some (c :: r).
Proof.
  induction pre as [|x pre IH]; simpl.
  - now rewrite N.eqb_refl.
  - intros [Hx Hpre]%not_elem_of_cons.
    destruct (N.eqb_spec x c); [congruence|auto].
Qed.

Lemma upto_last_absent c s : (c ∉ s) -> upto_last c s = None.
Proof.
  induction s as [|x s IH]; [reflexivity|].
  intros [Hx Hs]%not_elem_of_cons. simpl. rewrite IH by assumption.
  destruct (N.eqb_spec x c); [congruence|reflexivity].
Qed.

Lemma upto_last_app c a b :
  upto_last c b = None -> upto_last c (a ++ b) = upto_last c a.
Proof.
  intros Hb. induction a as [|x a IH]; simpl; [exact Hb|]. now rewrite IH.
Qed.

Lemma upto_last_whole c a : last a = Some c -> upto_last c a = Some a.
Proof.
  induction a as [|x a IH]; [discriminate|].
  destruct a as [|y a].
  - intros [= ->]. simpl. now rewrite N.eqb_refl.
  - intros Hl. rewrite last_cons_cons in Hl.
    cbn [upto_last] in *. now rewrite (IH Hl).
Qed.

(** The greedy search finds exactly the JSON text. *)
Lemma search_object_around pre j' suf :
  last (123%N :: j') = Some 125%N ->
  (123%N ∉ pre) -> (125%N ∉ suf) ->
  search_object (pre ++ (123%N :: j') ++ suf) = Some (123%N :: j').
Proof.
  intros Hl Hpre Hsuf. unfold search_object.
  change ((123%N :: j') ++ suf) with (123%N :: (j' ++ suf)).
  rewrite from_first_app by assumption.
  rewrite upto_last_app by now apply upto_last_absent.
  destruct j' as [|x j']; [discriminate|].
  rewrite last_cons_cons in Hl. now rewrite (upto_last_whole _ _ Hl).
Qed.

(** C2, as stated, fails when the surrounding text has braces of its
    own: the greedy span is then not the JSON text, the decoder raises
    and the fallback dictionary is returned. *)
Lemma clean_and_parse_response_greedy_span :
  json_loads (qlit "{'a': 1}") = Return (JObj [(lit "a", JInt 1)])
  /\ matches_somewhere trailing_comma (qlit "{'a': 1}") = false
  /\ clean_and_parse_response (lit "Plan {draft}: " ++ qlit "{'a': 1}" ++ [])
     = Return fallback_itinerary
  /\ fallback_itinerary <> JObj [(lit "a", JInt 1)].
Proof. repeat split; try (vm_compute; reflexivity). discriminate. Qed.

(** C2, amended.  A JSON object text, from its opening brace to its
    closing brace, that the decoder accepts, that holds no three
    backticks in a row and no comma followed by whitespace and a closing
    bracket or brace, is recovered exactly from a completion whose part
    before it has no opening brace and whose part after it has no
    closing brace. *)
Theorem clean_and_parse_response_recovers (pre j suf : pystr) (v : json) :
  json_loads j = Return v ->
  head j = Some 123%N -> last j = Some 125%N ->
  (123%N ∉ pre) -> (125%N ∉ suf) ->
  matches_somewhere fence j = false ->
  matches_somewhere trailing_comma j = false ->
  clean_and_parse_response (pre ++ j ++ suf) = Return v.
Proof.
  intros Hv Hh Hl Hpre Hsuf Hf Hc.
  destruct j as [|c j']; [discriminate|]. injection Hh as ->.
  destruct (re_sub_fence_around (lit "json") pre j' suf)
    as (pre1 & suf1 & E1 & Hpre1 & Hsuf1); try assumption.
  { vm_compute. intros H. repeat (apply elem_of_cons in H as [H|H]; [discriminate|]).
    now apply elem_of_nil in H. }
  destruct (re_sub_fence_around [] pre1 j' suf1)
    as (pre2 & suf2 & E2 & Hpre2 & Hsuf2); try assumption.
  { vm_compute. intros H. repeat (apply elem_of_cons in H as [H|H]; [discriminate|]).
    now apply elem_of_nil in H. }
  rewrite app_nil_r in E2.
  unfold clean_and_parse_response, clean_and_parse_body, fence_json, fence.
  rewrite E1, E2, (search_object_around _ _ _ Hl Hpre2 Hsuf2).
  rewrite (re_sub_no_match _ _ Hc), Hv. reflexivity.
Qed.

Lemma clean_and_parse_response_recovers_witness :
  clean_and_parse_response
    (lit "Here is your plan: ```json " ++ qlit "{'destination': 'Tokyo, Japan'}"
     ++ lit " ```")
  = Return (JObj [(lit "destination", JStr (lit "Tokyo, Japan"))]).
Proof.
  apply (clean_and_parse_response_recovers
           (lit "Here is your plan: ```json ")
           (qlit "{'destination': 'Tokyo, Japan'}") (lit " ```"));
    try (vm_compute; reflexivity);
    vm_compute; intros H;
    repeat (apply elem_of_cons in H as [H|H]; [discriminate|]);
    now apply elem_of_nil in H.
Defined.

(** ** Calendar dates *)

(** [_days_before_month] and [_days_in_month] as functions of the leap
    flag. *)
Lemma days_before_month_leap y m :
  days_before_month y m
  = nth (Z.to_nat m) DAYS_BEFORE_MONTH 0
    + (if (2 <? m) && is_leap y then 1 else 0).
Proof. reflexivity. Qed.

(** A property of the integers of an interval, checked one by one. *)
Lemma forall_range (P : Z -> bool) (lo len : Z) :
  forallb P (map (fun i => lo + Z.of_nat i) (seq 0 (Z.to_nat len))) = true ->
  forall n, lo <= n < lo + len -> P n = true.
Proof.
  intros H n Hn. rewrite forallb_forall in H. apply H.
  apply in_map_iff. exists (Z.to_nat (n - lo)). split; [lia|].
  apply in_seq. lia.
Qed.

Lemma month_and_day_spec leap n :
  0 <= n < 365 -> month_and_day_ok leap n = true.
Proof.
  intros Hn. apply (forall_range (month_and_day_ok leap) 0 365); [|lia].
  destruct leap; vm_compute; reflexivity.
Qed.

Lemma is_leap_cycle a b c e :
  0 <= a -> 0 <= b <= 3 -> 0 <= c <= 24 -> 0 <= e <= 3 ->
  is_leap (a * 400 + 1 + b * 100 + c * 4 + e)
  = (e =? 3) && (negb (c =? 24) || (b =? 3)).
Proof.
  intros Ha Hb Hc He. unfold is_leap.
  set (y := a * 400 + 1 + b * 100 + c * 4 + e).
  assert (H4 : y mod 4 = (e + 1) mod 4).
  { unfold y. replace (a * 400 + 1 + b * 100 + c * 4 + e)
      with (e + 1 + (a * 100 + b * 25 + c) * 4) by lia.
    apply Z.mod_add. lia. }
  assert (H100 : y mod 100 = (c * 4 + e + 1) mod 100).
  { unfold y. replace (a * 400 + 1 + b * 100 + c * 4 + e)
      with (c * 4 + e + 1 + (a * 4 + b) * 100) by lia.
    apply Z.mod_add. lia. }
  assert (H400 : y mod 400 = (b * 100 + c * 4 + e + 1) mod 400).
  { unfold y. replace (a * 400 + 1 + b * 100 + c * 4 + e)
      with (b * 100 + c * 4 + e + 1 + a * 400) by lia.
    apply Z.mod_add. lia. }
  rewrite H4, H100, H400. clear H4 H100 H400 y.
  destruct (Z.eqb_spec e 3) as [->|He3].
  - change ((3 + 1) mod 4) with 0. simpl (0 =? 0). cbn [andb].
    destruct (Z.eqb_spec c 24) as [->|Hc24].
    + change ((24 * 4 + 3 + 1) mod 100) with 0. simpl (0 =? 0). cbn [negb orb].
      destruct (Z.eqb_spec b 3) as [->|Hb3]; [reflexivity|].
      destruct (Z.eqb_spec ((b * 100 + 24 * 4 + 3 + 1) mod 400) 0) as [E|E];
        [|reflexivity].
      exfalso. rewrite Z.mod_small in E by lia. lia.
    + destruct (Z.eqb_spec ((c * 4 + 3 + 1) mod 100) 0) as [E|E];
        [|reflexivity].
      exfalso. rewrite Z.mod_small in E by lia. lia.
  - destruct (Z.eqb_spec ((e + 1) mod 4) 0) as [E|E]; [|reflexivity].
    exfalso. rewrite Z.mod_small in E by lia. lia.
Qed.

Lemma days_before_year_cycle a b c e :
  0 <= a -> 0 <= b <= 3 -> 0 <= c <= 24 -> 0 <= e <= 3 ->
  days_before_year (a * 400 + 1 + b * 100 + c * 4 + e)
  = a * DI400Y + b * DI100Y + c * DI4Y + e * 365.
Proof.
  intros Ha Hb Hc He. unfold days_before_year, DI400Y, DI100Y, DI4Y.
  replace (a * 400 + 1 + b * 100 + c * 4 + e - 1)
    with (a * 400 + b * 100 + c * 4 + e) by lia.
  assert (H4 : (a * 400 + b * 100 + c * 4 + e) / 4 = a * 100 + b * 25 + c).
  { symmetry. apply (Z.div_unique _ _ _ e); lia. }
  assert (H100 : (a * 400 + b * 100 + c * 4 + e) / 100 = a * 4 + b).
  { symmetry. apply (Z.div_unique _ _ _ (c * 4 + e)); lia. }
  assert (H400 : (a * 400 + b * 100 + c * 4 + e) / 400 = a).
  { symmetry. apply (Z.div_unique _ _ _ (b * 100 + c * 4 + e)); lia. }
  rewrite H4, H100, H400. lia.
Qed.

(** [_ord2ymd] inverts [_ymd2ord] on the ordinals of the calendar, and
    its dates are valid. *)
Lemma ord2ymd_spec n :
  1 <= n <= MAXORDINAL ->
  valid_date (ord2ymd n) = true /\ toordinal (ord2ymd n) = n.
Proof.
  unfold MAXORDINAL. intros Hn. unfold ord2ymd.
  set (n0 := n - 1).
  pose proof (Z.div_mod n0 DI400Y ltac:(discriminate)) as E400.
  pose proof (Z.mod_pos_bound n0 DI400Y ltac:(reflexivity)) as B400.
  set (a := n0 / DI400Y) in *. set (r400 := n0 mod DI400Y) in *.
  pose proof (Z.div_mod r400 DI100Y ltac:(discriminate)) as E100.
  pose proof (Z.mod_pos_bound r400 DI100Y ltac:(reflexivity)) as B100.
  set (b := r400 / DI100Y) in *. set (r100 := r400 mod DI100Y) in *.
  pose proof (Z.div_mod r100 DI4Y ltac:(discriminate)) as E4.
  pose proof (Z.mod_pos_bound r100 DI4Y ltac:(reflexivity)) as B4.
  set (c := r100 / DI4Y) in *. set (r4 := r100 mod DI4Y) in *.
  pose proof (Z.div_mod r4 365 ltac:(discriminate)) as E1.
  pose proof (Z.mod_pos_bound r4 365 ltac:(reflexivity)) as B1.
  set (e := r4 / 365) in *. set (r1 := r4 mod 365) in *.
  unfold DI400Y, DI100Y, DI4Y in E400, B400, E100, B100, E4, B4.
  assert (Ha : 0 <= a <= 24) by (unfold n0 in *; lia).
  assert (Hb : 0 <= b <= 4) by lia.
  assert (Hc : 0 <= c <= 24) by lia.
  assert (He : 0 <= e <= 4) by lia.
  destruct (Z.eqb_spec e 4) as [He4|He4]; cbn [orb].
  { (* the last day of a leap year *)
    assert (r1 = 0) by lia.
    assert (Hb3 : 0 <= b <= 3) by lia.
    replace (a * 400 + 1 + b * 100 + c * 4 + e - 1)
      with (a * 400 + 1 + b * 100 + c * 4 + 3) by lia.
    unfold valid_date, toordinal, ymd2ord. cbn [year month day].
    unfold days_in_month, days_before_month.
    rewrite days_before_year_cycle by lia.
    rewrite is_leap_cycle by lia.
    unfold MINYEAR, MAXYEAR, DI400Y, DI100Y, DI4Y.
    assert (Hc24 : c <> 24 \/ b = 3) by lia.
    replace ((3 =? 3) && (negb (c =? 24) || (b =? 3))) with true
      by (destruct (Z.eqb_spec c 24), (Z.eqb_spec b 3); simpl; try reflexivity; lia).
    change (12 =? 2) with false. change (2 <? 12) with true. cbn [andb].
    change (nth (Z.to_nat 12) DAYS_IN_MONTH 0) with 31.
    change (nth (Z.to_nat 12) DAYS_BEFORE_MONTH 0) with 334.
    split; [|unfold n0 in *; lia].
    repeat (apply andb_true_intro; split); apply Z.leb_le; unfold n0 in *; lia. }
  destruct (Z.eqb_spec b 4) as [Hb4|Hb4].
  { (* the last day of a cycle of 400 years *)
    assert (r100 = 0) by lia. assert (c = 0) by lia. assert (e = 0) by lia.
    assert (r1 = 0) by lia.
    replace (a * 400 + 1 + b * 100 + c * 4 + e - 1)
      with (a * 400 + 1 + 3 * 100 + 24 * 4 + 3) by lia.
    unfold valid_date, toordinal, ymd2ord. cbn [year month day].
    unfold days_in_month, days_before_month.
    rewrite days_before_year_cycle by lia.
    rewrite is_leap_cycle by lia.
    unfold MINYEAR, MAXYEAR, DI400Y, DI100Y, DI4Y.
    change (12 =? 2) with false. change (2 <? 12) with true.
    change (3 =? 3) with true. change (24 =? 24) with true. cbn [andb orb negb].
    change (nth (Z.to_nat 12) DAYS_IN_MONTH 0) with 31.
    change (nth (Z.to_nat 12) DAYS_BEFORE_MONTH 0) with 334.
    split; [|unfold n0 in *; lia].
    repeat (apply andb_true_intro; split); apply Z.leb_le; unfold n0 in *; lia. }
  assert (Hb3 : 0 <= b <= 3) by lia. assert (He3 : 0 <= e <= 3) by lia.
  set (leap := (e =? 3) && (negb (c =? 24) || (b =? 3))).
  pose proof (month_and_day_spec leap r1 B1) as Hmd.
  unfold month_and_day_ok in Hmd.
  destruct (month_and_day leap r1) as [m d].
  repeat (apply andb_prop in Hmd as [Hmd ?]).
  unfold valid_date, toordinal, ymd2ord. cbn [year month day].
  unfold days_in_month, days_before_month.
  rewrite days_before_year_cycle by lia.
  rewrite is_leap_cycle by lia. fold leap.
  unfold MINYEAR, MAXYEAR, DI400Y, DI100Y, DI4Y.
  split.
  - repeat (apply andb_true_intro; split); try assumption;
      apply Z.leb_le; unfold n0 in *; lia.
  - match goal with H : (_ =? _) = true |- _ => apply Z.eqb_eq in H end.
    unfold n0 in *. lia.
Qed.


Lemma year_text y : 1 <= y <= 9999 -> digits_value (str_of_int y) = y.
Proof.
  intros Hy.
  assert (H : year_text_ok y = true).
  { apply (forall_range year_text_ok 1 9999); [vm_compute; reflexivity|lia]. }
  now apply Z.eqb_eq in H.
Qed.

Lemma day_text d :
  1 <= d <= 31 ->
  length (zero_pad 2 d) = 2%nat /\ digits_value (zero_pad 2 d) = d.
Proof.
  intros Hd.
  assert (H : day_text_ok d = true).
  { apply (forall_range day_text_ok 1 31); [vm_compute; reflexivity|lia]. }
  apply andb_prop in H as [H1 H2].
  apply bool_decide_eq_true in H1. apply Z.eqb_eq in H2. auto.
Qed.

Lemma days_in_month_le y m : days_in_month y m <= 31.
Proof.
  unfold days_in_month. destruct ((m =? 2) && is_leap y); [lia|].
  generalize (Z.to_nat m). intros k. unfold DAYS_IN_MONTH.
  do 13 (destruct k as [|k]; [simpl; lia|]). destruct k; simpl; lia.
Qed.

(** The texts of two valid dates differ. *)
Lemma strftime_inj d1 d2 :
  valid_date d1 = true -> valid_date d2 = true ->
  strftime d1 = strftime d2 -> d1 = d2.
Proof.
  destruct d1 as [y1 m1 dd1], d2 as [y2 m2 dd2].
  unfold valid_date, MINYEAR, MAXYEAR, strftime. cbn [year month day].
  intros V1 V2. split_andb.
  pose proof (days_in_month_le y1 m1). pose proof (days_in_month_le y2 m2).
  destruct (day_text m1) as [Lm1 Vm1]; [lia|].
  destruct (day_text m2) as [Lm2 Vm2]; [lia|].
  destruct (day_text dd1) as [Ld1 Vd1]; [lia|].
  destruct (day_text dd2) as [Ld2 Vd2]; [lia|].
  intros Heq. apply app_inj_2 in Heq as [Hy Heq];
    [|rewrite !length_app; simpl; lia].
  injection Heq as Heq. apply app_inj_1 in Heq as [Hm Heq]; [|lia].
  injection Heq as Hd.
  rewrite <- (year_text y1), <- (year_text y2), Hy by lia.
  rewrite <- Vm1, <- Vm2, Hm, <- Vd1, <- Vd2, Hd. reflexivity.
Qed.

(** ** The return date of the directed flow *)




(** ** The loop of the weather forecast *)

Lemma foldl_Raise {A B} (f : B -> A -> outcome B) (items : list A) e :
  foldl (fun acc x => b ← acc; f b x) (Raise e) items = Raise e.
Proof. induction items as [|x r IH]; [reflexivity|exact IH]. Qed.

Lemma forecast_loop_nil E st : forecast_loop E [] st = Return st.
Proof. reflexivity. Qed.

Lemma forecast_loop_cons E item r st :
  forecast_loop E (item :: r) st
  = st' ← forecast_of_item E st item; forecast_loop E r st'.
Proof.
  unfold forecast_loop. cbn [foldl mbind outcome_bind].
  destruct (forecast_of_item E st item); [reflexivity|apply foldl_Raise].
Qed.

(** The three ways a round of the loop ends in a state. *)
Lemma forecast_of_item_cases E forecast seen item st' :
  forecast_of_item E (forecast, seen) item = Return st' ->
  exists d,
    item_date E item = Return d
    /\ (((d ∉ seen) /\ (length forecast < 5)%nat
         /\ exists entry,
              forecast_entry E d item = Return entry
              /\ st' = (forecast ++ [entry], {[d]} ∪ seen))
        \/ ((d ∈ seen \/ (5 <= length forecast)%nat)
            /\ st' = (forecast, seen))).
Proof.
  unfold forecast_of_item. cbv beta iota.
  destruct (item_date E item) as [d|]; cbn [mbind outcome_bind];
    [|intros H; discriminate H].
  intros H. exists d. split; [reflexivity|].
  destruct (bool_decide (d ∉ seen)) eqn:Hd;
    destruct (bool_decide (length forecast < 5)%nat) eqn:Hl; cbn [andb] in *;
    try apply bool_decide_eq_true in Hd; try apply bool_decide_eq_false in Hd;
    try apply bool_decide_eq_true in Hl; try apply bool_decide_eq_false in Hl.
  - destruct (forecast_entry E d item) as [entry|];
      cbn [mbind outcome_bind mret outcome_ret] in H; [|discriminate H].
    injection H as <-. left. eauto 10.
  - injection H as <-. right. split; [right; lia|reflexivity].
  - injection H as <-. right. split; [left|reflexivity].
    destruct (decide (d ∈ seen)); [assumption|contradiction].
  - injection H as <-. right. split; [right; lia|reflexivity].
Qed.

(** When the loop ends in a state, the date of every item was read. *)
Lemma forecast_loop_dates E items st st' :
  forecast_loop E items st = Return st' ->
  exists dates, mapM (item_date E) items = Return dates
                /\ length dates = length items.
Proof.
  revert st. induction items as [|item r IH]; intros [forecast seen].
  - intros _. exists []. split; reflexivity.
  - rewrite forecast_loop_cons.
    destruct (forecast_of_item E (forecast, seen) item) as [st1|] eqn:H1;
      [|discriminate].
    cbn [mbind outcome_bind]. intros (dates & Hd & Hl)%IH.
    apply forecast_of_item_cases in H1 as (d & Hdate & _).
    exists (d :: dates). cbn [mapM]. rewrite Hdate. cbn [mbind outcome_bind].
    rewrite Hd. split; [reflexivity|simpl; lia].
Qed.

(** A forecast of five entries is not extended. *)
Lemma forecast_loop_full E items forecast seen st' :
  (5 <= length forecast)%nat ->
  forecast_loop E items (forecast, seen) = Return st' ->
  st' = (forecast, seen).
Proof.
  intros Hl. induction items as [|item r IH].
  - now intros [= <-].
  - rewrite forecast_loop_cons.
    destruct (forecast_of_item E (forecast, seen) item) as [st1|] eqn:H1;
      [|discriminate].
    cbn [mbind outcome_bind].
    apply forecast_of_item_cases in H1
      as (d & _ & [(_ & Hlt & _)|[_ ->]]); [lia|exact IH].
Qed.

(** The entries appended by the loop are those of the first items of
    the dates not yet seen, as many as the forecast has room for. *)
Lemma forecast_loop_refines E items dates forecast seen forecast' seen' :
  mapM (item_date E) items = Return dates ->
  forecast_loop E items (forecast, seen) = Return (forecast', seen') ->
  exists new,
    forecast' = forecast ++ new
    /\ mapM (fun di => forecast_entry E di.1 di.2)
            (take (5 - length forecast) (distinct_days seen (zip dates items)))
       = Return new.
Proof.
  revert dates forecast seen.
  induction items as [|item r IH]; intros dates forecast seen Hd.
  - injection Hd as <-. intros [= <- <-]. exists []. rewrite app_nil_r.
    cbn [zip zip_with distinct_days]. rewrite take_nil. split; reflexivity.
  - cbn [mapM] in Hd.
    destruct (item_date E item) as [d|] eqn:Hdate; [|discriminate].
    cbn [mbind outcome_bind] in Hd.
    destruct (mapM (item_date E) r) as [ds|] eqn:Hds; [|discriminate].
    injection Hd as <-.
    rewrite forecast_loop_cons.
    destruct (forecast_of_item E (forecast, seen) item) as [st1|] eqn:H1;
      [|discriminate].
    cbn [mbind outcome_bind]. intros Hloop.
    apply forecast_of_item_cases in H1 as (d' & Hdate' & Hcase).
    rewrite Hdate in Hdate'. injection Hdate' as <-.
    cbn [zip zip_with distinct_days].
    destruct Hcase as [(Hnew & Hlt & entry & Hentry & ->)|[Hold ->]].
    + rewrite bool_decide_eq_false_2 by exact Hnew.
      destruct (IH _ _ _ eq_refl Hloop) as (new & -> & Hmap).
      exists (entry :: new). rewrite <- app_assoc. split; [reflexivity|].
      rewrite length_app in Hmap. cbn [length] in Hmap.
      replace (5 - length forecast)%nat with (S (5 - (length forecast + 1)))
        by lia.
      cbn [take mapM fst snd]. rewrite Hentry. cbn [mbind outcome_bind].
      now rewrite Hmap.
    + destruct (decide (5 <= length forecast)%nat) as [Hfull|Hroom].
      * apply (forecast_loop_full _ _ _ _ _ Hfull) in Hloop.
        injection Hloop as -> ->. exists []. rewrite app_nil_r.
        replace (5 - length forecast)%nat with 0%nat by lia.
        split; reflexivity.
      * destruct Hold as [Hseen|]; [|lia].
        rewrite bool_decide_eq_true_2 by exact Hseen.
        exact (IH _ _ _ eq_refl Hloop).
Qed.

Lemma forecast_entry_date E d item entry :
  forecast_entry E d item = Return entry -> entry_date entry = d.
Proof.
  unfold forecast_entry. intros H.
  repeat match type of H with
         | (mbind _ ?m) = _ =>
             let E := fresh in destruct m eqn:E; [|discriminate];
             cbn [mbind outcome_bind] in H
         end.
  injection H as <-. reflexivity.
Qed.

Lemma mapM_entry_dates E chosen forecast :
  mapM (fun di => forecast_entry E di.1 di.2) chosen = Return forecast ->
  map entry_date forecast = map fst chosen.
Proof.
  revert forecast. induction chosen as [|[d item] r IH]; intros forecast.
  - now intros [= <-].
  - cbn [mapM fst snd].
    destruct (forecast_entry E d item) as [entry|] eqn:He; [|discriminate].
    cbn [mbind outcome_bind].
    destruct (mapM _ r) as [rest|]; [|discriminate].
    intros [= <-]. cbn [map fst]. f_equal; [|now apply IH].
    eapply forecast_entry_date; eauto.
Qed.

(** The dates [distinct_days] keeps are new and pairwise distinct. *)
Lemma distinct_days_fresh seen dated d :
  d ∈ map fst (distinct_days seen dated) -> d ∉ seen.
Proof.
  revert seen. induction dated as [|[d' item] r IH]; intros seen; simpl.
  - intros H. now apply elem_of_nil in H.
  - destruct (bool_decide (d' ∈ seen)) eqn:Hd.
    + apply IH.
    + apply bool_decide_eq_false in Hd. cbn [map fst].
      intros [->|H]%elem_of_cons; [exact Hd|].
      apply IH in H. set_solver.
Qed.

Lemma distinct_days_NoDup seen dated :
  NoDup (map fst (distinct_days seen dated)).
Proof.
  revert seen. induction dated as [|[d item] r IH]; intros seen; simpl.
  - constructor.
  - destruct (bool_decide (d ∈ seen)); [apply IH|].
    cbn [map fst]. constructor; [|apply IH].
    intros H%distinct_days_fresh. set_solver.
Qed.

Lemma first_five_days_NoDup dated : NoDup (map fst (first_five_days dated)).
Proof.
  unfold first_five_days. rewrite <- firstn_map.
  eapply sublist_NoDup; [apply distinct_days_NoDup|apply sublist_take].
Qed.

(** ** Computations in the world *)

Lemma bind_run {A B} (m : M A) (k : A -> M B) t :
  (m ≫= k) t
  = match m t with
    | (Return a, t') => k a t'
    | (Raise e, t') => (Raise e, t')
    end.
Proof. reflexivity. Qed.

Lemma bind_Return {A B} (m : M A) (k : A -> M B) t b t' :
  (m ≫= k) t = (Return b, t') ->
  exists a t1, m t = (Return a, t1) /\ k a t1 = (Return b, t').
Proof.
  rewrite bind_run. destruct (m t) as [[a|e] t1]; [eauto|discriminate].
Qed.

Lemma lift_Return {A} (o : outcome A) t a t' :
  lift o t = (Return a, t') -> o = Return a /\ t' = t.
Proof. unfold lift. now intros [= -> ->]. Qed.

(** A [try] statement whose handler returns a value returns. *)
Lemma try_except_value {A} (body : M A) (x : A) t :
  exists v t',
    try_except body (fun _ => mret x) t = (Return v, t')
    /\ (body t = (Return v, t') \/ (v = x /\ exists e, body t = (Raise e, t'))).
Proof.
  unfold try_except. destruct (body t) as [[v|e] t'].
  - exists v, t'. auto.
  - exists x, t'. split; [reflexivity|]. right. eauto.
Qed.


Lemma try_except_Return {A} (body : M A) (handler : exn -> M A) t v t' :
  body t = (Return v, t') -> try_except body handler t = (Return v, t').
Proof. unfold try_except. now intros ->. Qed.

(** ** The flight pipeline *)

Section Flights.

Variable E : Env.
Variables origin destination departure_date return_date : pystr.

Let fallback :=
  get_fallback_flights origin destination departure_date return_date.
Let body :=
  search_flights_body E origin destination departure_date return_date.
Let run := search_flights E origin destination departure_date return_date.




Lemma search_flights_no_token t token t1 :
  get_amadeus_token E t = (Return token, t1) ->
  truthy (platform E) token = false ->
  run t = (Return fallback, t1).
Proof.
  intros Ht Hf. apply try_except_Return.
  unfold search_flights_body. rewrite bind_run, Ht, Hf. reflexivity.
Qed.




End Flights.

(** ** The fallback data *)



Lemma date_add_in_range d i :
  0 < toordinal d + i <= MAXORDINAL ->
  date_add d i = Return (ord2ymd (toordinal d + i)).
Proof.
  intros Hr. unfold date_add.
  destruct (Z.ltb_spec 0 (toordinal d + i)); [|lia].
  destruct (Z.leb_spec (toordinal d + i) MAXORDINAL); [|lia]. reflexivity.
Qed.

Lemma fallback_weather_day_in_range base_date forecast i :
  0 <= i <= 4 ->
  0 < toordinal base_date + i <= MAXORDINAL ->
  fallback_weather_day base_date forecast i
  = Return (forecast ++ [fallback_weather_entry base_date i]).
Proof.
  intros Hi Hr. unfold fallback_weather_day, timedelta.
  destruct (Z.leb_spec (Z.abs i) 999999999); [|lia]. cbn [mbind outcome_bind].
  rewrite date_add_in_range by assumption. cbn [mbind outcome_bind].
  rewrite (Z.mod_small i 5) by lia. reflexivity.
Qed.

(** With the clock in range the fallback forecast is five entries, one
    per day from today on, each marked as fallback. *)
Lemma get_fallback_weather_returns E city_name t :
  clock_in_range E ->
  get_fallback_weather E city_name t
  = (Return (JArr (map (fallback_weather_entry (datetime_now E t))
                       [0; 1; 2; 3; 4])), S t)
  /\ forallb (marked "description" "(Fallback)")
             (map (fallback_weather_entry (datetime_now E t)) [0; 1; 2; 3; 4])
     = true.
Proof.
  intros Hclock. specialize (Hclock t). unfold MAXORDINAL in Hclock.
  split; [|reflexivity].
  unfold get_fallback_weather. rewrite bind_run. unfold now at 1.
  cbn [for_each]. unfold lift.
  repeat (rewrite bind_run;
          rewrite fallback_weather_day_in_range by (unfold MAXORDINAL; lia)).
  reflexivity.
Qed.

(** ** The token and the city code *)

Lemma get_amadeus_token_unset E t :
  unset (AMADEUS_API_KEY E) || unset (AMADEUS_API_SECRET E) = true ->
  get_amadeus_token E t = (Return JNull, t).
Proof. intros H. unfold get_amadeus_token, try_except. now rewrite H. Qed.

Lemma get_amadeus_token_returns E t :
  exists token t', get_amadeus_token E t = (Return token, t').
Proof.
  unfold get_amadeus_token.
  match goal with
  | |- context [try_except ?b _] =>
      destruct (try_except_value b JNull t) as (v & t' & H & _)
  end.
  eauto.
Qed.

(** ** The hotel pipeline *)

Section Hotels.

Variable E : Env.
Variables city_name check_in check_out : pystr.

Let fallback := get_fallback_hotels city_name.
Let body := search_hotels_body E city_name check_in check_out.
Let run := search_hotels E city_name check_in check_out.




Lemma search_hotels_no_token t token t1 :
  get_amadeus_token E t = (Return token, t1) ->
  truthy (platform E) token = false ->
  run t = (Return fallback, t1).
Proof.
  intros Ht Hf. apply try_except_Return.
  unfold search_hotels_body. rewrite bind_run, Ht, Hf. reflexivity.
Qed.




End Hotels.

(** ** The weather pipeline *)

Section Weather.

Variable E : Env.
Variables city_name start_date end_date : pystr.

Let body := get_weather_forecast_body E city_name start_date end_date.
Let run := get_weather_forecast E city_name start_date end_date.

Lemma get_weather_forecast_body_cases t v t' :
  body t = (Return v, t') -> weather_result E city_name v t'.
Proof.
  unfold body, get_weather_forecast_body, weather_result. intros H.
  destruct (unset (OPENWEATHER_API_KEY E)); [left; eauto|].
  apply bind_Return in H as (resp & t1 & _ & H).
  apply bind_Return in H as (failed & t2 & _ & H).
  destruct failed; [left; eauto|].
  apply bind_Return in H as (geocode_data & t3 & _ & H).
  apply bind_Return in H as (lat & t4 & _ & H).
  apply bind_Return in H as (lon & t5 & _ & H).
  apply bind_Return in H as (wresp & t6 & _ & H).
  destruct (negb (status_code wresp =? 200)); [left; eauto|].
  apply bind_Return in H as (weather_data & t7 & _ & H).
  apply bind_Return in H as (forecast & t8 & [Hc ->]%lift_Return & H).
  destruct forecast as [|f fs]; [left; eauto|].
  injection H as <- <-. right. exists weather_data, (f :: fs).
  split; [exact Hc|]. split; [discriminate|reflexivity].
Qed.

Lemma get_weather_forecast_returns t :
  clock_in_range E ->
  exists v t', run t = (Return v, t') /\ weather_result E city_name v t'.
Proof.
  intros Hclock. unfold run, get_weather_forecast, try_except.
  destruct (body t) as [[v|e] t1] eqn:Hb; fold body; rewrite Hb.
  - exists v, t1. split; [reflexivity|].
    now apply get_weather_forecast_body_cases in Hb.
  - destruct (get_fallback_weather_returns E city_name t1 Hclock) as [Hf _].
    eexists _, _. split; [exact Hf|]. left. eauto.
Qed.


Lemma get_weather_forecast_no_key t :
  unset (OPENWEATHER_API_KEY E) = true ->
  clock_in_range E ->
  run t = get_fallback_weather E city_name t.
Proof.
  intros Hk Hclock.
  destruct (get_fallback_weather_returns E city_name t Hclock) as [Hf _].
  rewrite Hf. apply try_except_Return.
  unfold get_weather_forecast_body. now rewrite Hk.
Qed.



End Weather.

(** ** The three pipelines fall back *)




(** ** The deduplication of the forecast *)

Lemma get_weather_forecast_result E city_name start_date end_date t v t' :
  get_weather_forecast E city_name start_date end_date t = (Return v, t') ->
  weather_result E city_name v t'.
Proof.
  unfold get_weather_forecast, try_except.
  destruct (get_weather_forecast_body E city_name start_date end_date t)
    as [[v0|e] t1] eqn:Hb.
  - intros [= <- <-]. eapply get_weather_forecast_body_cases; eauto.
  - intros H. left. eauto.
Qed.

Lemma item_date_day E item s :
  item_date E item = Return s <->
  exists d, item_day E item = Return d /\ s = strftime d.
Proof.
  unfold item_date, item_day. destruct (py_item item "dt") as [dt|e];
    cbn [mbind outcome_bind]; [|split; [discriminate|intros (d & H & _); discriminate]].
  destruct (fromtimestamp (platform E) dt) as [d|e];
    cbn [mbind outcome_bind mret outcome_ret].
  - split; [intros [= <-]; eauto|intros (d' & [= <-] & ->); reflexivity].
  - split; [discriminate|intros (d & H & _); discriminate].
Qed.

Lemma mapM_item_date_days E items dates :
  mapM (item_date E) items = Return dates ->
  exists days,
    mapM (item_day E) items = Return days /\ dates = map strftime days.
Proof.
  revert dates. induction items as [|item r IH]; intros dates.
  - intros [= <-]. now exists [].
  - cbn [mapM]. destruct (item_date E item) as [s|] eqn:Hs; [|discriminate].
    cbn [mbind outcome_bind].
    destruct (mapM (item_date E) r) as [ss|]; [|discriminate].
    intros [= <-]. destruct (IH _ eq_refl) as (days & Hd & ->).
    apply item_date_day in Hs as (d & Hd' & ->).
    exists (d :: days). rewrite Hd', Hd. split; reflexivity.
Qed.

Lemma Forall_sublist_of {A} (P : A -> Prop) l1 l2 :
  sublist l1 l2 -> Forall P l2 -> Forall P l1.
Proof.
  induction 1 as [|x l1 l2 _ IH|x l1 l2 _ IH]; intros H;
    [constructor| |];
    apply Forall_cons in H as [Hx H]; [constructor|]; auto.
Qed.

Lemma chronological_sublist l1 l2 :
  sublist l1 l2 -> chronological l2 -> chronological l1.
Proof.
  induction 1 as [|x l1 l2 Hs IH|x l1 l2 Hs IH]; cbn [chronological].
  - trivial.
  - intros [Hx H]. split; [eapply Forall_sublist_of; eauto|auto].
  - intros [_ H]. auto.
Qed.

(** The dates kept are the texts of days of the list, in its order. *)
Lemma distinct_days_kept seen days items :
  exists kept,
    sublist kept days
    /\ map fst (distinct_days seen (zip (map strftime days) items))
       = map strftime kept.
Proof.
  revert seen items. induction days as [|d days IH]; intros seen items.
  - exists []. split; [constructor|reflexivity].
  - destruct items as [|item items].
    + exists []. split; [apply sublist_nil_l|reflexivity].
    + cbn [map zip zip_with distinct_days].
      destruct (bool_decide (strftime d ∈ seen)).
      * destruct (IH seen items) as (kept & Hs & Hk).
        exists kept. split; [now apply sublist_cons|exact Hk].
      * destruct (IH ({[strftime d]} ∪ seen) items) as (kept & Hs & Hk).
        exists (d :: kept). split; [now apply sublist_skip|].
        cbn [map fst]. now rewrite Hk.
Qed.

Lemma first_five_days_kept days items :
  exists kept,
    sublist kept days
    /\ map fst (first_five_days (zip (map strftime days) items))
       = map strftime kept.
Proof.
  unfold first_five_days.
  destruct (distinct_days_kept ∅ days items) as (kept & Hs & Hk).
  exists (take 5 kept). split.
  - etransitivity; [apply sublist_take|exact Hs].
  - rewrite <- !firstn_map. now rewrite Hk.
Qed.

Lemma py_get_item v key l :
  py_get v key JNull = Return l -> l <> JNull -> py_item v key = Return l.
Proof.
  destruct v; try discriminate. cbn [py_get py_item].
  destruct (dict_lookup (lit key) d) as [x|]; cbn [default].
  - now intros [= ->].
  - intros [= <-]. contradiction.
Qed.

(** C5, as stated, fails on a list that is not in the order of time:
    the entries come in the order in which the dates first appear,
    which is then not the order of the calendar. *)
Lemma collect_forecast_first_seen_order :
  exists forecast,
    collect_forecast (offline (Return []) (Date 2024 2 27))
      unsorted_weather_data = Return forecast
    /\ map entry_date forecast
       = [lit "1970-01-03"; lit "1970-01-01"; lit "1970-01-02"].
Proof. eexists. split; vm_compute; reflexivity. Qed.

(** C5, amended.  Whatever the provider answers, when the forecast is
    collected it is empty if the answer has no list or an empty one,
    and otherwise it holds the entries of the first item of each
    calendar date, in the order in which the dates first appear in the
    list, and at most five of them: its dates are pairwise distinct.
    When the days of the list never go back, the dates of the forecast
    are the texts of days in the order of the calendar.  Every value
    the weather pipeline returns is such a forecast, not empty, or the
    fallback forecast. *)
Theorem collect_forecast_deduplicates (E : Env) :
  (forall weather_data forecast,
      collect_forecast E weather_data = Return forecast ->
      exists l,
        py_get weather_data "list" JNull = Return l
        /\ ((truthy (platform E) l = false /\ forecast = [])
            \/ (truthy (platform E) l = true
                /\ exists items days,
                     py_iter l = Return items
                     /\ mapM (item_day E) items = Return days
                     /\ length days = length items
                     /\ mapM (fun di => forecast_entry E di.1 di.2)
                             (first_five_days (zip (map strftime days) items))
                        = Return forecast
                     /\ map entry_date forecast
                        = map fst (first_five_days
                                     (zip (map strftime days) items))
                     /\ NoDup (map entry_date forecast)
                     /\ (length forecast <= 5)%nat
                     /\ (chronological days ->
                         exists kept,
                           sublist kept days
                           /\ chronological kept
                           /\ map entry_date forecast = map strftime kept))))
  /\ (forall city_name start_date end_date t v t',
         get_weather_forecast E city_name start_date end_date t
         = (Return v, t') ->
         weather_result E city_name v t').
Proof.
  split; [|apply get_weather_forecast_result].
  intros weather_data forecast. unfold collect_forecast.
  destruct (py_get weather_data "list" JNull) as [l|] eqn:Hget;
    cbn [mbind outcome_bind]; [|discriminate].
  intros H. exists l. split; [reflexivity|].
  destruct (truthy (platform E) l) eqn:Hl.
  2:{ injection H as <-. now left. }
  right. split; [reflexivity|].
  rewrite (py_get_item _ _ _ Hget) in H by (intros ->; discriminate Hl).
  cbn [mbind outcome_bind] in H.
  destruct (py_iter l) as [items|] eqn:Hitems;
    cbn [mbind outcome_bind] in H; [|discriminate].
  destruct (forecast_loop E items ([], ∅)) as [[forecast' seen']|] eqn:Hloop;
    cbn [mbind outcome_bind mret outcome_ret] in H; [|discriminate].
  injection H as <-.
  destruct (forecast_loop_dates _ _ _ _ Hloop) as (dates & Hdates & Hlen).
  destruct (forecast_loop_refines _ _ _ _ _ _ _ Hdates Hloop)
    as (new & -> & Hmap).
  destruct (mapM_item_date_days _ _ _ Hdates) as (days & Hdays & ->).
  cbn [length app] in *. change (5 - 0)%nat with 5%nat in Hmap.
  fold (first_five_days (zip (map strftime days) items)) in Hmap.
  pose proof (mapM_entry_dates _ _ _ Hmap) as Hd.
  exists items, days. split; [reflexivity|]. split; [exact Hdays|].
  split; [now rewrite length_map in Hlen|].
  split; [exact Hmap|]. split; [exact Hd|].
  split; [rewrite Hd; apply first_five_days_NoDup|]. split.
  - apply (f_equal length) in Hd. rewrite !length_map in Hd. rewrite Hd.
    unfold first_five_days. rewrite length_take. lia.
  - intros Hchron.
    destruct (first_five_days_kept days items) as (kept & Hs & Hk).
    exists kept. split; [exact Hs|].
    split; [eapply chronological_sublist; eauto|]. now rewrite Hd.
Qed.

Lemma collect_forecast_deduplicates_witness :
  collect_forecast (offline (Return []) (Date 2024 2 27)) sample_weather_data
  = Return
      [dict_display
         [("date", jstr "1970-01-01"); ("temperature", JInt 10);
          ("description", jstr "Clear Sky"); ("icon", jstr "01d")]%string;
       dict_display
         [("date", jstr "1970-01-02"); ("temperature", JInt 9);
          ("description", jstr "Light Rain"); ("icon", jstr "01d")]%string]
  /\ NoDup [lit "1970-01-01"; lit "1970-01-02"].
Proof.
  assert (Hrun :
    collect_forecast (offline (Return []) (Date 2024 2 27)) sample_weather_data
    = Return
        [dict_display
           [("date", jstr "1970-01-01"); ("temperature", JInt 10);
            ("description", jstr "Clear Sky"); ("icon", jstr "01d")]%string;
         dict_display
           [("date", jstr "1970-01-02"); ("temperature", JInt 9);
            ("description", jstr "Light Rain"); ("icon", jstr "01d")]%string])
    by (vm_compute; reflexivity).
  split; [exact Hrun|].
  destruct (proj1 (collect_forecast_deduplicates _) _ _ Hrun)
    as (l & _ & [[_ Hnil]|(_ & items & days & _ & _ & _ & _ & _ & Hnd & _)]).
  - discriminate Hnil.
  - exact Hnd.
Defined.

(** ** The orchestrator *)

Lemma response_data_shape destination description itinerary_data
    flights_data hotels_data weather_data r :
  response_data destination description itinerary_data flights_data
    hotels_data weather_data = Return r ->
  exists d,
    itinerary_data = JObj d
    /\ r = success_response destination (JStr description)
             (default (jstr "Itinerary not available")
                (dict_lookup (lit "itinerary") d))
             (default (jstr "Local cuisine information not available")
                (dict_lookup (lit "cuisine") d))
             (default (JObj []) (dict_lookup (lit "estimated_cost") d))
             (default (jstr "Year-round destination")
                (dict_lookup (lit "best_time_to_visit") d))
             (default (jstr "Pack according to season")
                (dict_lookup (lit "packing_tips") d))
             flights_data hotels_data weather_data.
Proof.
  unfold response_data.
  destruct itinerary_data as [| | | | | |d]; try discriminate.
  cbn [py_get mbind outcome_bind mret outcome_ret].
  intros [= <-]. exists d. split; reflexivity.
Qed.

Lemma success_response_keys a b c d e f g h i j :
  has_key (success_response a b c d e f g h i j) "success" = true
  /\ forallb (has_key (success_response a b c d e f g h i j)) payload_fields
     = true
  /\ has_key (success_response a b c d e f g h i j) "fun_fact" = false
  /\ has_key (success_response a b c d e f g h i j) "error" = false.
Proof. repeat split; reflexivity. Qed.

Lemma error_response_keys message :
  error_response message
  = JObj [(lit "success", JBool false); (lit "error", JStr message)]
  /\ existsb (has_key (error_response message)) payload_fields = false.
Proof. split; reflexivity. Qed.

Section Directed.

Variable E : Env.
Variable f : form.

Lemma generate_itinerary_cases t :
  (exists data t',
      generate_itinerary_body E f t = (Return data, t')
      /\ generate_itinerary E f t = (Return (data, 200), t'))
  \/ (exists e t',
         generate_itinerary_body E f t = (Raise e, t')
         /\ generate_itinerary E f t
            = (Return (error_response
                         (lit "Error generating itinerary: " ++ exn_str e),
                       500), t')).
Proof.
  unfold generate_itinerary, try_except. rewrite bind_run.
  destruct (generate_itinerary_body E f t) as [[data|e] t'].
  - left. eauto.
  - right. eauto.
Qed.

(** The flow of the directed request, stage by stage. *)
Lemma generate_itinerary_body_flow t data t' :
  generate_itinerary_body E f t = (Return data, t') ->
  directed_flow E f t data t'.
Proof.
  unfold generate_itinerary_body, directed_flow. intros H.
  apply bind_Return in H as (user_mood & ? & [H1 ->]%lift_Return & H).
  apply bind_Return in H as (user_budget & ? & [H2 ->]%lift_Return & H).
  apply bind_Return in H as (user_duration & ? & [H3 ->]%lift_Return & H).
  apply bind_Return in H as (user_travel_style & ? & [H4 ->]%lift_Return & H).
  apply bind_Return in H as (user_origin & ? & [H5 ->]%lift_Return & H).
  apply bind_Return in H as (user_travel_means & ? & [H6 ->]%lift_Return & H).
  apply bind_Return in H
    as (user_hotel_preference & ? & [H7 ->]%lift_Return & H).
  apply bind_Return in H
    as (user_departure_date & ? & [H8 ->]%lift_Return & H).
  apply bind_Return in H as (text & ? & Hg & H).
  unfold generate in Hg. injection Hg as Hg <-.
  apply bind_Return in H as (itinerary_data & ? & [Hc ->]%lift_Return & H).
  destruct (clean_and_parse_response_dict text) as [draft Hd].
  rewrite Hd in Hc. injection Hc as <-.
  apply bind_Return in H as (destination & ? & [Hdest ->]%lift_Return & H).
  cbn [py_get] in Hdest. injection Hdest as <-.
  apply bind_Return in H as (city_name & ? & [Hcity ->]%lift_Return & H).
  apply bind_Return in H as (return_date & ? & [Hret ->]%lift_Return & H).
  apply bind_Return in H as (flights & t1 & Hf & H).
  apply bind_Return in H as (hotels & t2 & Hh & H).
  apply bind_Return in H as (weather & t3 & Hw & H).
  apply lift_Return in H as [Hr ->].
  apply response_data_shape in Hr as (d & [= <-] & ->).
  exists user_mood, user_budget, user_duration, user_travel_style,
    user_origin, user_travel_means, user_hotel_preference,
    user_departure_date, text, draft, city_name, return_date, flights, t1,
    hotels, t2, weather.
  repeat (split; [assumption|]). reflexivity.
Qed.

End Directed.

Section Surprise.

Variable E : Env.

Lemma surprise_destination_cases t :
  (exists data t',
      surprise_destination_body E t = (Return data, t')
      /\ surprise_destination E t = (Return (data, 200), t'))
  \/ (exists e t',
         surprise_destination_body E t = (Raise e, t')
         /\ surprise_destination E t
            = (Return (error_response
                         (lit "An internal error occurred while generating the surprise destination."),
                       500), t')).
Proof.
  unfold surprise_destination, try_except. rewrite bind_run.
  destruct (surprise_destination_body E t) as [[data|e] t'].
  - left. eauto.
  - right. eauto.
Qed.

Lemma random_choice_surprise t x t' :
  random_choice E surprise_destinations t = (Return x, t') ->
  x ∈ surprise_destinations /\ t' = S t.
Proof.
  unfold random_choice.
  destruct (surprise_destinations !! _) as [y|] eqn:Hy; [|discriminate].
  intros [= <- <-]. split; [|reflexivity].
  eapply list_elem_of_lookup_2; eauto.
Qed.

Lemma date_add_ordinal d n r :
  date_add d n = Return r ->
  valid_date r = true /\ toordinal r = toordinal d + n.
Proof.
  unfold date_add.
  destruct (Z.ltb_spec 0 (toordinal d + n)); [|discriminate].
  destruct (Z.leb_spec (toordinal d + n) MAXORDINAL); [|discriminate].
  cbn [andb]. intros [= <-]. apply ord2ymd_spec. lia.
Qed.

Lemma days_from_today d n s :
  (Z.abs n <=? 999999999) = true ->
  (delta ← timedelta n; r ← date_add d delta; mret (strftime r)) = Return s ->
  exists r, date_add d n = Return r /\ strftime r = s.
Proof.
  intros Hn. unfold timedelta. rewrite Hn. cbn [mbind outcome_bind].
  destruct (date_add d n) as [r|]; cbn [mbind outcome_bind mret outcome_ret];
    [|discriminate].
  intros [= <-]. eauto.
Qed.

(** The flow of the surprise request, stage by stage. *)
Lemma surprise_destination_body_flow t data t' :
  surprise_destination_body E t = (Return data, t') ->
  surprise_flow E t data t'.
Proof.
  unfold surprise_destination_body, surprise_flow. intros H.
  apply bind_Return in H as (random_destination & ? & Hr & H).
  apply random_choice_surprise in Hr as [Hin ->].
  apply bind_Return in H as (text & ? & Hg & H).
  unfold generate in Hg. injection Hg as Hg <-.
  apply bind_Return in H as (itinerary_data & ? & [Hc ->]%lift_Return & H).
  destruct (clean_and_parse_response_dict text) as [draft Hd].
  rewrite Hd in Hc. injection Hc as <-.
  apply bind_Return in H as (destination & ? & [Hdest ->]%lift_Return & H).
  cbn [py_get] in Hdest. injection Hdest as <-.
  apply bind_Return in H as (city_name & ? & [Hcity ->]%lift_Return & H).
  apply bind_Return in H as (today1 & ? & Hn1 & H).
  unfold now in Hn1. injection Hn1 as <- <-.
  apply bind_Return in H as (tomorrow & ? & [Ht ->]%lift_Return & H).
  apply bind_Return in H as (today2 & ? & Hn2 & H).
  unfold now in Hn2. injection Hn2 as <- <-.
  apply bind_Return in H as (return_date & ? & [Hrd ->]%lift_Return & H).
  apply days_from_today in Ht as (d1 & Hd1 & <-); [|reflexivity].
  apply days_from_today in Hrd as (d6 & Hd6 & <-); [|reflexivity].
  apply date_add_ordinal in Hd1 as [Hv1 Ho1].
  apply date_add_ordinal in Hd6 as [Hv6 Ho6].
  apply bind_Return in H as (flights & t1 & Hf & H).
  apply bind_Return in H as (hotels & t2 & Hh & H).
  apply bind_Return in H as (weather & t3 & Hw & H).
  apply lift_Return in H as [Hr ->].
  apply response_data_shape in Hr as (d & [= <-] & ->).
  exists random_destination, text, draft, city_name, d1, d6, flights, t1,
    hotels, t2, weather.
  repeat (split; [assumption|]). reflexivity.
Qed.

End Surprise.

(** ** The answers of the two flows *)

Lemma directed_flow_response E f t data t' :
  directed_flow E f t data t' ->
  exists a b c d e g h i j k, data = success_response a b c d e g h i j k.
Proof.
  unfold directed_flow. intros H.
  repeat match type of H with
         | ex _ => destruct H as [? H]
         | _ /\ _ => destruct H as [_ H]
         end.
  rewrite H. eauto 12.
Qed.

Lemma surprise_flow_response E t data t' :
  surprise_flow E t data t' ->
  exists a b c d e g h i j k, data = success_response a b c d e g h i j k.
Proof.
  unfold surprise_flow. intros H.
  repeat match type of H with
         | ex _ => destruct H as [? H]
         | _ /\ _ => destruct H as [_ H]
         end.
  rewrite H. eauto 12.
Qed.

Lemma generate_itinerary_success E f t data t' :
  generate_itinerary E f t = (Return (data, 200), t') ->
  directed_flow E f t data t'.
Proof.
  destruct (generate_itinerary_cases E f t)
    as [(d & t1 & Hb & ->)|(e & t1 & _ & ->)]; [|discriminate].
  intros [= <- <-]. now apply generate_itinerary_body_flow.
Qed.

Lemma surprise_destination_success E t data t' :
  surprise_destination E t = (Return (data, 200), t') ->
  surprise_flow E t data t'.
Proof.
  destruct (surprise_destination_cases E t)
    as [(d & t1 & Hb & ->)|(e & t1 & _ & ->)]; [|discriminate].
  intros [= <- <-]. now apply surprise_destination_body_flow.
Qed.

(** C8, as stated, fails on the fun fact: the draft holds one and the
    successful answer has no such key. *)
Lemma response_drops_fun_fact :
  exists draft data t',
    clean_and_parse_response
      (qlit "{'destination': 'Tokyo, Japan', 'fun_fact': 'It never sleeps.'}")
    = Return draft
    /\ has_key draft "fun_fact" = true
    /\ generate_itinerary
         (offline
            (Return (qlit "{'destination': 'Tokyo, Japan', 'fun_fact': 'It never sleeps.'}"))
            (Date 2024 2 27))
         (sample_form "7" "2024-01-01") 0%nat
       = (Return (data, 200), t')
    /\ has_key data "success" = true
    /\ has_key data "fun_fact" = false.
Proof.
  do 3 eexists. split; [vm_compute; reflexivity|].
  split; [reflexivity|]. split; [vm_compute; reflexivity|].
  split; reflexivity.
Qed.

(** C8, amended.  The answer of a successful request, in either flow, is
    the dictionary of the flag, the destination, the description, the
    itinerary, the cuisine, the estimated cost, the best time to visit,
    the packing tips and the three lists of flights, hotels and weather;
    it has no fun fact. *)
Theorem successful_response_fields (E : Env) :
  (forall f t data t',
      generate_itinerary E f t = (Return (data, 200), t') ->
      exists a b c d e g h i j k, data = success_response a b c d e g h i j k)
  /\ (forall t data t',
         surprise_destination E t = (Return (data, 200), t') ->
         exists a b c d e g h i j k,
           data = success_response a b c d e g h i j k)
  /\ (forall a b c d e g h i j k,
         dict_lookup (lit "success")
           match success_response a b c d e g h i j k with
           | JObj items => items
           | _ => []
           end = Some (JBool true)
         /\ forallb (has_key (success_response a b c d e g h i j k))
                    payload_fields = true
         /\ has_key (success_response a b c d e g h i j k) "fun_fact" = false).
Proof.
  split; [|split].
  - intros f t data t' H.
    exact (directed_flow_response _ _ _ _ _
             (generate_itinerary_success _ _ _ _ _ H)).
  - intros t data t' H.
    exact (surprise_flow_response _ _ _ _
             (surprise_destination_success _ _ _ _ H)).
  - intros. split; [reflexivity|]. split; reflexivity.
Qed.

Lemma successful_response_fields_witness :
  exists a b c d e g h i j k,
    (generate_itinerary
       (offline (Return (qlit "{'destination': 'Tokyo, Japan'}"))
          (Date 2024 2 27))
       (sample_form "7" "2024-01-01") 0%nat).1
    = Return (success_response a b c d e g h i j k, 200).
Proof.
  destruct (generate_itinerary
              (offline (Return (qlit "{'destination': 'Tokyo, Japan'}"))
                 (Date 2024 2 27))
              (sample_form "7" "2024-01-01") 0%nat) as [r t'] eqn:Hrun.
  assert (Hr : exists data, r = Return (data, 200)).
  { revert Hrun. vm_compute. intros [= <- _]. eauto. }
  destruct Hr as [data ->].
  destruct (proj1 (successful_response_fields _) _ _ _ _ Hrun)
    as (a & b & c & d & e & g & h & i & j & k & ->).
  exists a, b, c, d, e, g, h, i, j, k. reflexivity.
Defined.

(** C9.  In either flow an exception that leaves the body of the [try]
    statement is answered with status 500 and the dictionary of the flag
    [False] and an error message, in which no field of an itinerary and
    no list of flights, hotels or weather is present; and the flow
    itself never raises. *)
Theorem flows_fail_whole (E : Env) :
  (forall f t, exists r t', generate_itinerary E f t = (Return r, t'))
  /\ (forall f t e t',
         generate_itinerary_body E f t = (Raise e, t') ->
         generate_itinerary E f t
         = (Return (error_response
                      (lit "Error generating itinerary: " ++ exn_str e),
                    500), t'))
  /\ (forall t, exists r t', surprise_destination E t = (Return r, t'))
  /\ (forall t e t',
         surprise_destination_body E t = (Raise e, t') ->
         surprise_destination E t
         = (Return (error_response
                      (lit "An internal error occurred while generating the surprise destination."),
                    500), t'))
  /\ (forall message,
         error_response message
         = JObj [(lit "success", JBool false); (lit "error", JStr message)]
         /\ existsb (has_key (error_response message)) payload_fields = false).
Proof.
  split; [|split; [|split; [|split]]].
  - intros f t.
    destruct (generate_itinerary_cases E f t)
      as [(d & t1 & _ & ->)|(e & t1 & _ & ->)]; eauto.
  - intros f t e t' Hb.
    destruct (generate_itinerary_cases E f t)
      as [(d & t1 & Hb' & _)|(e' & t1 & Hb' & ->)]; congruence.
  - intros t.
    destruct (surprise_destination_cases E t)
      as [(d & t1 & _ & ->)|(e & t1 & _ & ->)]; eauto.
  - intros t e t' Hb.
    destruct (surprise_destination_cases E t)
      as [(d & t1 & Hb' & _)|(e' & t1 & Hb' & ->)]; congruence.
  - apply error_response_keys.
Qed.

Lemma flows_fail_whole_witness :
  exists e t',
    generate_itinerary_body
      (offline (Return (qlit "{'destination': 'Tokyo, Japan'}"))
         (Date 2024 2 27))
      (sample_form "7" "next week") 0%nat = (Raise e, t')
    /\ generate_itinerary
         (offline (Return (qlit "{'destination': 'Tokyo, Japan'}"))
            (Date 2024 2 27))
         (sample_form "7" "next week") 0%nat
       = (Return (error_response
                    (lit "Error generating itinerary: " ++ exn_str e),
                  500), t').
Proof.
  assert (H : exists e t',
             generate_itinerary_body
               (offline (Return (qlit "{'destination': 'Tokyo, Japan'}"))
                  (Date 2024 2 27))
               (sample_form "7" "next week") 0%nat = (Raise e, t')).
  { vm_compute. eauto. }
  destruct H as (e & t' & H). exists e, t'. split; [exact H|].
  exact (proj1 (proj2 (flows_fail_whole _)) _ _ _ _ H).
Defined.

(** C6, as stated, fails when the text of the generator is not JSON: the
    draft is then the fallback dictionary, whose destination is no
    curated name. *)
Lemma surprise_destination_not_curated :
  exists data t',
    surprise_destination
      (offline (Return (lit "I cannot help with that.")) (Date 2024 2 27))
      0%nat
    = (Return (data, 200), t')
    /\ match data with
       | JObj items => dict_lookup (lit "destination") items
       | _ => None
       end = Some (JStr (lit "Paris, France"))
    /\ lit "Paris, France" ∉ surprise_destinations.
Proof.
  do 2 eexists. split; [vm_compute; reflexivity|]. split; [reflexivity|].
  vm_compute. intros H.
  repeat (apply elem_of_cons in H as [H|H]; [discriminate|]).
  now apply elem_of_nil in H.
Qed.

(** C6, amended.  When the surprise flow answers, the destination drawn
    and named in the prompt is one of the ten curated names; the
    destination of the answer is the one of the draft, and the drawn
    name only when the draft has none; the three pipelines are called
    with the origin New York, with the text of the day after the day the
    clock shows as departure date and with the text of the sixth day
    after the day the clock shows as return date. *)
Theorem surprise_destination_flow (E : Env) (t : nat) (data : json)
    (t' : nat) :
  surprise_destination E t = (Return (data, 200), t') ->
  length surprise_destinations = 10%nat /\ surprise_flow E t data t'.
Proof.
  intros H. split; [reflexivity|]. now apply surprise_destination_success.
Qed.

Lemma surprise_destination_flow_witness :
  exists data t',
    length surprise_destinations = 10%nat
    /\ surprise_flow
         (offline (Return (qlit "{'itinerary': 'Day 1'}")) (Date 2024 2 27))
         0%nat data t'.
Proof.
  destruct (surprise_destination
              (offline (Return (qlit "{'itinerary': 'Day 1'}"))
                 (Date 2024 2 27)) 0%nat) as [r t'] eqn:Hrun.
  assert (Hr : exists data, r = Return (data, 200)).
  { revert Hrun. vm_compute. intros [= <- _]. eauto. }
  destruct Hr as [data ->]. exists data, t'.
  exact (surprise_destination_flow _ _ _ _ Hrun).
Defined.

(** ** The number of interactions *)

Lemma bounded_mono {A} n n' (m : M A) t :
  (n <= n')%nat -> bounded n m t -> bounded n' m t.
Proof. unfold bounded. lia. Qed.

Lemma bounded_ret {A} (a : A) t : bounded 0 (mret a : M A) t.
Proof. unfold bounded. simpl. lia. Qed.

Lemma bounded_lift {A} (o : outcome A) t : bounded 0 (lift o) t.
Proof. unfold bounded, lift. simpl. lia. Qed.

Lemma bounded_bind {A B} a b (m : M A) (k : A -> M B) t :
  bounded a m t ->
  (forall x t', m t = (Return x, t') -> bounded b (k x) t') ->
  bounded (a + b) (m ≫= k) t.
Proof.
  unfold bounded. rewrite bind_run. intros Hm Hk.
  destruct (m t) as [[x|e] t'] eqn:Hrun; simpl in *.
  - specialize (Hk x t' eq_refl). lia.
  - lia.
Qed.

Lemma bounded_try_except {A} a b (body : M A) (handler : exn -> M A) t :
  bounded a body t ->
  (forall e t', body t = (Raise e, t') -> bounded b (handler e) t') ->
  bounded (a + b) (try_except body handler) t.
Proof.
  unfold bounded, try_except. intros Hm Hk.
  destruct (body t) as [[x|e] t'] eqn:Hrun; simpl in *.
  - lia.
  - specialize (Hk e t' eq_refl). lia.
Qed.

Lemma bounded_for_each {A B} n (body : B -> A -> M B) items acc t :
  (forall acc x t', bounded n (body acc x) t') ->
  bounded (n * length items) (for_each body items acc) t.
Proof.
  intros Hb. revert acc t. induction items as [|x r IH]; intros acc t.
  - simpl. rewrite Nat.mul_0_r. apply bounded_ret.
  - simpl for_each. replace (n * length (x :: r))%nat
      with (n + n * length r)%nat by (simpl; lia).
    apply bounded_bind; [apply Hb|]. intros; apply IH.
Qed.

Lemma bounded_requests_get E url headers params t :
  bounded 1 (requests_get E url headers params) t.
Proof. unfold bounded, requests_get. simpl. lia. Qed.

Lemma bounded_requests_post E url headers data t :
  bounded 1 (requests_post E url headers data) t.
Proof. unfold bounded, requests_post. simpl. lia. Qed.

Lemma bounded_now E t : bounded 1 (now E) t.
Proof. unfold bounded, now. simpl. lia. Qed.

Lemma bounded_if {A} n (c : bool) (m1 m2 : M A) t :
  bounded n m1 t -> bounded n m2 t -> bounded n (if c then m1 else m2) t.
Proof. now destruct c. Qed.

Lemma bounded_get_amadeus_token E t : bounded 1 (get_amadeus_token E) t.
Proof.
  unfold get_amadeus_token.
  apply (bounded_try_except 1 0); [|intros; apply bounded_ret].
  apply bounded_if; [apply (bounded_mono 0); [lia|apply bounded_ret]|].
  apply (bounded_bind 1 0); [apply bounded_requests_post|].
  intros resp t' _. apply bounded_if.
  - apply (bounded_bind 0 0); [apply bounded_lift|].
    intros; apply bounded_lift.
  - apply bounded_ret.
Qed.

Lemma bounded_search_city_code E city_name t :
  bounded 2 (search_city_code E city_name) t.
Proof.
  unfold search_city_code.
  apply (bounded_try_except 2 0); [|intros; apply bounded_ret].
  apply (bounded_bind 1 1); [apply bounded_get_amadeus_token|].
  intros token t1 _.
  apply bounded_if; [apply (bounded_mono 0); [lia|apply bounded_ret]|].
  apply (bounded_bind 1 0); [apply bounded_requests_get|].
  intros resp t2 _. apply bounded_if; [|apply bounded_ret].
  apply (bounded_bind 0 0); [apply bounded_lift|]. intros data t3 _.
  apply (bounded_bind 0 0); [apply bounded_lift|]. intros found t4 _.
  apply bounded_if; [apply bounded_lift|apply bounded_ret].
Qed.

Lemma bounded_search_flights E origin destination departure_date return_date
    t :
  bounded 6 (search_flights E origin destination departure_date return_date) t.
Proof.
  unfold search_flights.
  apply (bounded_try_except 6 0); [|intros; apply bounded_ret].
  unfold search_flights_body.
  apply (bounded_bind 1 5); [apply bounded_get_amadeus_token|].
  intros token t1 _.
  apply bounded_if; [apply (bounded_mono 0); [lia|apply bounded_ret]|].
  apply (bounded_bind 2 3); [apply bounded_search_city_code|].
  intros origin_code t2 _.
  apply (bounded_bind 2 1); [apply bounded_search_city_code|].
  intros dest_code t3 _.
  apply bounded_if; [apply (bounded_mono 0); [lia|apply bounded_ret]|].
  apply (bounded_bind 1 0); [apply bounded_requests_get|].
  intros resp t4 _. apply bounded_if; [|apply bounded_ret].
  apply (bounded_bind 0 0); [apply bounded_lift|]. intros data t5 _.
  apply (bounded_bind 0 0); [apply bounded_lift|]. intros offers t6 _.
  apply (bounded_bind 0 0); [apply bounded_lift|]. intros flights t7 _.
  apply bounded_ret.
Qed.

(** ** Loops that append *)

Lemma foldl_append {A} (f : list json -> A -> outcome (list json))
    (Q : json -> Prop) items init out :
  (forall l x l', f l x = Return l' -> exists y, l' = l ++ [y] /\ Q y) ->
  foldl (fun acc x => l ← acc; f l x) (Return init) items = Return out ->
  exists new,
    out = init ++ new /\ length new = length items /\ Forall Q new.
Proof.
  intros Hf. revert init. induction items as [|x r IH]; intros init.
  - intros [= <-]. exists []. rewrite app_nil_r. auto.
  - cbn [foldl mbind outcome_bind].
    destruct (f init x) as [l'|e] eqn:Hx; [|now rewrite foldl_Raise].
    intros (new & -> & Hlen & HQ)%IH.
    apply Hf in Hx as (y & -> & Hy).
    exists (y :: new). rewrite <- app_assoc. repeat split; simpl; auto.
Qed.

Lemma slice_iter_length n v d items :
  py_slice_to n v = Return d -> py_iter d = Return items ->
  (length items <= n)%nat.
Proof.
  destruct v; try discriminate; intros [= <-] [= <-];
    rewrite ?length_map, length_take; lia.
Qed.

(** ** The flights made from offers *)

Lemma flight_of_offer_live E data origin_code dest_code departure_date
    return_date flights offer flights' :
  flight_of_offer E data origin_code dest_code departure_date return_date
    flights offer = Return flights' ->
  exists x, flights' = flights ++ [x] /\ live_flight departure_date return_date x.
Proof.
  unfold flight_of_offer, flight_without_details, live_flight. intros H.
  repeat match type of H with
         | (mbind _ ?m) = _ =>
             let Hstep := fresh "Hstep" in
             destruct m eqn:Hstep; [|discriminate];
             cbn [mbind outcome_bind] in H
         | (if ?c then _ else _) = _ => destruct c
         end;
    try match type of H with
        | context [if ?c then jstr _ else jstr _] => destruct c
        end;
    injection H as <-; eexists; (split; [reflexivity|]);
    do 4 eexists; (split; [reflexivity|]);
    rewrite !elem_of_cons; auto.
Qed.

Lemma live_flight_unmarked departure_date return_date x :
  live_flight departure_date return_date x ->
  marked "note" "(Fallback Data)" x = false.
Proof.
  intros (airline & route & price & note & -> & Hnote).
  repeat (apply elem_of_cons in Hnote as [->|Hnote]; [reflexivity|]).
  now apply elem_of_nil in Hnote.
Qed.

Section FlightsLive.

Variable E : Env.
Variables origin destination departure_date return_date : pystr.

Let fallback :=
  get_fallback_flights origin destination departure_date return_date.
Let body :=
  search_flights_body E origin destination departure_date return_date.
Let run := search_flights E origin destination departure_date return_date.

Lemma search_flights_body_live t v t' :
  body t = (Return v, t') ->
  v = fallback
  \/ exists flights,
       v = JArr flights /\ (1 <= length flights <= 3)%nat
       /\ Forall (live_flight departure_date return_date) flights.
Proof.
  unfold body, search_flights_body. fold fallback. intros H.
  apply bind_Return in H as (token & t1 & _ & H).
  destruct (negb (truthy _ token)); [injection H as <- _; now left|].
  apply bind_Return in H as (oc & t2 & _ & H).
  apply bind_Return in H as (dc & t3 & _ & H).
  destruct (negb (truthy _ oc) || negb (truthy _ dc));
    [injection H as <- _; now left|].
  apply bind_Return in H as (resp & t4 & _ & H).
  destruct (status_code resp =? 200); [|injection H as <- _; now left].
  apply bind_Return in H as (data & t5 & _ & H).
  apply bind_Return in H as (offers & t6 & _ & H).
  apply bind_Return in H as (flights & t7 & [Hfl _]%lift_Return & H).
  injection H as <- _. destruct flights as [|f fs] eqn:Hfs; [now left|right].
  rewrite <- Hfs in *. exists flights. split; [now rewrite Hfs|].
  destruct (truthy _ offers); [|injection Hfl as <-; discriminate].
  bind_steps Hfl.
  apply (foldl_append _ (live_flight departure_date return_date)) in Hfl
    as (new & -> & Hlen & Hlive); [|apply flight_of_offer_live].
  cbn [app] in *. split; [|exact Hlive].
  pose proof (slice_iter_length _ _ _ _ Hstep0 Hstep1).
  subst new. simpl in *. lia.
Qed.

Lemma search_flights_live t :
  exists v t',
    run t = (Return v, t')
    /\ (v = fallback
        \/ exists flights,
             v = JArr flights /\ (1 <= length flights <= 3)%nat
             /\ Forall (live_flight departure_date return_date) flights).
Proof.
  destruct (try_except_value body fallback t) as (v & t' & Hrun & Hcase).
  exists v, t'. split; [exact Hrun|].
  destruct Hcase as [Hb|[-> _]]; [|now left].
  now apply search_flights_body_live in Hb.
Qed.

End FlightsLive.

(** ** The hotels made from offers *)

Lemma hotel_of_offer_live E city_name body hotels offer hotels' :
  hotel_of_offer E city_name body hotels offer = Return hotels' ->
  exists x, hotels' = hotels ++ [x] /\ live_hotel city_name x.
Proof.
  unfold hotel_of_offer, live_hotel. intros H. bind_steps H.
  injection H as <-. eexists. split; [reflexivity|].
  match goal with
  | Hn : py_get _ "name" _ = Return ?n,
    Ht : py_get _ "total" _ = Return ?p,
    Hc : py_get _ "currency" _ = Return ?c |- _ =>
      exists n,
        (format_value (platform E) c ++ lit " " ++ format_value (platform E) p)
  end.
  rewrite <- app_assoc. reflexivity.
Qed.

Lemma live_hotel_unmarked city_name x :
  live_hotel city_name x -> marked "amenities" "(Fallback Data)" x = false.
Proof. intros (name & price & ->). reflexivity. Qed.

(** A round of the loop over the hotel ids sends one request and
    appends at most one hotel. *)
Lemma hotel_offers_step E token city_name check_in check_out hotels hotel_id
    t hotels' t' :
  hotel_offers E token city_name check_in check_out hotels hotel_id t
  = (Return hotels', t') ->
  exists new,
    hotels' = hotels ++ new /\ (length new <= 1)%nat
    /\ Forall (live_hotel city_name) new.
Proof.
  unfold hotel_offers. intros H.
  apply bind_Return in H as (resp & t1 & _ & H).
  apply bind_Return in H as (has_data & t2 & _ & H).
  destruct has_data.
  - apply lift_Return in H as [H _]. bind_steps H.
    apply (foldl_append _ (live_hotel city_name)) in H
      as (new & -> & Hlen & Hlive); [|apply hotel_of_offer_live].
    exists new. split; [reflexivity|]. split; [|exact Hlive].
    pose proof (slice_iter_length _ _ _ _ Hstep3 Hstep4). lia.
  - injection H as <- _. exists []. rewrite app_nil_r. auto.
Qed.

Lemma bounded_hotel_offers E token city_name check_in check_out hotels
    hotel_id t :
  bounded 1
    (hotel_offers E token city_name check_in check_out hotels hotel_id) t.
Proof.
  unfold hotel_offers.
  apply (bounded_bind 1 0); [apply bounded_requests_get|]. intros resp t1 _.
  apply (bounded_bind 0 0); [apply bounded_lift|]. intros has_data t2 _.
  apply bounded_if; [apply bounded_lift|apply bounded_ret].
Qed.

Lemma for_each_append {A} (Q : json -> Prop)
    (body : list json -> A -> M (list json)) items acc t out t' :
  (forall l x t l' t',
      body l x t = (Return l', t') ->
      exists new, l' = l ++ new /\ (length new <= 1)%nat /\ Forall Q new) ->
  for_each body items acc t = (Return out, t') ->
  exists new,
    out = acc ++ new /\ (length new <= length items)%nat /\ Forall Q new.
Proof.
  intros Hb. revert acc t. induction items as [|x r IH]; intros acc t.
  - intros [= <- _]. exists []. rewrite app_nil_r. auto.
  - cbn [for_each].
    intros (acc1 & t1 & Hx & (new & -> & Hlen & HQ)%IH)%bind_Return.
    apply Hb in Hx as (new1 & -> & Hlen1 & HQ1).
    exists (new1 ++ new). rewrite <- app_assoc. split; [reflexivity|].
    split; [rewrite length_app; simpl; lia|now apply Forall_app].
Qed.

(** At most five hotel ids are kept, line 313. *)
Lemma hotel_ids_length (has_data : bool) resp hotel_ids :
  (if has_data then
     body ← response_json resp;
     d ← py_item body "data";
     d ← py_slice_to 5 d;
     items ← py_iter d;
     foldl (fun acc hotel_info =>
              hotel_ids ← acc;
              hotel_id ← py_item hotel_info "hotelId";
              mret (hotel_ids ++ [hotel_id]))
           (Return []) items
   else mret []) = Return hotel_ids ->
  (length hotel_ids <= 5)%nat.
Proof.
  destruct has_data; [|intros [= <-]; simpl; lia].
  intros H. bind_steps H.
  apply (foldl_append
           (fun l hotel_info =>
              hotel_id ← py_item hotel_info "hotelId"; mret (l ++ [hotel_id]))
           (fun _ => True)) in H as (new & -> & Hlen & _).
  - pose proof (slice_iter_length _ _ _ _ Hstep1 Hstep2). simpl. lia.
  - intros l x l' Hx. bind_steps Hx. injection Hx as <-. eauto.
Qed.

Section HotelsLive.

Variable E : Env.
Variables city_name check_in check_out : pystr.

Let fallback := get_fallback_hotels city_name.
Let body := search_hotels_body E city_name check_in check_out.
Let run := search_hotels E city_name check_in check_out.

Lemma search_hotels_body_live t v t' :
  body t = (Return v, t') ->
  v = fallback
  \/ exists hotels,
       v = JArr hotels /\ (1 <= length hotels <= 5)%nat
       /\ Forall (live_hotel city_name) hotels.
Proof.
  unfold body, search_hotels_body. fold fallback. intros H.
  apply bind_Return in H as (token & t1 & _ & H).
  destruct (negb (truthy _ token)); [injection H as <- _; now left|].
  apply bind_Return in H as (code & t2 & _ & H).
  destruct (negb (truthy _ code)); [injection H as <- _; now left|].
  apply bind_Return in H as (resp & t3 & _ & H).
  apply bind_Return in H as (has_data & t4 & _ & H).
  apply bind_Return in H as (hotel_ids & t5 & [Hids _]%lift_Return & H).
  apply bind_Return in H as (hotels & t6 & Hloop & H).
  injection H as <- _. destruct hotels as [|h hs] eqn:Hhs; [now left|right].
  rewrite <- Hhs in *. exists hotels. split; [now rewrite Hhs|].
  apply hotel_ids_length in Hids.
  destruct (truthy _ (JArr hotel_ids)); [|injection Hloop as <- _; discriminate].
  apply (for_each_append (live_hotel city_name)) in Hloop
    as (new & -> & Hlen & Hlive);
    [|intros l x t0 l' t0'; apply hotel_offers_step].
  cbn [app] in *. split; [|exact Hlive]. subst new. simpl in *. lia.
Qed.

Lemma search_hotels_live t :
  exists v t',
    run t = (Return v, t')
    /\ (v = fallback
        \/ exists hotels,
             v = JArr hotels /\ (1 <= length hotels <= 5)%nat
             /\ Forall (live_hotel city_name) hotels).
Proof.
  destruct (try_except_value body fallback t) as (v & t' & Hrun & Hcase).
  exists v, t'. split; [exact Hrun|].
  destruct Hcase as [Hb|[-> _]]; [|now left].
  now apply search_hotels_body_live in Hb.
Qed.

Lemma bounded_search_hotels t : bounded 9 run t.
Proof.
  unfold run, search_hotels.
  apply (bounded_try_except 9 0); [|intros; apply bounded_ret].
  unfold search_hotels_body.
  apply (bounded_bind 1 8); [apply bounded_get_amadeus_token|].
  intros token t1 _.
  apply bounded_if; [apply (bounded_mono 0); [lia|apply bounded_ret]|].
  apply (bounded_bind 2 6); [apply bounded_search_city_code|].
  intros code t2 _.
  apply bounded_if; [apply (bounded_mono 0); [lia|apply bounded_ret]|].
  apply (bounded_bind 1 5); [apply bounded_requests_get|]. intros resp t3 _.
  apply (bounded_bind 0 5); [apply bounded_lift|]. intros has_data t4 _.
  apply (bounded_bind 0 5); [apply bounded_lift|].
  intros hotel_ids t5 [Hids _]%lift_Return. apply hotel_ids_length in Hids.
  apply (bounded_bind 5 0); [|intros; apply bounded_ret].
  apply bounded_if; [|apply (bounded_mono 0); [lia|apply bounded_ret]].
  apply (bounded_mono (1 * length hotel_ids)); [lia|].
  apply bounded_for_each. intros; apply bounded_hotel_offers.
Qed.

End HotelsLive.

(** ** The entries of a forecast *)

Lemma forecast_entry_day E d item entry :
  forecast_entry E d item = Return entry -> forecast_day entry.
Proof.
  unfold forecast_entry, forecast_day. intros H. bind_steps H.
  injection H as <-.
  match goal with
  | Hr : py_round _ _ = Return ?temp, Ht : py_title _ _ = Return ?descr |- _ =>
      assert (Htemp : exists z, temp = JInt z)
        by (revert Hr; clear; intros Hr;
            match type of Hr with
            | py_round _ ?v = _ => destruct v; try discriminate
            end; cbn in Hr; bind_steps Hr; injection Hr as <-; eauto);
      assert (Hdescr : exists s, descr = JStr s)
        by (revert Ht; clear; intros Ht;
            match type of Ht with
            | py_title _ ?v = _ => destruct v; try discriminate
            end; injection Ht as <-; eauto)
  end.
  destruct Htemp as [z ->], Hdescr as [s ->]. do 4 eexists. reflexivity.
Qed.

Lemma forecast_loop_days E items forecast seen forecast' seen' :
  forecast_loop E items (forecast, seen) = Return (forecast', seen') ->
  (length forecast <= 5)%nat -> Forall forecast_day forecast ->
  (length forecast' <= 5)%nat /\ Forall forecast_day forecast'.
Proof.
  revert forecast seen. induction items as [|item r IH]; intros forecast seen.
  - intros [= <- <-]. auto.
  - rewrite forecast_loop_cons.
    destruct (forecast_of_item E (forecast, seen) item) as [st1|] eqn:H1;
      [|discriminate].
    cbn [mbind outcome_bind]. intros Hloop Hlen Hdays.
    apply forecast_of_item_cases in H1
      as (d & _ & [(_ & Hlt & entry & Hentry & ->)|[_ ->]]).
    + apply (IH _ _ Hloop).
      * rewrite length_app. simpl. lia.
      * apply Forall_app. split; [exact Hdays|].
        apply Forall_singleton. now apply forecast_entry_day in Hentry.
    + now apply (IH _ _ Hloop).
Qed.

Lemma collect_forecast_days E weather_data forecast :
  collect_forecast E weather_data = Return forecast ->
  (length forecast <= 5)%nat /\ Forall forecast_day forecast.
Proof.
  unfold collect_forecast. intros H. bind_steps H.
  destruct (truthy _ _); [|injection H as <-; simpl; split; [lia|constructor]].
  bind_steps H. injection H as <-.
  match goal with
  | Hl : forecast_loop _ _ _ = Return ?st |- _ => destruct st as [f s]
  end.
  eapply forecast_loop_days; [eassumption|simpl; lia|constructor].
Qed.

Lemma fallback_weather_day_entry base_date forecast i forecast' :
  fallback_weather_day base_date forecast i = Return forecast' ->
  exists entry, forecast' = forecast ++ [entry] /\ forecast_day entry.
Proof.
  unfold fallback_weather_day. intros H. bind_steps H. injection H as <-.
  eexists. split; [reflexivity|]. do 4 eexists. reflexivity.
Qed.

(** When the fallback forecast is made, it has five entries. *)
Lemma get_fallback_weather_days E city_name t v t' :
  get_fallback_weather E city_name t = (Return v, t') ->
  exists entries,
    v = JArr entries /\ length entries = 5%nat /\ Forall forecast_day entries.
Proof.
  unfold get_fallback_weather. intros H.
  apply bind_Return in H as (base_date & t1 & _ & H).
  apply bind_Return in H as (forecast & t2 & Hloop & H).
  injection H as <- _. exists forecast. split; [reflexivity|].
  cbn [for_each] in Hloop.
  repeat match type of Hloop with
         | (mbind _ _) _ = _ =>
             let Hd := fresh "Hd" in
             apply bind_Return in Hloop
               as (? & ? & [(? & -> & Hd)%fallback_weather_day_entry _]%lift_Return
                   & Hloop)
         end.
  injection Hloop as <- _. split; [reflexivity|].
  repeat (apply Forall_cons; split; [assumption|]). constructor.
Qed.

Section WeatherLive.

Variable E : Env.
Variables city_name start_date end_date : pystr.

Let run := get_weather_forecast E city_name start_date end_date.

Lemma weather_result_days v t' :
  weather_result E city_name v t' ->
  exists entries,
    v = JArr entries /\ (1 <= length entries <= 5)%nat
    /\ Forall forecast_day entries.
Proof.
  intros [(t0 & Hf)|(weather_data & forecast & Hc & Hne & ->)].
  - apply get_fallback_weather_days in Hf as (entries & -> & Hlen & Hdays).
    exists entries. split; [reflexivity|]. split; [lia|exact Hdays].
  - apply collect_forecast_days in Hc as [Hlen Hdays].
    exists forecast. split; [reflexivity|]. split; [|exact Hdays].
    destruct forecast; [contradiction|simpl in *; lia].
Qed.

Lemma bounded_get_fallback_weather t :
  bounded 1 (get_fallback_weather E city_name) t.
Proof.
  unfold get_fallback_weather.
  apply (bounded_bind 1 0); [apply bounded_now|]. intros base_date t1 _.
  apply (bounded_bind 0 0); [|intros; apply bounded_ret].
  apply (bounded_for_each 0). intros; apply bounded_lift.
Qed.

Lemma bounded_get_weather_forecast t : bounded 4 run t.
Proof.
  unfold run, get_weather_forecast.
  apply (bounded_try_except 3 1);
    [|intros; apply bounded_get_fallback_weather].
  unfold get_weather_forecast_body.
  apply bounded_if;
    [apply (bounded_mono 1); [lia|apply bounded_get_fallback_weather]|].
  apply (bounded_bind 1 2); [apply bounded_requests_get|]. intros resp t1 _.
  apply (bounded_bind 0 2); [apply bounded_lift|]. intros failed t2 _.
  apply bounded_if;
    [apply (bounded_mono 1); [lia|apply bounded_get_fallback_weather]|].
  apply (bounded_bind 0 2); [apply bounded_lift|]. intros data t3 _.
  apply (bounded_bind 0 2); [apply bounded_lift|]. intros lat t4 _.
  apply (bounded_bind 0 2); [apply bounded_lift|]. intros lon t5 _.
  apply (bounded_bind 1 1); [apply bounded_requests_get|]. intros wresp t6 _.
  apply bounded_if; [apply bounded_get_fallback_weather|].
  apply (bounded_bind 0 1); [apply bounded_lift|]. intros wd t7 _.
  apply (bounded_bind 0 1); [apply bounded_lift|]. intros forecast t8 _.
  apply bounded_if;
    [apply (bounded_mono 0); [lia|apply bounded_ret]
    |apply bounded_get_fallback_weather].
Qed.

End WeatherLive.

(** ** The interactions of the two flows *)

Lemma bounded_generate E prompt t : bounded 1 (generate E prompt) t.
Proof. unfold bounded, generate. simpl. lia. Qed.

Lemma bounded_random_choice E seq t : bounded 1 (random_choice E seq) t.
Proof. unfold bounded, random_choice. simpl. lia. Qed.

Lemma bounded_generate_itinerary E f t : bounded 20 (generate_itinerary E f) t.
Proof.
  unfold generate_itinerary.
  apply (bounded_try_except 20 0); [|intros; apply bounded_ret].
  apply (bounded_bind 20 0); [|intros; apply bounded_ret].
  unfold generate_itinerary_body.
  do 8 (apply (bounded_bind 0 20); [apply bounded_lift|]; intros ? ? _).
  apply (bounded_bind 1 19); [apply bounded_generate|]. intros text t1 _.
  do 4 (apply (bounded_bind 0 19); [apply bounded_lift|]; intros ? ? _).
  apply (bounded_bind 6 13); [apply bounded_search_flights|]. intros ? ? _.
  apply (bounded_bind 9 4); [apply bounded_search_hotels|]. intros ? ? _.
  apply (bounded_bind 4 0); [apply bounded_get_weather_forecast|].
  intros; apply bounded_lift.
Qed.

Lemma bounded_surprise_destination E t :
  bounded 23 (surprise_destination E) t.
Proof.
  unfold surprise_destination.
  apply (bounded_try_except 23 0); [|intros; apply bounded_ret].
  apply (bounded_bind 23 0); [|intros; apply bounded_ret].
  unfold surprise_destination_body.
  apply (bounded_bind 1 22); [apply bounded_random_choice|]. intros ? ? _.
  apply (bounded_bind 1 21); [apply bounded_generate|]. intros ? ? _.
  do 3 (apply (bounded_bind 0 21); [apply bounded_lift|]; intros ? ? _).
  apply (bounded_bind 1 20); [apply bounded_now|]. intros ? ? _.
  apply (bounded_bind 0 20); [apply bounded_lift|]; intros ? ? _.
  apply (bounded_bind 1 19); [apply bounded_now|]. intros ? ? _.
  apply (bounded_bind 0 19); [apply bounded_lift|]; intros ? ? _.
  apply (bounded_bind 6 13); [apply bounded_search_flights|]. intros ? ? _.
  apply (bounded_bind 9 4); [apply bounded_search_hotels|]. intros ? ? _.
  apply (bounded_bind 4 0); [apply bounded_get_weather_forecast|].
  intros; apply bounded_lift.
Qed.

(** ** The token and the city code, case by case *)

(** X1.  [get_amadeus_token] never raises.  Without both credentials it
    returns [None] and sends nothing.  With them it sends one request,
    the POST of the credentials to the token address, and returns the
    [access_token] of an answer of status 200 whose body is a JSON
    object ([None] when the object has no such member); it returns
    [None] when the request raises, when the status is not 200 and
    when the body is not the text of a JSON object. *)
Theorem get_amadeus_token_outcomes (E : Env) (t : nat) :
  (unset (AMADEUS_API_KEY E) || unset (AMADEUS_API_SECRET E) = true ->
   get_amadeus_token E t = (Return JNull, t))
  /\ (unset (AMADEUS_API_KEY E) || unset (AMADEUS_API_SECRET E) = false ->
      get_amadeus_token E t
      = (Return
           match requests_send E t (token_request E) with
           | Return resp =>
               if status_code resp =? 200 then
                 match response_json resp with
                 | Return (JObj d) =>
                     default JNull (dict_lookup (lit "access_token") d)
                 | _ => JNull
                 end
               else JNull
           | Raise _ => JNull
           end, S t)).
Proof.
  split; [apply get_amadeus_token_unset|].
  intros Hset. unfold get_amadeus_token, try_except. rewrite Hset.
  rewrite bind_run. unfold requests_post, token_request. cbn [map fst snd].
  destruct (requests_send E t _) as [resp|e]; [|reflexivity].
  destruct (status_code resp =? 200); [|reflexivity].
  rewrite bind_run. unfold lift.
  destruct (response_json resp) as [[| | | | | |d]|e]; reflexivity.
Qed.

Lemma get_amadeus_token_outcomes_witness :
  get_amadeus_token (offline (Return []) (Date 2024 2 27)) 0%nat
  = (Return JNull, 0%nat)
  /\ get_amadeus_token (online (Return []) (Date 2024 2 27)) 0%nat
     = (Return (jstr "abc"), 1%nat).
Proof.
  split.
  - apply (proj1 (get_amadeus_token_outcomes _ _)). reflexivity.
  - rewrite (proj2 (get_amadeus_token_outcomes
                      (online (Return []) (Date 2024 2 27)) 0%nat) eq_refl).
    vm_compute. reflexivity.
Defined.

Section CityCode.

Variable E : Env.
Variable city_name : pystr.

Lemma search_city_code_returns t :
  exists v t', search_city_code E city_name t = (Return v, t').
Proof.
  unfold search_city_code.
  match goal with
  | |- context [try_except ?b _] =>
      destruct (try_except_value b JNull t) as (v & t' & H & _)
  end.
  eauto.
Qed.

Lemma search_city_code_no_token t token t1 :
  get_amadeus_token E t = (Return token, t1) ->
  truthy (platform E) token = false ->
  search_city_code E city_name t = (Return JNull, t1).
Proof.
  intros Ht Hf. unfold search_city_code, try_except.
  rewrite bind_run, Ht, Hf. reflexivity.
Qed.

Lemma search_city_code_found t token t1 resp d x rest code :
  get_amadeus_token E t = (Return token, t1) ->
  truthy (platform E) token = true ->
  requests_send E t1 (locations_request E token city_name) = Return resp ->
  status_code resp = 200 ->
  response_json resp = Return (JObj d) ->
  dict_lookup (lit "data") d = Some (JArr (JObj x :: rest)) ->
  dict_lookup (lit "iataCode") x = Some code ->
  search_city_code E city_name t = (Return code, S t1).
Proof.
  intros Ht Htrue Hsend Hs Hj Hd Hc.
  unfold search_city_code, try_except. rewrite bind_run, Ht, Htrue.
  cbn [negb]. rewrite bind_run. unfold requests_get, locations_request in *.
  cbn [map fst snd] in *. rewrite Hsend, Hs. cbn [Z.eqb Pos.eqb].
  rewrite !bind_run. unfold lift. rewrite Hj.
  cbn [py_get py_item mbind outcome_bind default]. rewrite Hd.
  cbn [default truthy py_len py_first py_item mbind outcome_bind length negb
       bool_decide decide_rel].
  rewrite Hc. reflexivity.
Qed.

(** A code that is returned was read from an answer. *)
Lemma search_city_code_code t v t' :
  search_city_code E city_name t = (Return v, t') ->
  v = JNull
  \/ exists token t1 resp d x rest,
       get_amadeus_token E t = (Return token, t1)
       /\ truthy (platform E) token = true
       /\ requests_send E t1 (locations_request E token city_name)
          = Return resp
       /\ status_code resp = 200
       /\ response_json resp = Return (JObj d)
       /\ dict_lookup (lit "data") d = Some (JArr (JObj x :: rest))
       /\ dict_lookup (lit "iataCode") x = Some v
       /\ t' = S t1.
Proof.
  unfold search_city_code.
  match goal with
  | |- context [try_except ?b _] =>
      destruct (try_except_value b JNull t)
        as (v0 & t0 & Hrun & [Hb|[-> _]]); rewrite Hrun
  end; intros [= <- <-]; [|now left].
  apply bind_Return in Hb as (token & t1 & Ht & Hb).
  destruct (truthy (platform E) token) eqn:Htrue; cbn [negb] in Hb;
    [|injection Hb as <- _; now left].
  apply bind_Return in Hb as (resp & t2 & Hsend & Hb).
  unfold requests_get in Hsend. cbn [map fst snd] in Hsend.
  injection Hsend as Hsend <-.
  destruct (status_code resp =? 200) eqn:Hs;
    [|injection Hb as <- _; now left].
  apply Z.eqb_eq in Hs.
  apply bind_Return in Hb as (data & t3 & [Hj ->]%lift_Return & Hb).
  apply bind_Return in Hb as (found & t4 & [_ ->]%lift_Return & Hb).
  destruct found; [|injection Hb as <- _; now left].
  apply lift_Return in Hb as [Hb ->]. bind_steps Hb.
  destruct data as [| | | | | |d]; try discriminate.
  cbn [py_item] in Hstep.
  destruct (dict_lookup (lit "data") d) as [dv|] eqn:Hd; [|discriminate].
  injection Hstep as <-.
  destruct dv as [| | | |[|c r]|[|x rest]|]; try discriminate;
    injection Hstep0 as <-; [discriminate|].
  destruct x as [| | | | | |xd]; try discriminate.
  cbn [py_item] in Hb.
  destruct (dict_lookup (lit "iataCode") xd) as [code|] eqn:Hc;
    [|discriminate].
  injection Hb as <-. right. exists token, t1, resp, d, xd, rest.
  unfold locations_request. auto 10.
Qed.

End CityCode.

(** X2.  [search_city_code] never raises.  Without a token it returns
    [None] and sends no request for locations.  It returns the
    [iataCode] of the first location of an answer of status 200; and a
    value it returns other than [None] is that code of such an answer,
    read with one request after the token. *)
Theorem search_city_code_outcomes (E : Env) (city_name : pystr) (t : nat) :
  (exists v t', search_city_code E city_name t = (Return v, t'))
  /\ (forall token t1,
         get_amadeus_token E t = (Return token, t1) ->
         truthy (platform E) token = false ->
         search_city_code E city_name t = (Return JNull, t1))
  /\ (forall token t1 resp d x rest code,
         get_amadeus_token E t = (Return token, t1) ->
         truthy (platform E) token = true ->
         requests_send E t1 (locations_request E token city_name)
         = Return resp ->
         status_code resp = 200 ->
         response_json resp = Return (JObj d) ->
         dict_lookup (lit "data") d = Some (JArr (JObj x :: rest)) ->
         dict_lookup (lit "iataCode") x = Some code ->
         search_city_code E city_name t = (Return code, S t1))
  /\ (forall v t',
         search_city_code E city_name t = (Return v, t') ->
         v <> JNull ->
         exists token t1 resp d x rest,
           get_amadeus_token E t = (Return token, t1)
           /\ truthy (platform E) token = true
           /\ requests_send E t1 (locations_request E token city_name)
              = Return resp
           /\ status_code resp = 200
           /\ response_json resp = Return (JObj d)
           /\ dict_lookup (lit "data") d = Some (JArr (JObj x :: rest))
           /\ dict_lookup (lit "iataCode") x = Some v
           /\ t' = S t1).
Proof.
  split; [apply search_city_code_returns|].
  split; [apply search_city_code_no_token|].
  split; [apply search_city_code_found|].
  intros v t' H Hv.
  destruct (search_city_code_code _ _ _ _ _ H) as [->|Hc];
    [contradiction|exact Hc].
Qed.

Lemma search_city_code_outcomes_witness :
  exists token t1 resp d x rest,
    get_amadeus_token (online (Return []) (Date 2024 2 27)) 0%nat
    = (Return token, t1)
    /\ truthy sample_platform token = true
    /\ requests_send (online (Return []) (Date 2024 2 27)) t1
         (locations_request (online (Return []) (Date 2024 2 27)) token
            (lit "Paris"))
       = Return resp
    /\ status_code resp = 200
    /\ response_json resp = Return (JObj d)
    /\ dict_lookup (lit "data") d = Some (JArr (JObj x :: rest))
    /\ dict_lookup (lit "iataCode") x = Some (jstr "PAR")
    /\ 2%nat = S t1.
Proof.
  apply (proj2 (proj2 (proj2
           (search_city_code_outcomes
              (online (Return []) (Date 2024 2 27)) (lit "Paris") 0%nat)))
           (jstr "PAR") 2%nat).
  - vm_compute. reflexivity.
  - discriminate.
Defined.

(** ** What the three pipelines return *)

(** X3.  [search_flights] always returns, and what it returns is its
    fallback list or a list of one to three flights made from offers:
    dictionaries of the keys airline, route, price, departure, return
    and note, in this order, whose departure and return are the dates of
    the search, whose route and price are texts and whose note is one
    of the three notes of the live path.  No such flight carries the
    marker of the fallback data. *)
Theorem search_flights_result (E : Env)
    (origin destination departure_date return_date : pystr) (t : nat) :
  (exists v t',
      search_flights E origin destination departure_date return_date t
      = (Return v, t')
      /\ (v = get_fallback_flights origin destination departure_date
                return_date
          \/ exists flights,
               v = JArr flights /\ (1 <= length flights <= 3)%nat
               /\ Forall (live_flight departure_date return_date) flights))
  /\ (forall x,
         live_flight departure_date return_date x ->
         marked "note" "(Fallback Data)" x = false).
Proof.
  split; [apply search_flights_live|apply live_flight_unmarked].
Qed.

Lemma search_flights_result_witness :
  exists flights,
    search_flights (online (Return []) (Date 2024 2 27)) (lit "Oslo")
      (lit "Paris") (lit "2024-01-01") (lit "2024-01-08") 0%nat
    = (Return (JArr flights), 6%nat)
    /\ length flights = 3%nat
    /\ Forall (live_flight (lit "2024-01-01") (lit "2024-01-08")) flights.
Proof.
  destruct (proj1 (search_flights_result
                     (online (Return []) (Date 2024 2 27)) (lit "Oslo")
                     (lit "Paris") (lit "2024-01-01") (lit "2024-01-08")
                     0%nat))
    as (v & t' & Hrun & Hcase).
  assert (Hv : exists a b c, v = JArr [a; b; c] /\ t' = 6%nat
                             /\ marked "note" "(Fallback Data)" a = false).
  { revert Hrun. vm_compute. intros [= <- <-]. do 3 eexists.
    split; [reflexivity|]. split; reflexivity. }
  destruct Hv as (a & b & c & -> & -> & Ha).
  exists [a; b; c]. split; [exact Hrun|]. split; [reflexivity|].
  destruct Hcase as [Hf|(flights & [= <-] & _ & Hlive)]; [|exact Hlive].
  exfalso. revert Ha. injection Hf as -> _ _. vm_compute. discriminate.
Defined.

(** X4.  [search_hotels] always returns, and what it returns is its
    fallback list or a list of one to five hotels made from offers:
    dictionaries of the keys name, rating, price, location and
    amenities, in this order, whose rating is N/A, whose price is a text
    that ends in /night, whose location is the city of the search and
    whose amenities are WiFi, Breakfast.  No such hotel carries the
    marker of the fallback data. *)
Theorem search_hotels_result (E : Env) (city_name check_in check_out : pystr)
    (t : nat) :
  (exists v t',
      search_hotels E city_name check_in check_out t = (Return v, t')
      /\ (v = get_fallback_hotels city_name
          \/ exists hotels,
               v = JArr hotels /\ (1 <= length hotels <= 5)%nat
               /\ Forall (live_hotel city_name) hotels))
  /\ (forall x,
         live_hotel city_name x ->
         marked "amenities" "(Fallback Data)" x = false).
Proof.
  split; [apply search_hotels_live|apply live_hotel_unmarked].
Qed.

Lemma search_hotels_result_witness :
  exists hotels,
    search_hotels (online (Return []) (Date 2024 2 27)) (lit "Paris")
      (lit "2024-01-01") (lit "2024-01-08") 0%nat
    = (Return (JArr hotels), 9%nat)
    /\ length hotels = 5%nat
    /\ Forall (live_hotel (lit "Paris")) hotels.
Proof.
  destruct (proj1 (search_hotels_result
                     (online (Return []) (Date 2024 2 27)) (lit "Paris")
                     (lit "2024-01-01") (lit "2024-01-08") 0%nat))
    as (v & t' & Hrun & Hcase).
  assert (Hv : exists a b c d e, v = JArr [a; b; c; d; e] /\ t' = 9%nat).
  { revert Hrun. vm_compute. intros [= <- <-]. do 5 eexists.
    split; reflexivity. }
  destruct Hv as (a & b & c & d & e & -> & ->).
  exists [a; b; c; d; e]. split; [exact Hrun|]. split; [reflexivity|].
  destruct Hcase as [Hf|(hotels & [= <-] & _ & Hlive)]; [|exact Hlive].
  discriminate Hf.
Defined.

(** X5.  When the clock shows a day at least four days before the end
    of the calendar, [get_weather_forecast] returns a list of one to
    five entries, each a dictionary of the keys date, temperature,
    description and icon, in this order, whose date and description are
    texts and whose temperature is a whole number. *)
Theorem get_weather_forecast_days (E : Env)
    (city_name start_date end_date : pystr) (t : nat) :
  clock_in_range E ->
  exists entries t',
    get_weather_forecast E city_name start_date end_date t
    = (Return (JArr entries), t')
    /\ (1 <= length entries <= 5)%nat
    /\ Forall forecast_day entries.
Proof.
  intros Hclock.
  destruct (get_weather_forecast_returns E city_name start_date end_date t
              Hclock) as (v & t' & Hrun & Hres).
  apply weather_result_days in Hres as (entries & -> & Hlen & Hdays).
  eauto.
Qed.

Lemma get_weather_forecast_days_witness :
  exists entries t',
    get_weather_forecast (online (Return []) (Date 2024 2 27)) (lit "Paris")
      (lit "2024-01-01") (lit "2024-01-08") 0%nat
    = (Return (JArr entries), t')
    /\ (1 <= length entries <= 5)%nat
    /\ Forall forecast_day entries.
Proof.
  apply get_weather_forecast_days. intros t. vm_compute.
  split; [reflexivity|discriminate].
Defined.

(** X6.  The interactions of a call are bounded, whether it returns or
    raises: at most one request for [get_amadeus_token], two for
    [search_city_code], six for [search_flights], nine for
    [search_hotels] (five of them for the offers of at most five
    hotels), four for [get_weather_forecast] (two requests and two
    readings of the clock), twenty for a directed request and
    twenty-three for a surprise request. *)
Theorem interactions_bounded (E : Env) (t : nat) :
  bounded 1 (get_amadeus_token E) t
  /\ (forall city_name, bounded 2 (search_city_code E city_name) t)
  /\ (forall origin destination departure_date return_date,
         bounded 6
           (search_flights E origin destination departure_date return_date)
           t)
  /\ (forall city_name check_in check_out,
         bounded 9 (search_hotels E city_name check_in check_out) t)
  /\ (forall city_name start_date end_date,
         bounded 4 (get_weather_forecast E city_name start_date end_date) t)
  /\ (forall f, bounded 20 (generate_itinerary E f) t)
  /\ bounded 23 (surprise_destination E) t.
Proof.
  split; [apply bounded_get_amadeus_token|].
  split; [intros; apply bounded_search_city_code|].
  split; [intros; apply bounded_search_flights|].
  split; [intros; apply bounded_search_hotels|].
  split; [intros; apply bounded_get_weather_forecast|].
  split; [intros; apply bounded_generate_itinerary|].
  apply bounded_surprise_destination.
Qed.

Lemma interactions_bounded_witness :
  bounded 9
    (search_hotels (online (Return []) (Date 2024 2 27)) (lit "Paris")
       (lit "2024-01-01") (lit "2024-01-08")) 0%nat
  /\ (search_hotels (online (Return []) (Date 2024 2 27)) (lit "Paris")
        (lit "2024-01-01") (lit "2024-01-08") 0%nat).2 = 9%nat.
Proof.
  split.
  - exact (proj1 (proj2 (proj2 (proj2
             (interactions_bounded
                (online (Return []) (Date 2024 2 27)) 0%nat)))) _ _ _).
  - vm_compute. reflexivity.
Defined.

(** X7.  Without both Amadeus credentials no request is sent: from any
    count, [search_city_code] returns [None] and [search_flights] and
    [search_hotels] return their fallback lists, and the count is
    unchanged. *)
Theorem no_credentials_no_request (E : Env) (t : nat) :
  unset (AMADEUS_API_KEY E) || unset (AMADEUS_API_SECRET E) = true ->
  (forall city_name, search_city_code E city_name t = (Return JNull, t))
  /\ (forall origin destination departure_date return_date,
         search_flights E origin destination departure_date return_date t
         = (Return (get_fallback_flights origin destination departure_date
                      return_date), t))
  /\ (forall city_name check_in check_out,
         search_hotels E city_name check_in check_out t
         = (Return (get_fallback_hotels city_name), t)).
Proof.
  intros Hunset. pose proof (get_amadeus_token_unset E t Hunset) as Ht.
  split; [|split]; intros.
  - now apply (search_city_code_no_token E city_name t JNull t).
  - now apply (search_flights_no_token E _ _ _ _ t JNull t).
  - now apply (search_hotels_no_token E _ _ _ t JNull t).
Qed.

Lemma no_credentials_no_request_witness :
  search_flights (offline (Return []) (Date 2024 2 27)) (lit "Oslo")
    (lit "Paris") (lit "2024-01-01") (lit "2024-01-08") 7%nat
  = (Return (get_fallback_flights (lit "Oslo") (lit "Paris")
               (lit "2024-01-01") (lit "2024-01-08")), 7%nat).
Proof.
  exact (proj1 (proj2
           (no_credentials_no_request (offline (Return []) (Date 2024 2 27))
              7%nat eq_refl)) _ _ _ _).
Defined.

(** ** The normaliser on texts without an object and on trailing commas *)

Lemma from_first_absent c s : (c ∉ s) -> from_first c s = None.
Proof.
  induction s as [|x r IH]; [reflexivity|]. intros H.
  apply not_elem_of_cons in H as [Hx Hr]. cbn [from_first].
  destruct (N.eqb_spec x c) as [->|_]; [contradiction|auto].
Qed.

Lemma from_first_subseteq c s r x :
  from_first c s = Some r -> x ∈ r -> x ∈ s.
Proof.
  induction s as [|y s' IH]; [discriminate|]. cbn [from_first].
  destruct (y =? c)%N.
  - now intros [= <-].
  - intros H Hx. apply list_elem_of_further. auto.
Qed.

Lemma search_object_without_braces s :
  (123%N ∉ s) \/ (125%N ∉ s) -> search_object s = None.
Proof.
  unfold search_object. intros [H|H].
  - now rewrite from_first_absent.
  - destruct (from_first 123 s) as [[|b r]|] eqn:Hf; try reflexivity.
    rewrite upto_last_absent; [reflexivity|].
    intros Hr. apply H. apply (from_first_subseteq _ _ _ _ Hf).
    now apply list_elem_of_further.
Qed.

(** X12.  A text without an opening brace, or without a closing brace,
    holds no candidate object: the normaliser returns the fallback
    dictionary.  The empty text is such a text. *)
Theorem clean_and_parse_response_without_braces (text : pystr) :
  (123%N ∉ text) \/ (125%N ∉ text) ->
  clean_and_parse_response text = Return fallback_itinerary.
Proof.
  intros H. unfold clean_and_parse_response, clean_and_parse_body.
  rewrite search_object_without_braces; [reflexivity|].
  destruct H as [H|H]; [left|right]; intros Hin; apply H;
    (eapply re_sub_fence_subseteq; [|eapply re_sub_fence_subseteq;
                                      [|exact Hin]]); discriminate.
Qed.

Lemma clean_and_parse_response_without_braces_witness :
  clean_and_parse_response [] = Return fallback_itinerary
  /\ clean_and_parse_response (lit "Sorry, I cannot plan this trip.")
     = Return fallback_itinerary.
Proof.
  split; apply clean_and_parse_response_without_braces; left; vm_compute;
    intros H; repeat (apply elem_of_cons in H as [H|H]; [discriminate|]);
    now apply elem_of_nil in H.
Defined.

Lemma trailing_comma_head x r :
  trailing_comma (x :: r)
  = if (x =? 44)%N then
      match drop_space r with
      | c :: rest => if is_closer c then Some ([c], rest) else None
      | [] => None
      end
    else None.
Proof.
  destruct (N.eqb_spec x 44) as [->|Hx]; [reflexivity|].
  unfold trailing_comma.
  destruct x as [|p]; [reflexivity|].
  do 7 (try destruct p as [p|p|]); try reflexivity. contradiction.
Qed.

Lemma is_closer_not_space c : is_closer c = true -> is_space c = false.
Proof.
  unfold is_closer. intros [->%N.eqb_eq| ->%N.eqb_eq]%orb_prop; reflexivity.
Qed.

Lemma drop_space_spaces ws c r :
  Forall (fun x => is_space x = true) ws -> is_space c = false ->
  drop_space (ws ++ c :: r) = c :: r.
Proof.
  intros Hws Hc. induction Hws as [|x ws Hx _ IH]; cbn [app drop_space].
  - now rewrite Hc.
  - now rewrite Hx.
Qed.

(** The comma put before a closer does not make an earlier comma a
    trailing one. *)
Lemma drop_space_insert a ws c b :
  is_closer c = true ->
  Forall (fun x => is_space x = true) ws ->
  match drop_space (a ++ c :: b) with
  | y :: rest => is_closer y
  | [] => false
  end = false ->
  match drop_space (a ++ 44%N :: ws ++ c :: b) with
  | y :: rest => is_closer y
  | [] => false
  end = false.
Proof.
  intros Hc Hws. induction a as [|x a IH]; cbn [app drop_space].
  - rewrite (is_closer_not_space _ Hc), Hc. discriminate.
  - destruct (is_space x); [exact IH|]. trivial.
Qed.

Lemma trailing_comma_insert x a ws c b :
  is_closer c = true ->
  Forall (fun y => is_space y = true) ws ->
  trailing_comma (x :: a ++ c :: b) = None ->
  trailing_comma (x :: a ++ 44%N :: ws ++ c :: b) = None.
Proof.
  intros Hc Hws. rewrite !trailing_comma_head.
  destruct (x =? 44)%N; [|reflexivity]. intros H.
  pose proof (drop_space_insert a ws c b Hc Hws) as Hi.
  destruct (drop_space (a ++ c :: b)) as [|y rest].
  - specialize (Hi eq_refl).
    destruct (drop_space (a ++ 44%N :: ws ++ c :: b)); [reflexivity|].
    now rewrite Hi.
  - destruct (is_closer y); [discriminate|]. specialize (Hi eq_refl).
    destruct (drop_space (a ++ 44%N :: ws ++ c :: b)); [reflexivity|].
    now rewrite Hi.
Qed.

(** The repair takes out a comma put before a closer of a text that
    has no trailing comma. *)
Lemma re_sub_trailing_comma_insert a ws c b :
  is_closer c = true ->
  Forall (fun y => is_space y = true) ws ->
  matches_somewhere trailing_comma (a ++ c :: b) = false ->
  re_sub trailing_comma (a ++ 44%N :: ws ++ c :: b) = a ++ c :: b.
Proof.
  intros Hc Hws. induction a as [|x a IH]; cbn [app matches_somewhere].
  - intros [_ Hb]%orb_false_elim.
    rewrite (re_sub_match trailing_comma _ [c] b trailing_comma_shrinks).
    + now rewrite (re_sub_no_match _ _ Hb).
    + cbn [trailing_comma].
      now rewrite (drop_space_spaces _ _ _ Hws (is_closer_not_space _ Hc)), Hc.
  - intros [Hx Ha]%orb_false_elim.
    rewrite re_sub_skip; [now rewrite IH|].
    apply trailing_comma_insert; [assumption..|].
    apply bool_decide_eq_false in Hx.
    destruct (trailing_comma (x :: a ++ c :: b)); [|reflexivity].
    exfalso. apply Hx. eauto.
Qed.

(** X13.  A trailing comma is repaired: when a JSON object text that
    the decoder accepts, without trailing commas, is given with a comma
    and whitespace put before one of its closing brackets or braces,
    the normaliser returns the object of the text without the comma.
    The text is taken from its opening brace to its closing brace, holds
    no three backticks in a row, and stands in a completion with no
    opening brace before it and no closing brace after it. *)
Theorem clean_and_parse_response_repairs (pre a ws b suf : pystr) (c : N)
    (v : json) :
  json_loads (a ++ c :: b) = Return v ->
  head a = Some 123%N -> last (c :: b) = Some 125%N ->
  is_closer c = true ->
  Forall (fun y => is_space y = true) ws ->
  (123%N ∉ pre) -> (125%N ∉ suf) ->
  matches_somewhere fence (a ++ 44%N :: ws ++ c :: b) = false ->
  matches_somewhere trailing_comma (a ++ c :: b) = false ->
  clean_and_parse_response (pre ++ (a ++ 44%N :: ws ++ c :: b) ++ suf)
  = Return v.
Proof.
  intros Hv Hh Hl Hc Hws Hpre Hsuf Hf Hm.
  destruct a as [|x a']; [discriminate|]. injection Hh as ->.
  assert (Hlast : last (123%N :: a' ++ 44%N :: ws ++ c :: b) = Some 125%N).
  { replace (123%N :: a' ++ 44%N :: ws ++ c :: b)
      with (((123%N :: a') ++ 44%N :: ws) ++ c :: b)
      by (now rewrite <- !app_assoc).
    rewrite last_app, Hl. reflexivity. }
  cbn [app] in *.
  destruct (re_sub_fence_around (lit "json") pre
              (a' ++ 44%N :: ws ++ c :: b) suf)
    as (pre1 & suf1 & E1 & Hpre1 & Hsuf1); try assumption.
  { vm_compute. intros H.
    repeat (apply elem_of_cons in H as [H|H]; [discriminate|]).
    now apply elem_of_nil in H. }
  destruct (re_sub_fence_around [] pre1 (a' ++ 44%N :: ws ++ c :: b) suf1)
    as (pre2 & suf2 & E2 & Hpre2 & Hsuf2); try assumption.
  { vm_compute. intros H.
    repeat (apply elem_of_cons in H as [H|H]; [discriminate|]).
    now apply elem_of_nil in H. }
  rewrite app_nil_r in E2.
  pose proof (search_object_around _ _ _ Hlast Hpre2 Hsuf2) as Hs.
  pose proof (re_sub_trailing_comma_insert (123%N :: a') ws c b Hc Hws Hm)
    as Hr.
  unfold clean_and_parse_response, clean_and_parse_body, fence_json, fence.
  cbn [app] in *. rewrite E1, E2, Hs, Hr, Hv. reflexivity.
Qed.

Lemma clean_and_parse_response_repairs_witness :
  clean_and_parse_response
    (lit "```json " ++ (qlit "{'cuisine': ['Ramen', 'Sushi'" ++ 44%N
                        :: lit " " ++ 93%N :: lit "}") ++ lit " ```")
  = Return (JObj [(lit "cuisine",
                   JArr [JStr (lit "Ramen"); JStr (lit "Sushi")])]).
Proof.
  apply (clean_and_parse_response_repairs (lit "```json ")
           (qlit "{'cuisine': ['Ramen', 'Sushi'") (lit " ") (lit "}")
           (lit " ```") 93%N);
    try (vm_compute; reflexivity).
  - repeat constructor.
  - vm_compute. intros H.
    repeat (apply elem_of_cons in H as [H|H]; [discriminate|]).
    now apply elem_of_nil in H.
  - vm_compute. intros H.
    repeat (apply elem_of_cons in H as [H|H]; [discriminate|]).
    now apply elem_of_nil in H.
Defined.

(** ** The city name *)

Lemma split_head_no_sep sep s : sep ∉ split_head sep s.
Proof.
  induction s as [|x r IH]; cbn [split_head]; [apply not_elem_of_nil|].
  destruct (N.eqb_spec x sep) as [->|Hx]; [apply not_elem_of_nil|].
  apply not_elem_of_cons. split; [congruence|exact IH].
Qed.

Lemma split_head_prefix sep s : exists r, s = split_head sep s ++ r.
Proof.
  induction s as [|x r [r' IH]]; cbn [split_head]; [now exists []|].
  destruct (x =? sep)%N; [now exists (x :: r)|].
  exists r'. cbn [app]. now rewrite <- IH.
Qed.

Lemma split_head_id sep s : (sep ∉ s) -> split_head sep s = s.
Proof.
  induction s as [|x r IH]; [reflexivity|].
  intros [Hx Hr]%not_elem_of_cons. cbn [split_head].
  destruct (N.eqb_spec x sep) as [->|_]; [contradiction|].
  now rewrite IH.
Qed.

Lemma drop_space_head s x :
  head (drop_space s) = Some x -> is_space x = false.
Proof.
  induction s as [|y r IH]; [discriminate|]. cbn [drop_space].
  destruct (is_space y) eqn:Hy; [exact IH|]. now intros [= <-].
Qed.

Lemma drop_space_id s :
  (forall x, head s = Some x -> is_space x = false) -> drop_space s = s.
Proof.
  destruct s as [|y r]; [reflexivity|]. intros H. cbn [drop_space].
  now rewrite (H y eq_refl).
Qed.

Lemma head_rev {A} (l : list A) : head (rev l) = last l.
Proof.
  induction l as [|y l' _] using rev_ind; [reflexivity|].
  now rewrite rev_app_distr, last_snoc.
Qed.

Lemma last_rev {A} (l : list A) : last (rev l) = head l.
Proof. destruct l as [|x l]; [reflexivity|]. cbn [rev]. apply last_snoc. Qed.

Lemma strip_parts s : exists a b, s = a ++ strip s ++ b.
Proof.
  unfold strip. destruct (drop_space_suffix s) as [ws Hs].
  destruct (drop_space_suffix (rev (drop_space s))) as [ws' Hr].
  exists ws, (rev ws'). rewrite <- rev_app_distr, <- Hr, rev_involutive.
  exact Hs.
Qed.

Lemma strip_trimmed s : trimmed (strip s).
Proof.
  unfold strip, trimmed. split; intros x.
  - rewrite head_rev. intros Hl.
    destruct (drop_space_suffix (rev (drop_space s))) as [ws' Hr].
    assert (Hx : last (rev (drop_space s)) = Some x)
      by (rewrite Hr, last_app, Hl; reflexivity).
    rewrite last_rev in Hx. now apply drop_space_head in Hx.
  - rewrite last_rev. apply drop_space_head.
Qed.

Lemma strip_id s : trimmed s -> strip s = s.
Proof.
  intros [Hh Hl]. unfold strip. rewrite (drop_space_id s Hh).
  rewrite drop_space_id; [apply rev_involutive|].
  intros x. rewrite head_rev. apply Hl.
Qed.

(** X11.  The city name taken from a destination text is the part before
    its first comma without the whitespace at its ends: it is a piece of
    the destination, it has no comma and no whitespace at its ends, and
    it is the destination itself when that has no comma and no
    whitespace at its ends.  A destination that is not a text raises an
    [AttributeError]. *)
Theorem py_city_name_clean (v : json) :
  (forall s, v = JStr s ->
     exists c,
       py_city_name v = Return c
       /\ (44%N ∉ c) /\ trimmed c
       /\ (exists a b, s = a ++ c ++ b)
       /\ ((44%N ∉ s) -> trimmed s -> c = s))
  /\ ((forall s, v <> JStr s) ->
      exists e, py_city_name v = Raise e /\ exn_cls e = AttributeError).
Proof.
  split.
  - intros s ->. exists (strip (split_head 44 s)). split; [reflexivity|].
    split; [|split; [apply strip_trimmed|split]].
    + intros Hin. destruct (strip_parts (split_head 44 s)) as (a & b & Hs).
      apply (split_head_no_sep 44 s). rewrite Hs.
      apply elem_of_app. right. apply elem_of_app. now left.
    + destruct (strip_parts (split_head 44 s)) as (a & b & Hs).
      destruct (split_head_prefix 44 s) as [r Hr].
      exists a, (b ++ r). rewrite Hr at 1. rewrite Hs at 1.
      now rewrite <- !app_assoc.
    + intros Hc Ht. rewrite (split_head_id _ _ Hc). now apply strip_id.
  - intros Hv. destruct v; try (eexists; split; reflexivity).
    now destruct (Hv s).
Qed.

Lemma py_city_name_clean_witness :
  exists c,
    py_city_name (jstr " Tokyo , Japan") = Return c
    /\ (44%N ∉ c) /\ trimmed c
    /\ (exists a b, lit " Tokyo , Japan" = a ++ c ++ b)
    /\ ((44%N ∉ lit " Tokyo , Japan") -> trimmed (lit " Tokyo , Japan") ->
        c = lit " Tokyo , Japan").
Proof.
  exact (proj1 (py_city_name_clean (jstr " Tokyo , Japan")) _ eq_refl).
Defined.

(** ** A directed request that fails *)

Lemma form_item_Raise f key key' e e' :
  form_item f key = Raise e -> form_item f key' = Raise e' -> e = e'.
Proof.
  unfold form_item.
  destruct (list_find _ f) as [[? [? ?]]|]; [discriminate|].
  destruct (list_find _ f) as [[? [? ?]]|]; [discriminate|].
  congruence.
Qed.

(** X9.  When a field that [generate_itinerary] reads is missing from
    the form, the answer has status 500 and the error of the missing
    key, and nothing outside the process has been called. *)
Theorem generate_itinerary_missing_field (E : Env) (f : form) (t : nat)
    (key : string) (e : exn) :
  key ∈ form_fields ->
  form_item f key = Raise e ->
  generate_itinerary E f t
  = (Return (error_response
               (lit "Error generating itinerary: " ++ exn_str e), 500), t).
Proof.
  intros Hkey He.
  unfold generate_itinerary, try_except, generate_itinerary_body.
  rewrite !bind_run. unfold lift.
  repeat match goal with
         | |- context [form_item f ?k] =>
             let Hk := fresh "Hk" in
             destruct (form_item f k) as [?|e'] eqn:Hk;
             [|now rewrite (form_item_Raise _ _ _ _ _ He Hk)]
         end.
  exfalso. unfold form_fields in Hkey.
  repeat (apply elem_of_cons in Hkey as [->|Hkey]; [congruence|]).
  now apply elem_of_nil in Hkey.
Qed.

Lemma generate_itinerary_missing_field_witness :
  exists e,
    form_item [(lit "mood", lit "relaxed")] "budget" = Raise e
    /\ generate_itinerary (online (Return []) (Date 2024 2 27))
         [(lit "mood", lit "relaxed")] 0%nat
       = (Return (error_response
                    (lit "Error generating itinerary: " ++ exn_str e), 500),
          0%nat).
Proof.
  destruct (form_item [(lit "mood", lit "relaxed")] "budget") as [x|e] eqn:He;
    [discriminate He|].
  exists e. split; [reflexivity|].
  apply (generate_itinerary_missing_field _ _ _ "budget" e); [|exact He].
  unfold form_fields. rewrite !elem_of_cons. auto.
Defined.

(** ** A directed request that fails after the text is generated *)

(** X10.  In a directed request whose form is complete, when the text
    generator raises, when the destination of the draft is not a text,
    or when the return date cannot be computed from the departure date
    and the duration, the answer has status 500 and the error of that
    step, and the only call outside the process was the one of the text
    generator: no pipeline has been called. *)
Theorem generate_itinerary_fails_early (E : Env) (f : form) (t : nat)
    (user_mood user_budget user_duration user_travel_style user_origin
     user_travel_means user_hotel_preference user_departure_date : pystr)
    (e : exn) :
  form_item f "mood" = Return user_mood ->
  form_item f "budget" = Return user_budget ->
  form_item f "duration" = Return user_duration ->
  form_item f "travel_style" = Return user_travel_style ->
  form_item f "origin_city" = Return user_origin ->
  form_item f "travel_means" = Return user_travel_means ->
  form_item f "hotel_preference" = Return user_hotel_preference ->
  form_item f "departure_date" = Return user_departure_date ->
  generate_content E t
    (directed_prompt user_mood user_budget user_duration user_travel_style
       user_origin user_travel_means user_hotel_preference
       user_departure_date) = Raise e
  \/ (exists text draft,
         generate_content E t
           (directed_prompt user_mood user_budget user_duration
              user_travel_style user_origin user_travel_means
              user_hotel_preference user_departure_date) = Return text
         /\ clean_and_parse_response text = Return (JObj draft)
         /\ (py_city_name
               (default (jstr "Unknown Destination")
                  (dict_lookup (lit "destination") draft)) = Raise e
             \/ ((exists city_name,
                     py_city_name
                       (default (jstr "Unknown Destination")
                          (dict_lookup (lit "destination") draft))
                     = Return city_name)
                 /\ compute_return_date (platform E) user_departure_date
                      user_duration = Raise e))) ->
  generate_itinerary E f t
  = (Return (error_response
               (lit "Error generating itinerary: " ++ exn_str e), 500), S t).
Proof.
  intros H1 H2 H3 H4 H5 H6 H7 H8 Hcase.
  unfold generate_itinerary, try_except, generate_itinerary_body.
  cbv beta iota zeta delta [mbind M_bind lift generate].
  rewrite H1; cbv beta iota. rewrite H2; cbv beta iota.
  rewrite H3; cbv beta iota. rewrite H4; cbv beta iota.
  rewrite H5; cbv beta iota. rewrite H6; cbv beta iota.
  rewrite H7; cbv beta iota. rewrite H8; cbv beta iota.
  destruct Hcase as [Hg|(text & draft & Hg & Hd & Hcase)]; rewrite Hg;
    cbv beta iota; [reflexivity|].
  rewrite Hd. cbv beta iota delta [py_get].
  destruct Hcase as [Hc|[[city_name Hc] Hr]]; rewrite Hc; cbv beta iota;
    [reflexivity|].
  rewrite Hr. reflexivity.
Qed.

Lemma generate_itinerary_fails_early_witness :
  exists e,
    compute_return_date sample_platform (lit "next week") (lit "7") = Raise e
    /\ generate_itinerary
         (offline (Return (qlit "{'destination': 'Tokyo, Japan'}"))
            (Date 2024 2 27))
         (sample_form "7" "next week") 0%nat
       = (Return (error_response
                    (lit "Error generating itinerary: " ++ exn_str e), 500),
          1%nat).
Proof.
  destruct (compute_return_date sample_platform (lit "next week") (lit "7"))
    as [r|e] eqn:Hc; [vm_compute in Hc; discriminate Hc|].
  exists e. split; [reflexivity|].
  apply (generate_itinerary_fails_early
           (offline (Return (qlit "{'destination': 'Tokyo, Japan'}"))
              (Date 2024 2 27))
           (sample_form "7" "next week") 0%nat
           (lit "relaxed") (lit "1500") (lit "7") (lit "solo") (lit "Oslo")
           (lit "plane") (lit "boutique") (lit "next week") e);
    try reflexivity.
  right. exists (qlit "{'destination': 'Tokyo, Japan'}"),
    [(lit "destination", jstr "Tokyo, Japan")].
  split; [reflexivity|]. split; [vm_compute; reflexivity|].
  right. split; [exists (lit "Tokyo"); vm_compute; reflexivity|exact Hc].
Defined.

(** ** A directed request that succeeds *)

(** X8.  When a directed request is answered with status 200, the eight
    fields were read from the form, the text generator was called once
    with the prompt made of them, and the draft is the normalised
    answer; the city name is the one of the draft's destination, Unknown
    Destination when the draft has none; the return date is the one
    computed from the departure date and the duration; the pipelines
    were called in the order flights, hotels, weather, with the origin
    of the form, that city name, the departure date as the form gives it
    and that return date; and the answer holds the draft's fields, with
    the defaults of the source, and the three lists. *)
Theorem generate_itinerary_flow (E : Env) (f : form) (t : nat) (data : json)
    (t' : nat) :
  generate_itinerary E f t = (Return (data, 200), t') ->
  directed_flow E f t data t'.
Proof. apply generate_itinerary_success. Qed.

Lemma generate_itinerary_flow_witness :
  exists data t',
    directed_flow
      (offline (Return (qlit "{'destination': 'Tokyo, Japan'}"))
         (Date 2024 2 27))
      (sample_form "7" "2024-01-01") 0%nat data t'.
Proof.
  destruct (generate_itinerary
              (offline (Return (qlit "{'destination': 'Tokyo, Japan'}"))
                 (Date 2024 2 27))
              (sample_form "7" "2024-01-01") 0%nat) as [r t'] eqn:Hrun.
  assert (Hr : exists data, r = Return (data, 200)).
  { revert Hrun. vm_compute. intros [= <- _]. eauto. }
  destruct Hr as [data ->]. exists data, t'.
  exact (generate_itinerary_flow _ _ _ _ _ Hrun).
Defined.

(** X14.  Without the Amadeus credentials and without the weather key,
    on a clock in range, a directed request that is answered with
    status 200 has called nothing but the text generator and the clock:
    its flights are the fallback flights from the origin of the form to
    the city of the destination it answers, on the departure date of
    the form and the computed return date; its hotels are the fallback
    hotels of that city; and its forecast is the fallback forecast of
    the five days from the day the clock shows. *)
Theorem generate_itinerary_without_keys (E : Env) (f : form) (t : nat)
    (data : json) (t' : nat) :
  unset (AMADEUS_API_KEY E) || unset (AMADEUS_API_SECRET E) = true ->
  unset (OPENWEATHER_API_KEY E) = true ->
  clock_in_range E ->
  generate_itinerary E f t = (Return (data, 200), t') ->
  exists user_origin user_departure_date user_duration destination city_name
         return_date,
    form_item f "origin_city" = Return user_origin
    /\ form_item f "departure_date" = Return user_departure_date
    /\ form_item f "duration" = Return user_duration
    /\ response_field data "destination" = Some destination
    /\ py_city_name destination = Return city_name
    /\ compute_return_date (platform E) user_departure_date user_duration
       = Return return_date
    /\ t' = S (S t)
    /\ response_field data "flight_options"
       = Some (get_fallback_flights user_origin city_name
                 user_departure_date return_date)
    /\ response_field data "hotel_options"
       = Some (get_fallback_hotels city_name)
    /\ response_field data "weather_forecast"
       = Some (JArr (map (fallback_weather_entry (datetime_now E (S t)))
                         [0; 1; 2; 3; 4])).
Proof.
  intros Ha Hw Hclock Hrun. apply generate_itinerary_success in Hrun.
  destruct Hrun
    as (mood & budget & duration & style & origin & means & hotel & departure
        & text & draft & city_name & return_date & flights & t1 & hotels & t2
        & weather & Hrun).
  destruct Hrun as (_ & _ & Hdur & _ & Horigin & _ & _ & Hdep & _ & _ & Hcity
                    & Hret & Hf & Hh & Hwf & ->).
  pose proof (get_amadeus_token_unset E (S t) Ha) as Ht.
  rewrite (search_flights_no_token E _ _ _ _ (S t) JNull (S t) Ht eq_refl)
    in Hf.
  injection Hf as <- <-.
  rewrite (search_hotels_no_token E _ _ _ (S t) JNull (S t) Ht eq_refl) in Hh.
  injection Hh as <- <-.
  rewrite (get_weather_forecast_no_key E _ _ _ (S t) Hw Hclock) in Hwf.
  rewrite (proj1 (get_fallback_weather_returns E city_name (S t) Hclock))
    in Hwf.
  injection Hwf as <- <-.
  exists origin, departure, duration,
    (default (jstr "Unknown Destination")
       (dict_lookup (lit "destination") draft)), city_name, return_date.
  repeat (split; [assumption || reflexivity|]). reflexivity.
Qed.

Lemma generate_itinerary_without_keys_witness :
  exists data t' user_origin user_departure_date user_duration destination
         city_name return_date,
    form_item (sample_form "7" "2024-01-01") "origin_city"
    = Return user_origin
    /\ form_item (sample_form "7" "2024-01-01") "departure_date"
       = Return user_departure_date
    /\ form_item (sample_form "7" "2024-01-01") "duration"
       = Return user_duration
    /\ response_field data "destination" = Some destination
    /\ py_city_name destination = Return city_name
    /\ compute_return_date sample_platform user_departure_date user_duration
       = Return return_date
    /\ t' = 2%nat
    /\ response_field data "flight_options"
       = Some (get_fallback_flights user_origin city_name
                 user_departure_date return_date)
    /\ response_field data "hotel_options"
       = Some (get_fallback_hotels city_name)
    /\ response_field data "weather_forecast"
       = Some (JArr (map (fallback_weather_entry (Date 2024 2 27))
                         [0; 1; 2; 3; 4])).
Proof.
  destruct (generate_itinerary
              (offline (Return (qlit "{'destination': 'Tokyo, Japan'}"))
                 (Date 2024 2 27))
              (sample_form "7" "2024-01-01") 0%nat) as [r t'] eqn:Hrun.
  assert (Hr : exists data, r = Return (data, 200)).
  { revert Hrun. vm_compute. intros [= <- _]. eauto. }
  destruct Hr as [data ->]. exists data, t'.
  refine (generate_itinerary_without_keys
            (offline (Return (qlit "{'destination': 'Tokyo, Japan'}"))
               (Date 2024 2 27))
            (sample_form "7" "2024-01-01") 0%nat data t' eq_refl eq_refl _
            Hrun).
  intros t. vm_compute. split; [reflexivity|discriminate].
Defined.

(** ** The live forecast and the dates of every forecast *)

(** X15.  With its key, when the geocoding answer has status 200 and a
    body that is not empty, and the forecast answer has status 200,
    [get_weather_forecast] returns the entries collected from the
    forecast answer when there is at least one: it has sent the two
    requests, the second with the latitude and the longitude of the
    first location of the first answer, and it has not read the
    clock. *)
Theorem get_weather_forecast_live (E : Env)
    (city_name start_date end_date : pystr) (t : nat)
    (resp wresp : response) (data lat lon weather_data : json)
    (forecast : list json) :
  unset (OPENWEATHER_API_KEY E) = false ->
  requests_send E t (geocode_request E city_name) = Return resp ->
  status_code resp = 200 ->
  response_json resp = Return data ->
  truthy (platform E) data = true ->
  (g ← py_first data; py_item g "lat") = Return lat ->
  (g ← py_first data; py_item g "lon") = Return lon ->
  requests_send E (S t) (forecast_request E lat lon) = Return wresp ->
  status_code wresp = 200 ->
  response_json wresp = Return weather_data ->
  collect_forecast E weather_data = Return forecast ->
  forecast <> [] ->
  get_weather_forecast E city_name start_date end_date t
  = (Return (JArr forecast), S (S t)).
Proof.
  intros Hk Hr Hs Hj Ht Hlat Hlon Hw Hws Hwj Hc Hne.
  unfold geocode_request, forecast_request in *.
  apply try_except_Return.
  unfold get_weather_forecast_body. rewrite Hk, bind_run.
  unfold requests_get at 1. cbn [map fst snd]. rewrite Hr, bind_run.
  unfold lift at 1. rewrite Hs. cbn [Z.eqb Pos.eqb negb].
  rewrite Hj. cbn [mbind outcome_bind mret outcome_ret]. rewrite Ht.
  cbn [negb]. rewrite bind_run. unfold lift at 1.
  rewrite bind_run. unfold lift at 1. rewrite Hlat.
  rewrite bind_run. unfold lift at 1. rewrite Hlon.
  rewrite bind_run. unfold requests_get at 1. cbn [map fst snd]. rewrite Hw.
  rewrite Hws. cbn [Z.eqb Pos.eqb negb].
  rewrite bind_run. unfold lift at 1. rewrite Hwj.
  rewrite bind_run. unfold lift at 1. rewrite Hc.
  destruct forecast; [contradiction|reflexivity].
Qed.

Lemma get_weather_forecast_live_witness :
  get_weather_forecast (online (Return []) (Date 2024 2 27)) (lit "Paris")
    (lit "2024-01-01") (lit "2024-01-08") 0%nat
  = (Return
       (JArr
          [dict_display
             [("date", jstr "1970-01-01"); ("temperature", JInt 10);
              ("description", jstr "Clear Sky"); ("icon", jstr "01d")]%string;
           dict_display
             [("date", jstr "1970-01-02"); ("temperature", JInt 9);
              ("description", jstr "Light Rain"); ("icon", jstr "01d")]%string]),
     2%nat).
Proof.
  apply (get_weather_forecast_live
           (online (Return []) (Date 2024 2 27)) (lit "Paris")
           (lit "2024-01-01") (lit "2024-01-08") 0%nat
           {| status_code := 200; text := qlit sample_geocode |}
           {| status_code := 200; text := qlit sample_forecast |}
           (JArr [JObj [(lit "name", jstr "Paris"); (lit "lat", JInt 48);
                        (lit "lon", JInt 2)]])
           (JInt 48) (JInt 2) sample_weather_data);
    try (vm_compute; reflexivity).
  discriminate.
Defined.

Lemma collect_forecast_NoDup E weather_data forecast :
  collect_forecast E weather_data = Return forecast ->
  NoDup (map entry_date forecast).
Proof.
  unfold collect_forecast. intros H. bind_steps H.
  destruct (truthy _ _); [|injection H as <-; constructor].
  bind_steps H. injection H as <-.
  match goal with
  | Hl : forecast_loop _ ?items _ = Return ?st |- _ =>
      destruct st as [forecast' seen'];
      destruct (forecast_loop_dates _ _ _ _ Hl) as (dates & Hdates & Hlen);
      destruct (forecast_loop_refines _ _ _ _ _ _ _ Hdates Hl)
        as (new & -> & Hmap)
  end.
  cbn [length app fst] in *. change (5 - 0)%nat with 5%nat in Hmap.
  rewrite (mapM_entry_dates _ _ _ Hmap). apply first_five_days_NoDup.
Qed.

Lemma entry_date_fallback base_date i :
  entry_date (fallback_weather_entry base_date i)
  = strftime (ord2ymd (toordinal base_date + i)).
Proof. reflexivity. Qed.

Lemma fallback_dates_inj base_date i j :
  0 < toordinal base_date <= MAXORDINAL - 4 ->
  0 <= i <= 4 -> 0 <= j <= 4 ->
  entry_date (fallback_weather_entry base_date i)
  = entry_date (fallback_weather_entry base_date j) ->
  i = j.
Proof.
  intros Hb Hi Hj. rewrite !entry_date_fallback. intros Heq.
  destruct (ord2ymd_spec (toordinal base_date + i)) as [Vi Oi]; [lia|].
  destruct (ord2ymd_spec (toordinal base_date + j)) as [Vj Oj]; [lia|].
  apply (strftime_inj _ _ Vi Vj) in Heq. rewrite Heq in Oi. lia.
Qed.

Lemma fallback_dates_NoDup base_date :
  0 < toordinal base_date <= MAXORDINAL - 4 ->
  NoDup (map entry_date
             (map (fallback_weather_entry base_date) [0; 1; 2; 3; 4])).
Proof.
  intros Hb. rewrite map_map.
  apply (NoDup_fmap_2_strong
           (fun i => entry_date (fallback_weather_entry base_date i))).
  - intros i j Hi Hj.
    apply fallback_dates_inj; [exact Hb| |].
    + repeat (apply elem_of_cons in Hi as [->|Hi]; [lia|]).
      now apply elem_of_nil in Hi.
    + repeat (apply elem_of_cons in Hj as [->|Hj]; [lia|]).
      now apply elem_of_nil in Hj.
  - repeat constructor; rewrite ?elem_of_cons, ?elem_of_nil; lia.
Qed.

(** X16.  When the clock shows a day at least four days before the end
    of the calendar, no two entries of the forecast that
    [get_weather_forecast] returns have the same date, whether the
    entries were collected from the provider or are those of the
    fallback forecast. *)
Theorem get_weather_forecast_distinct_dates (E : Env)
    (city_name start_date end_date : pystr) (t : nat) :
  clock_in_range E ->
  exists entries t',
    get_weather_forecast E city_name start_date end_date t
    = (Return (JArr entries), t')
    /\ NoDup (map entry_date entries).
Proof.
  intros Hclock.
  destruct (get_weather_forecast_returns E city_name start_date end_date t
              Hclock) as (v & t' & Hrun & Hres).
  destruct Hres as [(t0 & Hf)|(weather_data & forecast & Hc & _ & ->)].
  - rewrite (proj1 (get_fallback_weather_returns E city_name t0 Hclock))
      in Hf.
    injection Hf as <- <-. eexists _, _. split; [exact Hrun|].
    apply fallback_dates_NoDup, Hclock.
  - exists forecast, t'. split; [exact Hrun|].
    now apply collect_forecast_NoDup in Hc.
Qed.

Lemma get_weather_forecast_distinct_dates_witness :
  exists entries t',
    get_weather_forecast (offline (Return []) (Date 2024 2 27)) (lit "Paris")
      (lit "2024-01-01") (lit "2024-01-08") 0%nat
    = (Return (JArr entries), t')
    /\ NoDup (map entry_date entries).
Proof.
  apply get_weather_forecast_distinct_dates. intros t. vm_compute.
  split; [reflexivity|discriminate].
Defined.

(** ** The stay of a surprise request *)

(** X17.  In a surprise request answered with status 200 the departure
    date and the return date come from two readings of the clock; when
    both readings show the same day, the return date given to the
    pipelines is the fifth day after the departure date. *)
Theorem surprise_destination_stay (E : Env) (t : nat) (data : json)
    (t' : nat) :
  surprise_destination E t = (Return (data, 200), t') ->
  datetime_now E (S (S t)) = datetime_now E (S (S (S t))) ->
  exists tomorrow return_day city_name flights t1 hotels t2 weather,
    valid_date tomorrow = true /\ valid_date return_day = true
    /\ toordinal return_day = toordinal tomorrow + 5
    /\ search_flights E (lit "New York") city_name (strftime tomorrow)
         (strftime return_day) (S (S (S (S t)))) = (Return flights, t1)
    /\ search_hotels E city_name (strftime tomorrow) (strftime return_day) t1
       = (Return hotels, t2)
    /\ get_weather_forecast E city_name (strftime tomorrow)
         (strftime return_day) t2 = (Return weather, t').
Proof.
  intros Hrun Hsame. apply surprise_destination_success in Hrun.
  destruct Hrun
    as (random_destination & text & draft & city_name & tomorrow & return_day
        & flights & t1 & hotels & t2 & weather & _ & _ & _ & _ & Hv1 & Ho1
        & Hv6 & Ho6 & Hf & Hh & Hw & _).
  exists tomorrow, return_day, city_name, flights, t1, hotels, t2, weather.
  repeat (split; [assumption|]). split; [|auto]. rewrite Hsame in Ho1. lia.
Qed.

Lemma surprise_destination_stay_witness :
  exists tomorrow return_day,
    valid_date tomorrow = true /\ valid_date return_day = true
    /\ toordinal return_day = toordinal tomorrow + 5.
Proof.
  destruct (surprise_destination
              (offline (Return (qlit "{'itinerary': 'Day 1'}"))
                 (Date 2024 2 27)) 0%nat) as [r t'] eqn:Hrun.
  assert (Hr : exists data, r = Return (data, 200)).
  { revert Hrun. vm_compute. intros [= <- _]. eauto. }
  destruct Hr as [data ->].
  destruct (surprise_destination_stay _ _ _ _ Hrun eq_refl)
    as (tomorrow & return_day & _ & _ & _ & _ & _ & _ & H1 & H6 & H5 & _).
  exists tomorrow, return_day. auto.
Defined.
